(** * FUEL: household cooking-event and fuel-usage analysis

    A shallow embedding of [FUEL/household.py] (class [Household]) and the
    properties of its event detection, boundary search, significant-change
    filter and day bucketing.

    Conventions of the embedding:
    - sensor readings (Python floats) are the rationals [Q] that the
      doubles denote; a comparison of two doubles is exact ([temp == 0] is
      [Qeq_bool], [a < b] is [Qltb]);
    - the threshold test of the significant-change filter is computed in
      doubles as the program computes it: the difference of the two
      readings is rounded to the nearest double ([float_sub], [round64]) and
      compared with the threshold as a double, because that rounding
      decides which candidates are kept; there a rational that is not a
      double stands for the double nearest to it, as a decimal literal
      does;
    - the weight differences and the minutes stored in the day series are
      kept as exact rationals, from which the values of the program differ
      by rounding only;
    - timestamps are whole seconds ([Z]); for a difference [d] of two
      timestamps, [d.days] is [d / 86400] and [d.seconds] is [d mod 86400]
      (floor division, as Python normalises a timedelta);
    - sample indices are [nat]; a pandas series with its default index is a
      [list], and a label lookup outside of it raises [KeyError];
    - exceptions are values of [exn], a call returns a [result];
    - the per-day dictionaries are [gmap Z Q]; the per-subject dictionaries,
      whose insertion order decides the order of the rows of a table, are
      association lists updated by [dict_update]. *)

From Stdlib Require Import ZArith QArith Qabs Lia.
From stdpp Require Import base gmap strings list fin_maps.

Local Open Scope Z_scope.

(** ** Exceptions and results *)

Inductive exn : Type :=
| ValueError (msg : string)
| IndexError
| KeyError
| TypeError
| AttributeError
| UnboundLocalError.

Inductive result (A : Type) : Type :=
| Ok (a : A)
| Raise (e : exn).
Arguments Ok {A} a.
Arguments Raise {A} e.

Definition bind {A B} (r : result A) (k : A → result B) : result B :=
  match r with
  | Ok a => k a
  | Raise e => Raise e
  end.

Notation "'let*' x ':=' r 'in' k" := (bind r (fun x => k))
  (at level 10, x pattern, r at level 100, k at level 200).

Definition raises {A} (r : result A) : Prop := ∃ e, r = Raise e.

Definition from_option {A} (e : exn) (o : option A) : result A :=
  match o with
  | Some a => Ok a
  | None => Raise e
  end.

(** [for x in l: acc = f acc x], where the body may raise. *)
Fixpoint for_each {A S} (f : S → A → result S) (l : list A) (acc : S) : result S :=
  match l with
  | [] => Ok acc
  | x :: l' => let* acc' := f acc x in for_each f l' acc'
  end.

(** ** Python values that reach the type checks *)

Inductive pyval : Type :=
| PyInt (z : Z)
| PyFloat (q : Q)
| PyBool (b : bool)
| PyStr (s : string)
| PyNone.

(** [type(v) == int]: a [bool] is not of type [int]. *)
Definition is_int (v : pyval) : option Z :=
  match v with
  | PyInt z => Some z
  | _ => None
  end.

(** The number a value stands for in an arithmetic comparison. *)
Definition as_number (v : pyval) : option Q :=
  match v with
  | PyInt z => Some (inject_Z z)
  | PyFloat q => Some q
  | PyBool b => Some (if b then 1%Q else 0%Q)
  | PyStr _ | PyNone => None
  end.

Definition Qltb (a b : Q) : bool := negb (Qle_bool b a).

(** The subject argument of the public operations: a string, a list (whose
    elements may or may not be strings), or anything else. *)
Inductive pyelem : Type :=
| EStr (s : string)
| ENotStr.

Inductive subject_arg : Type :=
| SStr (s : string)
| SList (l : list pyelem)
| SOther.

Definition elem_is_str (e : pyelem) : bool :=
  match e with
  | EStr _ => true
  | ENotStr => false
  end.

(** Iterating a Python string yields its characters as one-character
    strings; iterating a list yields its elements. *)
Fixpoint chars (s : string) : list string :=
  match s with
  | EmptyString => []
  | String c s' => String c EmptyString :: chars s'
  end.

Definition elem_str (e : pyelem) : string :=
  match e with
  | EStr s => s
  | ENotStr => EmptyString
  end.

Definition iterate (a : subject_arg) : list string :=
  match a with
  | SStr s => chars s
  | SList l => elem_str <$> l
  | SOther => []
  end.

Definition in_list (s : string) (l : list string) : bool :=
  bool_decide (s ∈ l).

(** ** Insertion-ordered dictionaries keyed by subject *)

Fixpoint dict_update {V} (k : string) (v : V) (d : list (string * V)) : list (string * V) :=
  match d with
  | [] => [(k, v)]
  | (k', v') :: d' =>
      if String.eqb k k' then (k', v) :: d' else (k', v') :: dict_update k v d'
  end.

Fixpoint dict_get {V} (k : string) (d : list (string * V)) : option V :=
  match d with
  | [] => None
  | (k', v') :: d' => if String.eqb k k' then Some v' else dict_get k d'
  end.

Definition dict_keys {V} (d : list (string * V)) : list string := fst <$> d.

(** ** The data set *)

Record DataFrame : Type := {
  timestamp : list Z;
  channels : list (string * list Q)
}.

Definition columns (df : DataFrame) : list string :=
  "timestamp"%string :: (fst <$> channels df).

(** [df[name]] used as a numeric series. *)
Definition channel (df : DataFrame) (name : string) : result (list Q) :=
  match dict_get name (channels df) with
  | Some col => Ok col
  | None => if String.eqb name "timestamp" then Raise TypeError else Raise KeyError
  end.

(** [series[i]] by label on the default index. *)
Definition at_index {A} (l : list A) (i : nat) : result A :=
  from_option KeyError (l !! i).

Inductive dataframe_arg : Type :=
| IsDataFrame (df : DataFrame)
| NotDataFrame.

Inductive list_arg : Type :=
| IsList (l : list string)
| NotList.

Definition seconds_per_day : Z := 86400.

(** [td.days] and [td.seconds] of a timedelta of [td] seconds. *)
Definition days (td : Z) : Z := td / seconds_per_day.
Definition seconds (td : Z) : Z := td mod seconds_per_day.

(** ** The household *)

Record Household : Type := {
  df_stoves : DataFrame;
  stoves : list string;
  fuels : list string;
  temp_threshold : Z;
  time_between_events : Z;
  study_duration : Z;
  weight_threshold : pyval;
  cook_events : option (list (string * list nat));
  weight_changes : option (list (string * list nat))
}.

Definition set_cook_events (hh : Household) (ce : list (string * list nat)) : Household :=
  {| df_stoves := df_stoves hh; stoves := stoves hh; fuels := fuels hh;
     temp_threshold := temp_threshold hh;
     time_between_events := time_between_events hh;
     study_duration := study_duration hh;
     weight_threshold := weight_threshold hh;
     cook_events := Some ce;
     weight_changes := weight_changes hh |}.

Definition set_weight_changes (hh : Household) (wc : list (string * list nat)) : Household :=
  {| df_stoves := df_stoves hh; stoves := stoves hh; fuels := fuels hh;
     temp_threshold := temp_threshold hh;
     time_between_events := time_between_events hh;
     study_duration := study_duration hh;
     weight_threshold := weight_threshold hh;
     cook_events := cook_events hh;
     weight_changes := Some wc |}.

Definition check_non_negative_int (v : pyval) (msg : string) : result Z :=
  match is_int v with
  | Some z => if z <? 0 then Raise (ValueError msg) else Ok z
  | None => Raise (ValueError msg)
  end.

Definition check_columns (names : list string) (contents : list string) (msg : string)
  : result unit :=
  for_each (fun _ s => if in_list s contents then Ok tt else Raise (ValueError msg))
           names tt.

(** [Household.__init__]. *)
Definition Household_init (dataframe : dataframe_arg) (stoves_arg fuels_arg : list_arg)
    (temp_threshold_arg time_between_events_arg weight_threshold_arg : pyval)
  : result Household :=
  match dataframe with
  | NotDataFrame => Raise (ValueError "Must put in a dataframe!")
  | IsDataFrame df =>
    match stoves_arg with
    | NotList => Raise (ValueError "Must put in a list of stove types!")
    | IsList st =>
      match fuels_arg with
      | NotList => Raise (ValueError "Must put in a list of fuel types!")
      | IsList fu =>
        let* tbe := check_non_negative_int time_between_events_arg
                      "The time between events must be a positive integer!" in
        let* tt_ := check_non_negative_int temp_threshold_arg
                      "The temperature threshold must be a positive integer!" in
        let* _ := check_columns st (columns df)
                      "One or more of the stove inputs were not found in the dataframe." in
        let* _ := check_columns fu (columns df)
                      "One or more of the fuel inputs were not found in the dataframe." in
        let* t_last := from_option IndexError (last (timestamp df)) in
        let* t_first := from_option KeyError (timestamp df !! 0%nat) in
        Ok {| df_stoves := df; stoves := st; fuels := fu;
              temp_threshold := tt_;
              time_between_events := tbe;
              study_duration := t_last - t_first;
              weight_threshold := weight_threshold_arg;
              cook_events := None;
              weight_changes := None |}
      end
    end
  end.

(** ** Subject validation *)

Definition check_list_of_str (a : subject_arg) (msg_list msg_other : string) : result unit :=
  match a with
  | SList l => if forallb elem_is_str l then Ok tt else Raise (ValueError msg_list)
  | SStr _ => Ok tt
  | SOther => Raise (ValueError msg_other)
  end.

Definition is_All (a : subject_arg) : bool :=
  match a with
  | SStr s => String.eqb s "All"
  | _ => false
  end.

(** [Household.check_stove_type]. *)
Definition check_stove_type (hh : Household) (stove : subject_arg) : result (list string) :=
  let* _ := check_list_of_str stove "Must input all stoves as strings!"
                                    "Must input stove type as string!" in
  if is_All stove then Ok (stoves hh)
  else
    let* stove_type :=
      for_each (fun acc s =>
                  if in_list s (stoves hh) then Ok (acc ++ [s])
                  else Raise (ValueError (s ++ " not found in data set.")))
               (iterate stove) [] in
    match stove_type with
    | [] => Raise (ValueError "Stove not found in data set.")
    | _ => Ok stove_type
    end.

(** [Household.check_fuel_type]. The name [f] of its last [raise] is the
    loop variable after the loop: the last item iterated, unbound when
    nothing was iterated. *)
Definition check_fuel_type (hh : Household) (fuel : subject_arg) : result (list string) :=
  let* _ := check_list_of_str fuel "Must input all fuels as strings!"
                                   "Must input fuel type as string!" in
  if is_All fuel then Ok (fuels hh)
  else
    let fuel_type := filter (fun f => in_list f (fuels hh) = true) (iterate fuel) in
    match fuel_type with
    | [] =>
        match last (iterate fuel) with
        | Some f => Raise (ValueError (f ++ " not found in data set."))
        | None => Raise UnboundLocalError
        end
    | _ => Ok fuel_type
    end.

(** ** Peak detection: [scipy.signal.find_peaks]

    The function is imported from SciPy and is not part of the repository.
    It is embedded here after the library's algorithm, for the two keyword
    arguments the repository passes ([height] and [distance]):
    the local maxima of the channel (the middle of a flat top counts once,
    the first and the last sample never do), then those of height at least
    [height], then a selection by distance that visits the peaks from the
    highest down and drops the neighbours closer than [distance] of every
    peak it keeps. A [distance] below 1 is rejected with a [ValueError].
    Peaks of equal height are visited in the order of a stable sort, the
    last one first; with distance 1, the value used on fuel channels, the
    selection drops nothing and the order is immaterial. *)

Definition reading (x : list Q) (i : nat) : Q := nth i x 0%Q.

(** Index of the next sample that differs from [xi], at most [i_max]. *)
Fixpoint skip_plateau (x : list Q) (xi : Q) (i_max fuel i_ahead : nat) : nat :=
  match fuel with
  | O => i_ahead
  | S fuel' =>
      if (i_ahead <? i_max)%nat && Qeq_bool (reading x i_ahead) xi
      then skip_plateau x xi i_max fuel' (S i_ahead)
      else i_ahead
  end.

Fixpoint local_maxima_loop (x : list Q) (i_max fuel i : nat) : list nat :=
  match fuel with
  | O => []
  | S fuel' =>
      if (i <? i_max)%nat then
        if Qltb (reading x (i - 1)) (reading x i) then
          let i_ahead := skip_plateau x (reading x i) i_max (length x) (i + 1) in
          if Qltb (reading x i_ahead) (reading x i) then
            ((i + (i_ahead - 1)) `div` 2)%nat :: local_maxima_loop x i_max fuel' (i_ahead + 1)
          else local_maxima_loop x i_max fuel' (i + 1)
        else local_maxima_loop x i_max fuel' (i + 1)
      else []
  end.

Definition local_maxima_1d (x : list Q) : list nat :=
  local_maxima_loop x (length x - 1) (length x) 1.

(** Stable insertion of a peak position into positions sorted by
    increasing priority. *)
Fixpoint insert_by_priority (prio : nat → Q) (j : nat) (sorted : list nat) : list nat :=
  match sorted with
  | [] => [j]
  | k :: rest =>
      if Qltb (prio j) (prio k) then j :: k :: rest
      else k :: insert_by_priority prio j rest
  end.

Definition argsort (prio : nat → Q) (n : nat) : list nat :=
  foldl (fun sorted j => insert_by_priority prio j sorted) [] (seq 0 n).

Fixpoint flag_earlier (peaks : list nat) (pj : nat) (d : Z) (k : nat) (keep : list bool)
  : list bool :=
  match k with
  | O => keep
  | S k' =>
      if Z.of_nat pj - Z.of_nat (nth k' peaks 0%nat) <? d
      then flag_earlier peaks pj d k' (<[k' := false]> keep)
      else keep
  end.

Fixpoint flag_later (peaks : list nat) (pj : nat) (d : Z) (fuel k : nat) (keep : list bool)
  : list bool :=
  match fuel with
  | O => keep
  | S fuel' =>
      if (k <? length peaks)%nat && (Z.of_nat (nth k peaks 0%nat) - Z.of_nat pj <? d)
      then flag_later peaks pj d fuel' (S k) (<[k := false]> keep)
      else keep
  end.

Definition select_by_peak_distance (peaks : list nat) (priority : nat → Q) (d : Z)
  : list bool :=
  foldl (fun keep j =>
           if nth j keep false then
             let pj := nth j peaks 0%nat in
             flag_later peaks pj d (length peaks) (S j) (flag_earlier peaks pj d j keep)
           else keep)
        (replicate (length peaks) true)
        (reverse (argsort priority (length peaks))).

Fixpoint select {A} (l : list A) (keep : list bool) : list A :=
  match l, keep with
  | a :: l', b :: keep' => if b then a :: select l' keep' else select l' keep'
  | _, _ => []
  end.

Definition find_peaks (x : list Q) (height distance : Z) : result (list nat) :=
  if distance <? 1 then Raise (ValueError "`distance` must be greater or equal to 1")
  else
    let peaks := filter (fun p => Qle_bool (inject_Z height) (reading x p) = true)
                        (local_maxima_1d x) in
    let keep := select_by_peak_distance peaks (fun j => reading x (nth j peaks 0%nat))
                                        distance in
    Ok (select peaks keep).

(** ** Cooking events *)

(** [Household.cooking_events]: the counts, and the household with its
    cache of peak indices replaced. *)
Definition cooking_events (hh : Household) (stove : subject_arg)
  : result (Household * list (string * nat)) :=
  match stove with
  | SStr _ =>
      let* stove_type := check_stove_type hh stove in
      let* dicts :=
        for_each (fun '(number_of_cooking_events, cook_events_list) s =>
                    let* col := channel (df_stoves hh) s in
                    let* peaks := find_peaks col (temp_threshold hh)
                                             (time_between_events hh) in
                    Ok (dict_update s (length peaks) number_of_cooking_events,
                        dict_update s peaks cook_events_list))
                 stove_type ([], []) in
      Ok (set_cook_events hh dicts.2, dicts.1)
  | _ => Raise (ValueError "Must input fuel type as a string!")
  end.

(** ** Fuel usage *)

(** *** Rounding to a double

    [round64 q] is the IEEE 754 binary64 number nearest to [q], ties to the
    even mantissa, with gradual underflow, as a fraction in lowest terms; a
    magnitude that rounds past the largest double gives [2 ^ 1024] in place
    of the infinity, which compares with every double as the infinity
    does. *)

(** [floor (log2 (a / d))] for positive [a] and [d]. *)
Definition binade (a d : Z) : Z :=
  let e0 := Z.log2 a - Z.log2 d in
  if (if 0 <=? e0 then d * 2 ^ e0 <=? a else d <=? a * 2 ^ (- e0)) then e0 else e0 - 1.

(** Division rounded to the nearest integer, ties to the even one. *)
Definition div_half_even (num den : Z) : Z :=
  let k := num / den in
  let r := num mod den in
  match 2 * r ?= den with
  | Lt => k
  | Gt => k + 1
  | Eq => if Z.even k then k else k + 1
  end.

Definition round64 (q : Q) : Q :=
  let n := Qnum (Qred q) in
  let d := Zpos (Qden (Qred q)) in
  if n =? 0 then 0%Q
  else
    let a := Z.abs n in
    let p := Z.max (binade a d - 52) (-1074) in
    Qred (if 0 <=? p
          then inject_Z (Z.sgn n * Z.min (div_half_even a (d * 2 ^ p) * 2 ^ p) (2 ^ 1024))
          else Qmake (Z.sgn n * div_half_even (a * 2 ^ (- p)) d) (Z.to_pos (2 ^ (- p)))).

(** The difference of two readings as the program computes it: the
    operands are doubles, and so is the result. A rational that is not a
    double stands for the double nearest to it, as a decimal literal
    does. *)
Definition float_sub (a b : Q) : Q := round64 (round64 a - round64 b).

(** [abs(new_weight - weight) < self.weight_threshold]: a [numpy.float64]
    on the left, so that a numeric threshold is compared as a double;
    comparing with a value that is not a number raises. *)
Definition below_threshold (new_weight weight : Q) (wt : pyval) : result bool :=
  match as_number wt with
  | Some w => Ok (Qltb (Qabs (float_sub new_weight weight)) (round64 w))
  | None => Raise TypeError
  end.

(** One iteration of the loop of [find_significant_changes] over
    [peaks[1:]]; the state is [(weight, weight_change)]. *)
Definition significant_step (col : list Q) (wt : pyval) (peaks : list nat)
    (st : Q * list nat) (i : nat) : result (Q * list nat) :=
  let '(weight, weight_change) := st in
  let* new_weight := at_index col i in
  let* small := below_threshold new_weight weight wt in
  let '(weight, weight_change) :=
    if small then (weight, weight_change) else (new_weight, weight_change ++ [i]) in
  if bool_decide (Some i = last peaks) then
    let last_idx := (length col - 1)%nat in
    let* last_weight := at_index col last_idx in
    if Qltb last_weight weight then Ok (weight, weight_change ++ [last_idx])
    else Ok (weight, weight_change)
  else Ok (weight, weight_change).

(** [find_significant_changes], local to [fuel_usage]; [f] is the fuel of
    the enclosing loop. *)
Definition find_significant_changes (hh : Household) (f : string) (peaks : list nat)
  : result (list nat) :=
  let* col := channel (df_stoves hh) f in
  let* p0 := from_option IndexError (peaks !! 0%nat) in
  let* weight := at_index col p0 in
  let* st := for_each (significant_step col (weight_threshold hh) peaks)
                      (drop 1 peaks) (weight, [p0]) in
  Ok st.2.

(** [range(n)] mapped through [i ↦ i + first]. *)
Definition day_range (first n : Z) : list Z :=
  (fun i => Z.of_nat i + first) <$> seq 0 (Z.to_nat n).

(** The closing loop of both aggregators: every day of [days_] that is not
    a key yet gets the value 0. *)
Definition back_fill (days_ : list Z) (daily : gmap Z Q) : gmap Z Q :=
  foldl (fun d day => if bool_decide (day ∈ dom d) then d else <[day := 0%Q]> d)
        daily days_.

(** One iteration of the loop of [daily_fuel_use]; the state is
    [(day, new_weight, daily_fuel_usage)]. *)
Definition fuel_step (ts : list Z) (col : list Q) (study_began : Z) (initial_weight : Q)
    (st : Z * Q * gmap Z Q) (i : nat) : result (Z * Q * gmap Z Q) :=
  let '(day, new_weight, daily_fuel_usage) := st in
  let* t := at_index ts i in
  if days (t - study_began) =? day - 1 then
    let* new_weight := at_index col i in
    Ok (day, new_weight, <[day := (initial_weight - new_weight)%Q]> daily_fuel_usage)
  else
    let day := day + 1 in
    let* w := at_index col i in
    Ok (day, new_weight, <[day := (new_weight - w)%Q]> daily_fuel_usage).

(** [daily_fuel_use], local to [fuel_usage]. *)
Definition daily_fuel_use (hh : Household) (fuel : string) (weight_changes_ : list nat)
  : result (gmap Z Q) :=
  let ts := timestamp (df_stoves hh) in
  let* study_began := at_index ts 0 in
  let study_duration_ := days (study_duration hh) in
  let* col := channel (df_stoves hh) fuel in
  let* wc0 := from_option IndexError (weight_changes_ !! 0%nat) in
  let* initial_weight := at_index col wc0 in
  let* st := for_each (fuel_step ts col study_began initial_weight)
                      weight_changes_ (1, 0%Q, ∅) in
  let daily_fuel_usage := st.2 in
  if Z.of_nat (size daily_fuel_usage) =? study_duration_ then Ok daily_fuel_usage
  else Ok (back_fill (day_range 2 (study_duration_ - 1)) daily_fuel_usage).

(** The body of the loop of [fuel_usage] for one fuel [f]. *)
Definition fuel_usage_one (hh : Household) (f : string) : result (list nat * gmap Z Q) :=
  let* col := channel (df_stoves hh) f in
  let* peaks := find_peaks col 1 1 in
  let* weight_changes_ := find_significant_changes hh f peaks in
  let* daily_usage := daily_fuel_use hh f weight_changes_ in
  Ok (weight_changes_, daily_usage).

(** [Household.fuel_usage]: the table, one row per fuel, and the household
    with its cache of weight changes replaced. *)
Definition fuel_usage (hh : Household) (fuel : subject_arg)
  : result (Household * list (string * gmap Z Q)) :=
  let* _ := check_list_of_str fuel "Must input all fuels as strings!"
                                   "Must input fuel type as string!" in
  let* fuel_type := check_fuel_type hh fuel in
  let* st :=
    for_each (fun '(fuel_change, fuel_weight_changes) f =>
                let* r := fuel_usage_one hh f in
                Ok (fuel_change ++ [r.2], dict_update f r.1 fuel_weight_changes))
             fuel_type ([], []) in
  Ok (set_weight_changes hh st.2, zip fuel_type st.1).

(** ** Cooking duration *)

(** Position of the first reading equal to 0. *)
Fixpoint first_zero (l : list Q) : option nat :=
  match l with
  | [] => None
  | temp :: l' => if Qeq_bool temp 0 then Some O else S <$> first_zero l'
  end.

(** One iteration of the loop of [cooking_durations] for the peak [i]. The
    names [start_time] and [end_time] keep the value of the previous
    iteration when a scan finds no zero, and are unbound before the first
    assignment. *)
Definition boundary_step (cooking_temps : list Q)
    (st : option nat * option nat * list (nat * nat)) (i : nat)
  : result (option nat * option nat * list (nat * nat)) :=
  let '(start_time, end_time, cooking_event_list) := st in
  let begin_ := take i cooking_temps in
  let end_ := drop i cooking_temps in
  let start_time :=
    match first_zero (reverse begin_) with
    | Some j => Some (i - j)%nat
    | None => start_time
    end in
  let end_time :=
    match first_zero end_ with
    | Some k => Some (i + k)%nat
    | None => end_time
    end in
  match start_time, end_time with
  | Some s, Some e => Ok (start_time, end_time, cooking_event_list ++ [(s, e)])
  | _, _ => Raise UnboundLocalError
  end.

(** [cooking_durations], local to [cooking_duration]. *)
Definition cooking_durations (hh : Household) (stove : string) : result (list (nat * nat)) :=
  let* cache := from_option AttributeError (cook_events hh) in
  let* cooking_events_index := from_option KeyError (dict_get stove cache) in
  let* cooking_temps := channel (df_stoves hh) stove in
  let* st := for_each (boundary_step cooking_temps) cooking_events_index (None, None, []) in
  Ok st.2.

(** [(end_time - start_time).seconds / 60]. *)
Definition event_minutes (start_time end_time : Z) : Q :=
  (inject_Z (seconds (end_time - start_time)) / 60)%Q.

(** One iteration of the loop of [daily_cooking_time]; [n] is the number of
    events, the state is [(day, daily_cooking, mins)]. *)
Definition cooking_step (ts : list Z) (study_began : Z) (n : nat)
    (st : Z * gmap Z Q * Q) (item : nat * (nat * nat)) : result (Z * gmap Z Q * Q) :=
  let '(day, daily_cooking, mins) := st in
  let '(i, idx) := item in
  let* end_time := at_index ts idx.2 in
  let* start_time := at_index ts idx.1 in
  let days_since_start := days (end_time - study_began) in
  let '(day, daily_cooking, mins) :=
    if days_since_start =? day then (day, daily_cooking, mins)
    else (day + 1, <[day + 1 := mins]> daily_cooking, 0%Q) in
  let mins := (mins + event_minutes start_time end_time)%Q in
  if (i =? n - 1)%nat then Ok (day + 1, <[day + 1 := mins]> daily_cooking, mins)
  else Ok (day, daily_cooking, mins).

Definition enumerate {A} (l : list A) : list (nat * A) := zip (seq 0 (length l)) l.

(** [daily_cooking_time], local to [cooking_duration]. *)
Definition daily_cooking_time (hh : Household) (cooking_durations_list : list (nat * nat))
  : result (gmap Z Q) :=
  let ts := timestamp (df_stoves hh) in
  let study_duration_ := days (study_duration hh) in
  let* study_began := at_index ts 0 in
  let* st := for_each (cooking_step ts study_began (length cooking_durations_list))
                      (enumerate cooking_durations_list) (0, ∅, 0%Q) in
  let daily_cooking := st.1.2 in
  if Z.of_nat (size daily_cooking) =? study_duration_ then Ok daily_cooking
  else Ok (back_fill (day_range 1 study_duration_) daily_cooking).

(** [Household.cooking_duration]: the table, one row per stove, and the
    household as [cooking_events] left it. *)
Definition cooking_duration (hh : Household) (stove : subject_arg)
  : result (Household * list (string * gmap Z Q)) :=
  let* r := cooking_events hh stove in
  let hh' := r.1 in
  let stoves_ := dict_keys r.2 in
  let* all_cooking_info :=
    for_each (fun acc s =>
                let* cooking_durations_list := cooking_durations hh' s in
                let* daily_cooking := daily_cooking_time hh' cooking_durations_list in
                Ok (acc ++ [daily_cooking]))
             stoves_ [] in
  Ok (hh', zip stoves_ all_cooking_info).

(** ** Plots

    A [plotly] figure is kept as what the two rendering operations put into
    it: the titles of the layout and the traces, in the order of the calls
    of [add_trace]. *)

Inductive trace_mode : Type := Lines | Markers.

Record Trace : Type := {
  trace_x : list Z;
  trace_y : list Q;
  mode : trace_mode;
  name : string
}.

Record Figure : Type := {
  yaxis_title : string;
  xaxis_title : string;
  title_text : string;
  traces : list Trace
}.

(** [subject + suffix]: a list and a string do not concatenate. *)
Definition concat_title (subject : subject_arg) (suffix : string) : result string :=
  match subject with
  | SStr s => Ok (s ++ suffix)%string
  | _ => Raise TypeError
  end.

(** [s.split(' ')[0]]. *)
Fixpoint first_word (s : string) : string :=
  match s with
  | EmptyString => EmptyString
  | String c s' => if Ascii.eqb c Ascii.Space then EmptyString else String c (first_word s')
  end.

(** [series[indices]]: the readings at a list of labels. *)
Fixpoint at_indices {A} (l : list A) (indices : list nat) : result (list A) :=
  match indices with
  | [] => Ok []
  | i :: indices' =>
      let* a := at_index l i in
      let* rest := at_indices l indices' in
      Ok (a :: rest)
  end.

(** The first loop of both operations: one line per subject. *)
Definition line_traces (hh : Household) (subjects : list string) : result (list Trace) :=
  for_each (fun acc s =>
              let* y := channel (df_stoves hh) s in
              Ok (acc ++ [{| trace_x := timestamp (df_stoves hh); trace_y := y;
                             mode := Lines; name := first_word s |}]))
           subjects [].

(** The second loop: one set of markers per subject, at the cached
    indices. *)
Definition marker_traces (hh : Household) (cache : list (string * list nat))
    (suffix : string) (subjects : list string) : result (list Trace) :=
  for_each (fun acc s =>
              let* indices := from_option KeyError (dict_get s cache) in
              let* x := at_indices (timestamp (df_stoves hh)) indices in
              let* col := channel (df_stoves hh) s in
              let* y := at_indices col indices in
              Ok (acc ++ [{| trace_x := x; trace_y := y;
                             mode := Markers; name := (s ++ suffix)%string |}]))
           subjects [].

(** [Household.plot_stove]. *)
Definition plot_stove (hh : Household) (stove : subject_arg) (cooking_events_ : bool)
  : result (Household * Figure) :=
  let* stove_type := check_stove_type hh stove in
  let* title := concat_title stove " Stove Temperature" in
  let* lines := line_traces hh stove_type in
  if cooking_events_ then
    let* r := cooking_events hh stove in
    let* events := from_option AttributeError (cook_events r.1) in
    let* markers := marker_traces r.1 events " Cooking Events" stove_type in
    Ok (r.1, {| yaxis_title := "Temp"; xaxis_title := "Time"; title_text := title;
                traces := lines ++ markers |})
  else
    Ok (hh, {| yaxis_title := "Temp"; xaxis_title := "Time"; title_text := title;
               traces := lines |}).

(** [Household.plot_fuel]; it passes the checked list of fuels on to
    [fuel_usage]. *)
Definition plot_fuel (hh : Household) (fuel : subject_arg) (fuel_usage_ : bool)
  : result (Household * Figure) :=
  let* fuel_type := check_fuel_type hh fuel in
  let* title := concat_title fuel " Weight Readings" in
  let* lines := line_traces hh fuel_type in
  if fuel_usage_ then
    let* r := fuel_usage hh (SList (EStr <$> fuel_type)) in
    let* changes := from_option AttributeError (weight_changes r.1) in
    let* markers := marker_traces r.1 changes " Weight Change" fuel_type in
    Ok (r.1, {| yaxis_title := "Weight"; xaxis_title := "Time"; title_text := title;
                traces := lines ++ markers |})
  else
    Ok (hh, {| yaxis_title := "Weight"; xaxis_title := "Time"; title_text := title;
               traces := lines |}).

(** ** Sample households *)

Module Examples.

(** Five samples a minute apart: one stove that heats up once, one fuel
    store that is topped up and then used. *)
Definition df : DataFrame :=
  {| timestamp := [0; 60; 120; 180; 240];
     channels := [("stove"%string, [0; 5; 20; 5; 0]%Q);
                  ("wood"%string, [5; 6; 3; 3; 3]%Q)] |}.

Definition household (temp_threshold_ time_between_events_ : Z) (weight_threshold_ : pyval)
  : Household :=
  {| df_stoves := df; stoves := ["stove"%string]; fuels := ["wood"%string];
     temp_threshold := temp_threshold_;
     time_between_events := time_between_events_;
     study_duration := 240;
     weight_threshold := weight_threshold_;
     cook_events := None; weight_changes := None |}.

(** [Household(df, ["stove"], ["wood"])] with the default thresholds. *)
Definition hh : Household := household 15 30 (PyFloat (2 # 10)).

(** Nine samples over two days and four hours, three a day: a stove lit
    once a day, an oven that stays hot from the first day to the last, a
    wood store topped up on the second day and a gas store first touched
    on the second day. *)
Definition df_days : DataFrame :=
  {| timestamp := [0; 3600; 7200; 90000; 93600; 97200; 180000; 183600; 187200];
     channels := [("stove"%string, [0; 20; 0; 0; 20; 0; 0; 20; 0]%Q);
                  ("oven"%string, [0; 20; 25; 20; 20; 26; 20; 20; 0]%Q);
                  ("wood"%string, [5; 7; 3; 3; 9; 2; 2; 2; 2]%Q);
                  ("gas"%string, [5; 5; 5; 3; 7; 3; 3; 3; 3]%Q)] |}.

(** [Household(df_days, ["stove", "oven"], ["wood", "gas"], 15, 2)]. *)
Definition hh_days : Household :=
  {| df_stoves := df_days; stoves := ["stove"%string; "oven"%string];
     fuels := ["wood"%string; "gas"%string];
     temp_threshold := 15; time_between_events := 2;
     study_duration := 187200;
     weight_threshold := PyFloat (2 # 10);
     cook_events := None; weight_changes := None |}.

(** Six samples of a wood store weighed in tenths of a kilogram, with
    peaks of 5.1 and 4.9. *)
Definition df_tenths : DataFrame :=
  {| timestamp := [0; 60; 120; 180; 240; 300];
     channels := [("wood"%string, [5; 51 # 10; 4; 49 # 10; 4; 4]%Q)] |}.

Definition hh_tenths : Household :=
  {| df_stoves := df_tenths; stoves := []; fuels := ["wood"%string];
     temp_threshold := 15; time_between_events := 30;
     study_duration := 300;
     weight_threshold := PyFloat (2 # 10);
     cook_events := None; weight_changes := None |}.

(** The rows of a table, each as the list of its (day, value) pairs. *)
Definition rows (table : list (string * gmap Z Q)) : list (string * list (Z * Q)) :=
  (fun row => (row.1, map_to_list row.2)) <$> table.

End Examples.

(** ** Notions used in the statements *)


(** The final check of the filter: the index of the last sample of the
    channel when that sample reads less than the last kept weight. *)
Definition final_sample (col : list Q) (weight : Q) : list nat :=
  if Qltb (reading col (length col - 1)) weight then [(length col - 1)%nat] else [].

(** The number of candidates of [l] that equal the last one of [peaks]. *)
Definition hits (peaks l : list nat) : nat :=
  length (filter (λ i, Some i = last peaks) l).

(** The filter as the specification words it, for a numeric threshold [w]
    and candidates inside the channel: [thin] walks the candidates after
    the first and keeps one exactly when its reading differs from the last
    kept reading by at least [w]; the result is the first candidate, the
    kept ones and, after the last candidate, the index of the final
    sample when that sample reads less than the last kept reading. *)
Fixpoint thin (col : list Q) (w last_kept : Q) (candidates : list nat) : Q * list nat :=
  match candidates with
  | [] => (last_kept, [])
  | c :: candidates' =>
      if Qle_bool w (Qabs (reading col c - last_kept))
      then let r := thin col w (reading col c) candidates' in (r.1, c :: r.2)
      else thin col w last_kept candidates'
  end.

Definition significant_changes_spec (col : list Q) (w : Q) (peaks : list nat)
  : option (list nat) :=
  match peaks with
  | [] => None
  | p0 :: rest =>
      let r := thin col w (reading col p0) rest in
      Some (p0 :: r.2 ++ final_sample col r.1)
  end.

(** The sum of the values of a day series. *)
Definition bucket_total (daily : gmap Z Q) : Q :=
  map_fold (fun _ v acc => (v + acc)%Q) 0%Q daily.

Definition non_negative (daily : gmap Z Q) : Prop :=
  map_Forall (λ _ v, (0 <= v)%Q) daily.

(** What the loop of [daily_cooking_time] maintains: the keys closed out so
    far are the days 1 to [day], one entry each, and the pending and the
    recorded minutes are not negative. *)
Definition cooking_inv (st : Z * gmap Z Q * Q) : Prop :=
  0 ≤ st.1.1
  ∧ (∀ d, d ∈ dom st.1.2 ↔ 1 ≤ d ≤ st.1.1)
  ∧ Z.of_nat (size st.1.2) = st.1.1
  ∧ (0 <= st.2)%Q
  ∧ non_negative st.1.2.

(** The minutes of a list of events, each taken through [event_minutes]. *)
Definition events_minutes (ts : list Z) (events : list (nat * nat)) : Q :=
  foldr (fun idx acc => (event_minutes (nth idx.1 ts 0%Z) (nth idx.2 ts 0%Z) + acc)%Q)
        0%Q events.

(** What the loop of [daily_fuel_use] maintains: the keys lie between 1 and
    [day], every day from 2 to [day] is a key, and there are at most [day]
    keys, one less while [day] itself is no key. *)
Definition fuel_inv (st : Z * Q * gmap Z Q) : Prop :=
  1 ≤ st.1.1
  ∧ (∀ d, 2 ≤ d ≤ st.1.1 → d ∈ dom st.2)
  ∧ (∀ d, d ∈ dom st.2 → 1 ≤ d ≤ st.1.1)
  ∧ Z.of_nat (size st.2) ≤ st.1.1
  ∧ (st.1.1 ∉ dom st.2 → Z.of_nat (size st.2) ≤ st.1.1 - 1).

(** The pair that the two scans around the peak [i] resolve when each of
    them finds a zero. *)
Definition boundary (cooking_temps : list Q) (i : nat) : option (nat * nat) :=
  match first_zero (reverse (take i cooking_temps)), first_zero (drop i cooking_temps) with
  | Some j, Some k => Some ((i - j)%nat, (i + k)%nat)
  | _, _ => None
  end.

(** The subject arguments that pass the type checks: a string, or a list
    of strings. *)
Definition all_strings (a : subject_arg) : Prop :=
  match a with
  | SStr _ => True
  | SList l => Forall (λ e, elem_is_str e = true) l
  | SOther => False
  end.

(** The candidates after the first that the loop of the filter keeps, and
    the last kept weight, with the difference and the threshold rounded as
    the program holds them. *)
Fixpoint thin_rounded (col : list Q) (w last_kept : Q) (candidates : list nat)
  : Q * list nat :=
  match candidates with
  | [] => (last_kept, [])
  | c :: candidates' =>
      if Qle_bool (round64 w) (Qabs (float_sub (reading col c) last_kept))
      then let r := thin_rounded col w (reading col c) candidates' in (r.1, c :: r.2)
      else thin_rounded col w last_kept candidates'
  end.

(** [q] is a double. *)
Definition is_double (q : Q) : Prop := (round64 q == q)%Q.

(** The readings at the indices [l] subtract without rounding. *)
Definition exact_differences (col : list Q) (l : list nat) : Prop :=
  ∀ i j, i ∈ l → j ∈ l →
         (float_sub (reading col i) (reading col j) == reading col i - reading col j)%Q.

(** The seconds from the start of an event to its end. *)
Definition elapsed (ts : list Z) (idx : nat * nat) : Z :=
  nth idx.2 ts 0 - nth idx.1 ts 0.

(** The minutes of a list of events as the specification words them: for
    each event the elapsed time modulo 24 hours, divided by 60. *)
Definition minutes_modulo_a_day (ts : list Z) (events : list (nat * nat)) : Q :=
  foldr (fun idx acc => (inject_Z (elapsed ts idx `mod` 86400) / 60 + acc)%Q) 0%Q events.

(** The minutes that the events last, and the whole days in them. *)
Definition elapsed_minutes (ts : list Z) (events : list (nat * nat)) : Q :=
  foldr (fun idx acc => (inject_Z (elapsed ts idx) / 60 + acc)%Q) 0%Q events.

Definition whole_days (ts : list Z) (events : list (nat * nat)) : Z :=
  foldr (fun idx acc => elapsed ts idx / 86400 + acc) 0 events.


(** The counts that [cooking_events] reports for a cache of peaks. *)
Definition counts_of (cache : list (string * list nat)) : list (string * nat) :=
  (fun entry => (entry.1, length entry.2)) <$> cache.

(** One stove of the loop of [cooking_events] was detected on its channel
    with the thresholds of the household. *)
Definition detected (hh : Household) (entry : string * list nat) : Prop :=
  ∃ col, channel (df_stoves hh) entry.1 = Ok col
         ∧ find_peaks col (temp_threshold hh) (time_between_events hh) = Ok entry.2.

(** A subject whose channel is a column as long as the timestamps, as every
    column of a data frame is. *)
Definition aligned (hh : Household) (subject : string) : Prop :=
  ∃ col, channel (df_stoves hh) subject = Ok col
         ∧ length col = length (timestamp (df_stoves hh)).

(** A fuel on whose channel the detection with height 1 and distance 1
    finds a candidate. *)
Definition has_candidate (hh : Household) (f : string) : Prop :=
  ∃ col p0 rest, channel (df_stoves hh) f = Ok col
                 ∧ find_peaks col 1 1 = Ok (p0 :: rest).

(** The line that a plot draws for a subject: the whole channel against
    all timestamps, named by the first word of the subject. *)
Definition draws (hh : Household) (subject : string) (tr : Trace) : Prop :=
  mode tr = Lines ∧ name tr = first_word subject
  ∧ trace_x tr = timestamp (df_stoves hh)
  ∧ channel (df_stoves hh) subject = Ok (trace_y tr).

(** The markers that a plot sets for a subject: one point per cached
    index, at the timestamp and the reading of that sample. *)
Definition marks (hh : Household) (cache : list (string * list nat)) (suffix : string)
    (subject : string) (tr : Trace) : Prop :=
  mode tr = Markers ∧ name tr = (subject ++ suffix)%string
  ∧ ∃ indices col,
      dict_get subject cache = Some indices
      ∧ channel (df_stoves hh) subject = Ok col
      ∧ Forall2 (λ i x, timestamp (df_stoves hh) !! i = Some x) indices (trace_x tr)
      ∧ Forall2 (λ i y, col !! i = Some y) indices (trace_y tr).

(** * Properties *)

(** ** Construction *)




Lemma check_columns_cases names contents msg :
  check_columns names contents msg = Ok tt ∨
  check_columns names contents msg = Raise (ValueError msg).
Proof.
  unfold check_columns. induction names as [| s names IH]; simpl; [by left |].
  destruct (in_list s contents); simpl; [done | by right].
Qed.






(** ** Subject validation *)

Lemma bind_raises {A B} (r : result A) (k : A → result B) :
  raises r → raises (bind r k).
Proof. intros [e ->]. by exists e. Qed.

Lemma bind_Ok {A B} (r : result A) (k : A → result B) b :
  bind r k = Ok b ↔ ∃ a, r = Ok a ∧ k a = Ok b.
Proof.
  destruct r as [a | e]; simpl.
  - split; [by exists a | by intros (? & [= <-] & ?)].
  - split; [done | by intros (? & ? & ?)].
Qed.

Lemma collect_known_raises known (l acc : list string) s :
  s ∈ l → s ∉ known →
  raises (for_each (fun acc s => if in_list s known then Ok (acc ++ [s])
                                 else Raise (ValueError (s ++ " not found in data set.")))
                   l acc).
Proof.
  intros Hin Hunknown. revert acc.
  induction l as [| x l IH]; intros acc; [by apply elem_of_nil in Hin |].
  simpl. unfold in_list at 1. case_bool_decide as Hx; simpl.
  - apply IH. apply elem_of_cons in Hin as [-> | Hin]; done.
  - by eexists.
Qed.

(** The stove check refuses a request that lists an unknown name. *)
Lemma check_stove_type_unknown hh stove s :
  is_All stove = false → s ∈ iterate stove → s ∉ stoves hh →
  raises (check_stove_type hh stove).
Proof.
  intros HAll Hin Hunknown. unfold check_stove_type.
  destruct (check_list_of_str stove _ _) as [[]|] eqn:E; simpl; [| by eexists].
  rewrite HAll. apply bind_raises. by eapply collect_known_raises.
Qed.

Lemma cooking_events_unknown hh stove s :
  is_All stove = false → s ∈ iterate stove → s ∉ stoves hh →
  raises (cooking_events hh stove).
Proof.
  intros HAll Hin Hunknown. unfold cooking_events.
  destruct stove as [name | l |]; try by eexists.
  apply bind_raises. by eapply check_stove_type_unknown.
Qed.

Lemma cooking_duration_unknown hh stove s :
  is_All stove = false → s ∈ iterate stove → s ∉ stoves hh →
  raises (cooking_duration hh stove).
Proof.
  intros. unfold cooking_duration. apply bind_raises. by eapply cooking_events_unknown.
Qed.

(** The fuel check keeps the known names of a request and raises only when
    none is known. *)
Lemma check_fuel_type_list hh (names : list string) :
  check_fuel_type hh (SList (EStr <$> names))
  = match filter (fun f => in_list f (fuels hh) = true) names with
    | [] => match last names with
            | Some f => Raise (ValueError (f ++ " not found in data set."))
            | None => Raise UnboundLocalError
            end
    | fuel_type => Ok fuel_type
    end.
Proof.
  unfold check_fuel_type, check_list_of_str.
  assert (forallb elem_is_str (EStr <$> names) = true) as ->.
  { induction names; simpl; auto. }
  assert (iterate (SList (EStr <$> names)) = names) as ->.
  { simpl. induction names as [| n names IH]; [done |]. rewrite fmap_cons. simpl.
    f_equal. exact IH. }
  simpl. by destruct (filter _ names).
Qed.

(** C4 at a failing input: the household has the single fuel ["wood"]; the
    request [["wood", "gas"]] names the unknown fuel ["gas"], and
    [fuel_usage] raises nothing: it drops the name and returns the table
    of the fuel it knows. *)
Theorem fuel_usage_drops_unknown_fuel :
  ("gas"%string ∉ fuels Examples.hh)
  ∧ check_fuel_type Examples.hh (SList [EStr "wood"; EStr "gas"]) = Ok ["wood"%string]
  ∧ ∃ hh' table,
      fuel_usage Examples.hh (SList [EStr "wood"; EStr "gas"]) = Ok (hh', table)
      ∧ Examples.rows table = [("wood"%string, [(1, 0%Q)])]
      ∧ weight_changes hh' = Some [("wood"%string, [1%nat])].
Proof.
  split; [| split].
  - simpl. intros Hin. repeat (apply elem_of_cons in Hin as [[=] | Hin]).
    by apply elem_of_nil in Hin.
  - vm_compute. reflexivity.
  - eexists _, _. split; [vm_compute; reflexivity |].
    split; vm_compute; reflexivity.
Qed.

(** C5 at failing inputs: the household has the stove ["stove"] and the
    fuel ["wood"]. Asked for the stove by its name, [cooking_events] and
    [cooking_duration] look up the letter ["s"] and raise; asked for it in
    a list they refuse the list; asked for the fuel by its name,
    [fuel_usage] looks up its letters, finds none and raises. Only ["All"],
    and for fuels a list, is served. *)
Theorem single_name_is_read_by_letter :
  ("stove"%string ∈ stoves Examples.hh) ∧ ("wood"%string ∈ fuels Examples.hh)
  ∧ cooking_events Examples.hh (SStr "stove")
    = Raise (ValueError "s not found in data set.")
  ∧ cooking_duration Examples.hh (SStr "stove")
    = Raise (ValueError "s not found in data set.")
  ∧ cooking_events Examples.hh (SList [EStr "stove"])
    = Raise (ValueError "Must input fuel type as a string!")
  ∧ cooking_duration Examples.hh (SList [EStr "stove"])
    = Raise (ValueError "Must input fuel type as a string!")
  ∧ fuel_usage Examples.hh (SStr "wood")
    = Raise (ValueError "d not found in data set.")
  ∧ (∃ hh' counts, cooking_events Examples.hh (SStr "All") = Ok (hh', counts)
                   ∧ counts = [("stove"%string, 1%nat)])
  ∧ (∃ hh' table, fuel_usage Examples.hh (SList [EStr "wood"]) = Ok (hh', table)
                  ∧ Examples.rows table = [("wood"%string, [(1, 0%Q)])]).
Proof.
  split; [simpl; apply list_elem_of_here |].
  split; [simpl; apply list_elem_of_here |].
  repeat split; try (vm_compute; reflexivity).
  - eexists _, _. split; vm_compute; reflexivity.
  - eexists _, _. split; vm_compute; reflexivity.
Qed.

(** ** Peak detection *)

Lemma Qltb_lt a b : Qltb a b = true ↔ (a < b)%Q.
Proof.
  unfold Qltb. rewrite negb_true_iff.
  destruct (Qle_bool b a) eqn:E.
  - apply Qle_bool_iff in E. split; [done |]. intros H%Qlt_not_le. done.
  - split; [| done]. intros _. apply Qnot_le_lt. intros H%Qle_bool_iff. congruence.
Qed.

Lemma Qltb_irrefl a : Qltb a a = false.
Proof.
  destruct (Qltb a a) eqn:E; [| done].
  apply Qltb_lt in E. by apply Qlt_irrefl in E.
Qed.

Lemma find_peaks_distance_below_1 x height distance :
  distance < 1 →
  find_peaks x height distance
  = Raise (ValueError "`distance` must be greater or equal to 1").
Proof.
  intros Hd. unfold find_peaks.
  destruct (Z.ltb_spec distance 1); [done | lia].
Qed.

(** The detection on a fuel channel, with height 1 and distance 1, always
    returns. *)
Lemma find_peaks_fuel_returns x : ∃ peaks, find_peaks x 1 1 = Ok peaks.
Proof. unfold find_peaks. simpl. by eexists. Qed.

Lemma find_peaks_no_maxima x height distance :
  1 ≤ distance →
  filter (fun p => Qle_bool (inject_Z height) (reading x p) = true) (local_maxima_1d x) = [] →
  find_peaks x height distance = Ok [].
Proof.
  intros Hd Hnone. unfold find_peaks.
  destruct (Z.ltb_spec distance 1); [lia |]. rewrite Hnone. reflexivity.
Qed.

Lemma reading_replicate n c i : (i < n)%nat → reading (replicate n c) i = c.
Proof.
  intros Hi. unfold reading.
  apply nth_lookup_Some with (d := 0%Q). by apply lookup_replicate_2.
Qed.

Lemma local_maxima_loop_constant n c fuel i :
  (1 ≤ i)%nat → local_maxima_loop (replicate n c) (n - 1) fuel i = [].
Proof.
  revert i. induction fuel as [| fuel IH]; intros i Hi; simpl; [done |].
  destruct (Nat.ltb_spec i (n - 1)); [| done].
  rewrite !reading_replicate by lia. rewrite Qltb_irrefl.
  apply IH. lia.
Qed.

(** A constant channel has no peak. *)
Lemma find_peaks_constant n c height distance :
  1 ≤ distance → find_peaks (replicate n c) height distance = Ok [].
Proof.
  intros Hd. apply find_peaks_no_maxima; [done |].
  unfold local_maxima_1d. rewrite length_replicate.
  by rewrite local_maxima_loop_constant.
Qed.

Lemma skip_plateau_le x xi i_max fuel i_ahead :
  (i_ahead ≤ i_max)%nat → (skip_plateau x xi i_max fuel i_ahead ≤ i_max)%nat.
Proof.
  revert i_ahead. induction fuel as [| fuel IH]; intros i_ahead Hle; simpl; [done |].
  destruct (Nat.ltb_spec i_ahead i_max); simpl; [| done].
  destruct (Qeq_bool _ _); [| done]. apply IH. lia.
Qed.

Lemma skip_plateau_ge x xi i_max fuel i_ahead :
  (i_ahead ≤ skip_plateau x xi i_max fuel i_ahead)%nat.
Proof.
  revert i_ahead. induction fuel as [| fuel IH]; intros i_ahead; simpl; [done |].
  destruct (_ && _); [| done]. specialize (IH (S i_ahead)). lia.
Qed.

Lemma local_maxima_loop_in_range x i_max fuel i p :
  (1 ≤ i)%nat → p ∈ local_maxima_loop x i_max fuel i → (1 ≤ p < i_max)%nat.
Proof.
  revert i. induction fuel as [| fuel IH]; intros i Hi; cbn [local_maxima_loop].
  { by intros ?%elem_of_nil. }
  destruct (Nat.ltb_spec i i_max) as [Hlt |]; [| by intros ?%elem_of_nil].
  destruct (Qltb _ _); [| apply IH; lia].
  pose proof (skip_plateau_le x (reading x i) i_max (length x) (i + 1)) as Hle.
  pose proof (skip_plateau_ge x (reading x i) i_max (length x) (i + 1)) as Hge.
  destruct (Qltb _ _); [| apply IH; lia].
  specialize (Hle ltac:(lia)).
  set (a := skip_plateau _ _ _ _ _) in *.
  intros [-> | Hin]%elem_of_cons; [| eapply IH; [| exact Hin]; lia].
  split.
  - apply Nat.div_le_lower_bound; lia.
  - apply Nat.Div0.div_lt_upper_bound; lia.
Qed.

(** Every local maximum is an interior sample of the channel. *)
Lemma local_maxima_1d_in_range x p :
  p ∈ local_maxima_1d x → (1 ≤ p < length x - 1)%nat.
Proof. unfold local_maxima_1d. by apply local_maxima_loop_in_range. Qed.

(** The loops of the detection are bounded by the length of the channel:
    any larger bound gives the same result. *)
Lemma skip_plateau_fuel x xi i_max fuel fuel' i_ahead :
  (i_max - i_ahead ≤ fuel)%nat → (i_max - i_ahead ≤ fuel')%nat →
  skip_plateau x xi i_max fuel i_ahead = skip_plateau x xi i_max fuel' i_ahead.
Proof.
  revert fuel' i_ahead. induction fuel as [| fuel IH]; intros [| fuel'] i_ahead H1 H2;
    simpl; try done.
  - destruct (Nat.ltb_spec i_ahead i_max); [lia | done].
  - destruct (Nat.ltb_spec i_ahead i_max); [lia | done].
  - destruct (Nat.ltb_spec i_ahead i_max); simpl; [| done].
    destruct (Qeq_bool _ _); [| done]. apply IH; lia.
Qed.

Lemma local_maxima_loop_fuel x i_max fuel fuel' i :
  (i_max - i ≤ fuel)%nat → (i_max - i ≤ fuel')%nat →
  local_maxima_loop x i_max fuel i = local_maxima_loop x i_max fuel' i.
Proof.
  revert fuel' i. induction fuel as [| fuel IH]; intros [| fuel'] i H1 H2;
    cbn [local_maxima_loop]; try done.
  - destruct (Nat.ltb_spec i i_max); [lia | done].
  - destruct (Nat.ltb_spec i i_max); [lia | done].
  - destruct (Nat.ltb_spec i i_max); [| done].
    pose proof (skip_plateau_ge x (reading x i) i_max (length x) (i + 1)).
    destruct (Qltb _ _); [| apply IH; lia].
    destruct (Qltb _ _); [| apply IH; lia].
    f_equal. apply IH; lia.
Qed.

Lemma local_maxima_1d_fuel x fuel :
  (length x ≤ fuel)%nat →
  local_maxima_loop x (length x - 1) fuel 1 = local_maxima_1d x.
Proof. intros. unfold local_maxima_1d. apply local_maxima_loop_fuel; lia. Qed.

Lemma local_maxima_loop_ge x i_max fuel i p :
  p ∈ local_maxima_loop x i_max fuel i → (i ≤ p)%nat.
Proof.
  revert i. induction fuel as [| fuel IH]; intros i; cbn [local_maxima_loop].
  { by intros ?%elem_of_nil. }
  destruct (i <? i_max)%nat; [| by intros ?%elem_of_nil].
  pose proof (skip_plateau_ge x (reading x i) i_max (length x) (i + 1)) as Hge.
  destruct (Qltb _ _); [| intros ?%IH; lia].
  destruct (Qltb _ _); [| intros ?%IH; lia].
  set (a := skip_plateau _ _ _ _ _) in *.
  intros [-> | ?%IH]%elem_of_cons; [| lia].
  apply Nat.div_le_lower_bound; lia.
Qed.

(** No sample is reported twice. *)
Lemma local_maxima_loop_NoDup x i_max fuel i :
  NoDup (local_maxima_loop x i_max fuel i).
Proof.
  revert i. induction fuel as [| fuel IH]; intros i; cbn [local_maxima_loop].
  { constructor. }
  destruct (i <? i_max)%nat; [| constructor].
  pose proof (skip_plateau_ge x (reading x i) i_max (length x) (i + 1)) as Hge.
  destruct (Qltb _ _); [| apply IH].
  destruct (Qltb _ _); [| apply IH].
  set (a := skip_plateau _ _ _ _ _) in *.
  constructor; [| apply IH].
  intros Hin%local_maxima_loop_ge.
  assert ((i + (a - 1)) `div` 2 < a + 1)%nat; [| lia].
  apply Nat.Div0.div_lt_upper_bound; lia.
Qed.

Lemma select_sublist {A} (l : list A) keep : select l keep `sublist_of` l.
Proof.
  revert keep. induction l as [| a l IH]; intros [| [] keep]; simpl;
    try apply sublist_nil_l; by constructor.
Qed.

(** The candidates that the detection returns are distinct interior
    samples of the channel. *)
Lemma find_peaks_candidates x height distance peaks :
  find_peaks x height distance = Ok peaks →
  NoDup peaks ∧ Forall (λ p, (1 ≤ p < length x - 1)%nat) peaks.
Proof.
  unfold find_peaks. destruct (distance <? 1); [done |]. intros [= <-].
  match goal with |- context [select ?l ?k] =>
    pose proof (select_sublist l k) as Hsel1;
    pose proof (sublist_filter (fun p => Qle_bool (inject_Z height) (reading x p) = true)
                  (local_maxima_1d x)) as Hsel2
  end.
  pose proof (transitivity Hsel1 Hsel2) as Hsub. split.
  - eapply sublist_NoDup; [| exact Hsub]. apply local_maxima_loop_NoDup.
  - apply Forall_forall. intros p Hp. apply local_maxima_1d_in_range.
    by eapply elem_of_sublist.
Qed.

(** A channel whose readings all lie below the height has no peak. *)
Lemma find_peaks_below_height x height distance :
  1 ≤ distance → Forall (λ r, (r < inject_Z height)%Q) x →
  find_peaks x height distance = Ok [].
Proof.
  intros Hd Hlow. apply find_peaks_no_maxima; [done |].
  apply elem_of_nil_inv. intros p [Hkeep Hp]%list_elem_of_filter.
  apply local_maxima_1d_in_range in Hp.
  apply Qle_bool_iff in Hkeep.
  destruct (lookup_lt_is_Some_2 x p) as [r Hr]; [lia |].
  rewrite Forall_forall in Hlow. specialize (Hlow r).
  unfold reading in Hkeep. rewrite (nth_lookup_Some _ _ _ _ Hr) in Hkeep.
  apply (Qlt_not_le r (inject_Z height)); [| done].
  apply Hlow. by eapply list_elem_of_lookup_2.
Qed.

Lemma for_each_raises_at {A S} (f : S → A → result S) (l : list A) (x : A) (acc : S) :
  x ∈ l → (∀ a, raises (f a x)) → raises (for_each f l acc).
Proof.
  intros Hin Hx. revert acc. induction l as [| y l IH]; intros acc.
  { by apply elem_of_nil in Hin. }
  simpl. destruct (f acc y) as [acc' | e] eqn:E; simpl; [| by exists e].
  apply elem_of_cons in Hin as [-> | Hin]; [| by apply IH].
  destruct (Hx acc) as [e He]. congruence.
Qed.

Lemma for_each_first_raise {A S} (f : S → A → result S) (before after : list A)
    (x : A) (acc : S) (e : exn) :
  (∀ a, f a x = Raise e) → (∀ a y, y ∈ before → ∃ a', f a y = Ok a') →
  for_each f (before ++ x :: after) acc = Raise e.
Proof.
  intros Hx Hbefore. revert acc. induction before as [| y before IH]; intros acc; simpl.
  { by rewrite Hx. }
  destruct (Hbefore acc y) as [a' ->]; [apply list_elem_of_here |]. simpl.
  apply IH. intros a z Hz. apply Hbefore. by apply list_elem_of_further.
Qed.

(** With a distance below 1 the detection of cooking events raises as soon
    as it reaches the first stove. *)
Lemma cooking_events_distance_below_1 hh s rest col :
  time_between_events hh < 1 → stoves hh = s :: rest →
  channel (df_stoves hh) s = Ok col →
  cooking_events hh (SStr "All")
  = Raise (ValueError "`distance` must be greater or equal to 1").
Proof.
  intros Hd Hs Hcol. unfold cooking_events, check_stove_type. simpl.
  rewrite Hs. simpl. rewrite Hcol. simpl.
  by rewrite find_peaks_distance_below_1.
Qed.

(** C8 at a failing input: construction accepts the thresholds 0 and 0
    (its guards refuse negative values only), and the peak detection of
    [cooking_events], called with distance 0, raises instead of returning
    the local maxima; [cooking_duration] fails with it. *)
Theorem zero_distance_accepted_then_refused :
  Household_init (IsDataFrame Examples.df) (IsList ["stove"%string])
     (IsList ["wood"%string]) (PyInt 0) (PyInt 0) (PyFloat (2 # 10))
    = Ok (Examples.household 0 0 (PyFloat (2 # 10)))
  ∧ find_peaks [0; 5; 20; 5; 0]%Q 0 0
    = Raise (ValueError "`distance` must be greater or equal to 1")
  ∧ cooking_events (Examples.household 0 0 (PyFloat (2 # 10))) (SStr "All")
    = Raise (ValueError "`distance` must be greater or equal to 1")
  ∧ cooking_duration (Examples.household 0 0 (PyFloat (2 # 10))) (SStr "All")
    = Raise (ValueError "`distance` must be greater or equal to 1").
Proof. repeat split; vm_compute; reflexivity. Qed.

(** ** Fuel channels without a candidate *)

Lemma check_fuel_type_Ok_types hh fuel fuel_type :
  check_fuel_type hh fuel = Ok fuel_type →
  check_list_of_str fuel "Must input all fuels as strings!"
                         "Must input fuel type as string!" = Ok tt.
Proof.
  unfold check_fuel_type. destruct (check_list_of_str fuel _ _) as [[]|]; done.
Qed.

Lemma find_significant_changes_no_candidate hh f col :
  channel (df_stoves hh) f = Ok col →
  find_significant_changes hh f [] = Raise IndexError.
Proof. intros Hcol. unfold find_significant_changes. by rewrite Hcol. Qed.

Lemma fuel_usage_one_no_candidate hh f col :
  channel (df_stoves hh) f = Ok col → find_peaks col 1 1 = Ok [] →
  fuel_usage_one hh f = Raise IndexError.
Proof.
  intros Hcol Hpeaks. unfold fuel_usage_one. rewrite Hcol. cbn [bind].
  rewrite Hpeaks. cbn [bind].
  by rewrite (find_significant_changes_no_candidate hh f col).
Qed.

(** C9. When the detection with height 1 and distance 1 finds no candidate
    on the channel of a requested fuel [f], the significant-change filter
    raises [IndexError] at [peaks[0]] and [fuel_usage] raises: no table is
    returned. The exception that leaves [fuel_usage] is this [IndexError]
    whenever the fuels before [f] in the request were processed. *)
Theorem fuel_usage_no_candidate hh fuel fuel_type f col :
  check_fuel_type hh fuel = Ok fuel_type → f ∈ fuel_type →
  channel (df_stoves hh) f = Ok col → find_peaks col 1 1 = Ok [] →
  find_significant_changes hh f [] = Raise IndexError
  ∧ fuel_usage_one hh f = Raise IndexError
  ∧ raises (fuel_usage hh fuel)
  ∧ ∀ before after,
      fuel_type = before ++ f :: after →
      Forall (λ g, ∃ r, fuel_usage_one hh g = Ok r) before →
      fuel_usage hh fuel = Raise IndexError.
Proof.
  intros Hcheck Hin Hcol Hpeaks.
  pose proof (fuel_usage_one_no_candidate hh f col Hcol Hpeaks) as Hone.
  split; [by eapply find_significant_changes_no_candidate |].
  split; [done |].
  unfold fuel_usage.
  rewrite (check_fuel_type_Ok_types _ _ _ Hcheck), Hcheck. simpl.
  split.
  - apply bind_raises. apply for_each_raises_at with (x := f); [done |].
    intros [fuel_change fuel_weight_changes]. rewrite Hone. by eexists.
  - intros before after -> Hbefore.
    rewrite for_each_first_raise with (e := IndexError); [done | |].
    + intros [fuel_change fuel_weight_changes]. by rewrite Hone.
    + intros [fuel_change fuel_weight_changes] g Hg.
      rewrite Forall_forall in Hbefore. destruct (Hbefore g Hg) as [r ->].
      by eexists.
Qed.

Lemma fuel_usage_no_candidate_witness :
  fuel_usage {| df_stoves := {| timestamp := [0; 60; 120; 180];
                                channels := [("gas"%string, [4; 4; 4; 4]%Q)] |};
                stoves := []; fuels := ["gas"%string];
                temp_threshold := 15; time_between_events := 30;
                study_duration := 180; weight_threshold := PyFloat (2 # 10);
                cook_events := None; weight_changes := None |}
             (SStr "All")
  = Raise IndexError.
Proof.
  eapply (fuel_usage_no_candidate _ (SStr "All") ["gas"%string] "gas"%string
            [4; 4; 4; 4]%Q) with (before := []) (after := []).
  - reflexivity.
  - apply list_elem_of_here.
  - reflexivity.
  - vm_compute. reflexivity.
  - reflexivity.
  - constructor.
Defined.

(** The two kinds of channel that C9 names have no candidate: a constant
    channel, and a channel whose readings all lie below 1. *)
Lemma fuel_channel_without_candidates col :
  (∃ n c, col = replicate n c) ∨ Forall (λ r, (r < 1)%Q) col →
  find_peaks col 1 1 = Ok [].
Proof.
  intros [(n & c & ->) | Hlow].
  - by apply find_peaks_constant.
  - by apply find_peaks_below_height.
Qed.

(** ** Event boundaries *)

Lemma Qeq_bool_0 t : Qeq_bool t 0 = true ↔ (t == 0)%Q.
Proof. apply Qeq_bool_iff. Qed.

(** [first_zero] returns the position of a zero reading, and no reading
    before that position is zero. *)
Lemma first_zero_Some l j :
  first_zero l = Some j →
  (∃ t, l !! j = Some t ∧ (t == 0)%Q)
  ∧ ∀ j' t', (j' < j)%nat → l !! j' = Some t' → ¬ (t' == 0)%Q.
Proof.
  revert j. induction l as [| t l IH]; intros j; simpl; [done |].
  destruct (Qeq_bool t 0) eqn:E.
  - intros [= <-]. split; [| intros; lia].
    exists t. split; [done | by apply Qeq_bool_0].
  - destruct (first_zero l) as [j0 |]; simpl; [| done].
    intros [= <-]. destruct (IH j0 eq_refl) as [Hz Hbefore]. split; [done |].
    intros [| j'] t' Hlt; simpl.
    + intros [= <-] Ht%Qeq_bool_0. congruence.
    + apply Hbefore. lia.
Qed.

Lemma first_zero_None l :
  first_zero l = None → Forall (λ t, ¬ (t == 0)%Q) l.
Proof.
  induction l as [| t l IH]; simpl; [constructor |].
  destruct (Qeq_bool t 0) eqn:E; [done |].
  destruct (first_zero l); simpl; [done |]. intros _.
  constructor; [| by apply IH]. intros Ht%Qeq_bool_0. congruence.
Qed.

Lemma boundary_step_found cooking_temps st i j k :
  first_zero (reverse (take i cooking_temps)) = Some j →
  first_zero (drop i cooking_temps) = Some k →
  boundary_step cooking_temps st i
  = Ok (Some (i - j)%nat, Some (i + k)%nat, st.2 ++ [((i - j)%nat, (i + k)%nat)]).
Proof.
  intros Hj Hk. unfold boundary_step. destruct st as [[s e] evs].
  by rewrite Hj, Hk.
Qed.

(** What the two scans around a peak [i] of the channel return when each
    finds a zero: the end index is the nearest zero at or after the peak;
    the start index is the sample after the nearest zero before the
    peak, hence at least 1 and at most [i], and no sample from it up to
    the peak reads zero. *)
Lemma boundary_of_peak cooking_temps i j k :
  (i < length cooking_temps)%nat →
  first_zero (reverse (take i cooking_temps)) = Some j →
  first_zero (drop i cooking_temps) = Some k →
  let start_time := (i - j)%nat in
  let end_time := (i + k)%nat in
  (1 ≤ start_time ≤ i)%nat ∧ (i ≤ end_time)%nat
  ∧ (∃ t, cooking_temps !! end_time = Some t ∧ (t == 0)%Q)
  ∧ (∃ t, cooking_temps !! (start_time - 1)%nat = Some t ∧ (t == 0)%Q)
  ∧ (∀ m t, (start_time ≤ m < i)%nat → cooking_temps !! m = Some t → ¬ (t == 0)%Q)
  ∧ (∀ m t, (i ≤ m < end_time)%nat → cooking_temps !! m = Some t → ¬ (t == 0)%Q).
Proof.
  intros Hi Hj Hk. cbv zeta.
  destruct (first_zero_Some _ _ Hj) as [(tj & Hlj & Htj) Hbefore].
  destruct (first_zero_Some _ _ Hk) as [(tk & Hlk & Htk) Hafter].
  assert (length (take i cooking_temps) = i) as Hlen by (rewrite length_take; lia).
  assert (j < i)%nat as Hji.
  { apply lookup_lt_Some in Hlj. rewrite length_reverse, Hlen in Hlj. done. }
  split; [lia |]. split; [lia |].
  split.
  { exists tk. split; [| done]. by rewrite lookup_drop in Hlk. }
  split.
  { exists tj. split; [| done].
    rewrite reverse_lookup in Hlj by (rewrite Hlen; lia).
    rewrite Hlen in Hlj. rewrite lookup_take_lt in Hlj by lia.
    replace (i - j - 1)%nat with (i - S j)%nat by lia. done. }
  split.
  - intros m t Hm Hmt.
    apply (Hbefore (i - 1 - m)%nat t); [lia |].
    rewrite reverse_lookup by (rewrite Hlen; lia).
    rewrite Hlen. rewrite lookup_take_lt by lia.
    replace (i - S (i - 1 - m))%nat with m by lia. done.
  - intros m t Hm Hmt.
    apply (Hafter (m - i)%nat t); [lia |].
    rewrite lookup_drop. replace (i + (m - i))%nat with m by lia. done.
Qed.

(** The start index never carries a zero reading when the peak is
    not itself zero. *)
Lemma start_reading_not_zero cooking_temps i j k t :
  (i < length cooking_temps)%nat →
  first_zero (reverse (take i cooking_temps)) = Some j →
  first_zero (drop i cooking_temps) = Some k →
  ¬ (reading cooking_temps i == 0)%Q →
  cooking_temps !! (i - j)%nat = Some t → ¬ (t == 0)%Q.
Proof.
  intros Hi Hj Hk Hpeak Ht.
  destruct (boundary_of_peak _ _ _ _ Hi Hj Hk) as (Hs & _ & _ & _ & Hbetween & _).
  destruct (decide (i - j = i)%nat) as [Heq | Hne].
  - rewrite Heq in Ht. unfold reading in Hpeak.
    by rewrite (nth_lookup_Some _ _ _ _ Ht) in Hpeak.
  - apply (Hbetween (i - j)%nat t); [lia | done].
Qed.

Lemma boundary_Some cooking_temps i ev :
  boundary cooking_temps i = Some ev ↔
  ∃ j k, first_zero (reverse (take i cooking_temps)) = Some j
         ∧ first_zero (drop i cooking_temps) = Some k
         ∧ ev = ((i - j)%nat, (i + k)%nat).
Proof.
  unfold boundary.
  destruct (first_zero (reverse _)) as [j |]; [destruct (first_zero (drop _ _)) as [k |] |].
  - split; [intros [= <-]; by exists j, k | by intros (? & ? & [= <-] & [= <-] & ->)].
  - split; [done | by intros (? & ? & _ & ? & _)].
  - split; [done | by intros (? & ? & ? & _)].
Qed.

Lemma boundary_loop cooking_temps peaks st :
  Forall (λ i, is_Some (boundary cooking_temps i)) peaks →
  ∃ start_time end_time events,
    for_each (boundary_step cooking_temps) peaks st
    = Ok (start_time, end_time, st.2 ++ events)
    ∧ Forall2 (λ i ev, boundary cooking_temps i = Some ev) peaks events.
Proof.
  intros Hzeros. revert st.
  induction Hzeros as [| i peaks [ev Hev] _ IH]; intros [[s e] evs].
  { exists s, e, []. simpl. rewrite app_nil_r. by split. }
  pose proof Hev as Hev'. apply boundary_Some in Hev' as (j & k & Hj & Hk & ->).
  cbn [for_each]. rewrite (boundary_step_found _ _ _ _ _ Hj Hk). cbn [bind snd].
  destruct (IH (Some (i - j)%nat, Some (i + k)%nat, evs ++ [((i - j)%nat, (i + k)%nat)]))
    as (s' & e' & events & -> & Hevents).
  exists s', e', (((i - j)%nat, (i + k)%nat) :: events). cbn [snd].
  split; [by rewrite <- app_assoc | by constructor].
Qed.

(** Every event that [cooking_durations] resolves, when each peak has a
    zero before and after it: one event per peak, in order, with
    [start ≤ peak ≤ end], a zero at [end] and a zero just before [start]. *)
Lemma cooking_durations_events hh stove cache peaks cooking_temps :
  cook_events hh = Some cache → dict_get stove cache = Some peaks →
  channel (df_stoves hh) stove = Ok cooking_temps →
  Forall (λ i, (i < length cooking_temps)%nat ∧ is_Some (boundary cooking_temps i)) peaks →
  ∃ events,
    cooking_durations hh stove = Ok events
    ∧ Forall2 (λ i ev,
                 (1 ≤ ev.1 ≤ i)%nat ∧ (i ≤ ev.2)%nat
                 ∧ (∃ t, cooking_temps !! ev.2 = Some t ∧ (t == 0)%Q)
                 ∧ (∃ t, cooking_temps !! (ev.1 - 1)%nat = Some t ∧ (t == 0)%Q))
              peaks events.
Proof.
  intros Hcache Hpeaks Htemps Hzeros. unfold cooking_durations.
  rewrite Hcache. cbn [from_option bind]. rewrite Hpeaks. cbn [from_option bind].
  rewrite Htemps. cbn [bind].
  destruct (boundary_loop cooking_temps peaks (None, None, []))
    as (s & e & events & -> & Hevents).
  { eapply Forall_impl; [exact Hzeros |]. by intros i [_ ?]. }
  cbn [bind snd app]. exists events. split; [done |].
  clear Hpeaks. induction Hevents as [| i ev peaks events Hev _ IH]; [constructor |].
  inversion Hzeros as [| ? ? [Hi _] Hzeros']; subst.
  constructor; [| by apply IH].
  apply boundary_Some in Hev as (j & k & Hj & Hk & ->).
  destruct (boundary_of_peak _ _ _ _ Hi Hj Hk) as (? & ? & ? & ? & _). done.
Qed.

(** C1 at a failing input: the stove channel [0, 5, 20, 5, 0] has its peak
    at index 2 and a zero on each side of it, at indices 0 and 4. The
    event that [cooking_duration] resolves is (1, 4): its end reads 0, its
    start reads 5, one sample after the zero that the backward scan
    found. *)
Theorem start_index_is_after_the_zero :
  channel (df_stoves Examples.hh) "stove" = Ok [0; 5; 20; 5; 0]%Q
  ∧ (∃ hh' counts,
       cooking_events Examples.hh (SStr "All") = Ok (hh', counts)
       ∧ cook_events hh' = Some [("stove"%string, [2%nat])]
       ∧ cooking_durations hh' "stove" = Ok [(1%nat, 4%nat)])
  ∧ [0; 5; 20; 5; 0]%Q !! 0%nat = Some 0%Q
  ∧ [0; 5; 20; 5; 0]%Q !! 1%nat = Some 5%Q
  ∧ [0; 5; 20; 5; 0]%Q !! 4%nat = Some 0%Q
  ∧ ¬ (5 == 0)%Q
  ∧ ∃ hh' table, cooking_duration Examples.hh (SStr "All") = Ok (hh', table)
                 ∧ Examples.rows table = [("stove"%string, [(1, 180 # 60)])].
Proof.
  split; [reflexivity |].
  split; [eexists _, _; repeat split; vm_compute; reflexivity |].
  repeat split; try reflexivity.
  - discriminate.
  - eexists _, _. split; vm_compute; reflexivity.
Qed.

(** ** The significant-change filter *)

Lemma at_index_reading col i :
  (i < length col)%nat → at_index col i = Ok (reading col i).
Proof.
  intros Hi. unfold at_index, reading.
  destruct (lookup_lt_is_Some_2 col i Hi) as [r Hr].
  rewrite Hr. simpl. by rewrite (nth_lookup_Some _ _ _ _ Hr).
Qed.

(** An iteration of the filter on a candidate inside the channel, with a
    numeric threshold [w]: the candidate is kept exactly when the rounded
    difference between its reading and the last kept weight is at least
    the threshold in absolute value. *)
Lemma significant_step_in_range col wt w peaks weight weight_change i :
  (i < length col)%nat → as_number wt = Some w →
  significant_step col wt peaks (weight, weight_change) i
  = let keep := Qle_bool (round64 w) (Qabs (float_sub (reading col i) weight)) in
    let weight' := if keep then reading col i else weight in
    let kept := if keep then [i] else [] in
    Ok (weight',
        weight_change ++ kept
          ++ (if bool_decide (Some i = last peaks) then final_sample col weight' else [])).
Proof.
  intros Hi Hw. unfold significant_step, below_threshold, final_sample.
  rewrite (at_index_reading col i Hi), Hw. cbn [bind]. unfold Qltb at 1.
  rewrite (at_index_reading col (length col - 1)) by lia.
  destruct (Qle_bool (round64 w) _); cbn [negb bind]; case_bool_decide.
  all: try destruct (Qltb _ _).
  all: simpl; rewrite ?app_nil_r; try rewrite <- app_assoc; reflexivity.
Qed.

Lemma hits_NoDup peaks l : NoDup l → (hits peaks l ≤ 1)%nat.
Proof.
  unfold hits. induction 1 as [| i l Hnotin Hnodup IH]; simpl; [lia |].
  rewrite filter_cons. case_decide as Hi; [| done].
  simpl. enough (filter (λ i, Some i = last peaks) l = []) as -> by (simpl; lia).
  apply elem_of_nil_inv. intros i' [Hi' Hin]%list_elem_of_filter.
  rewrite <-Hi in Hi'. by injection Hi' as ->.
Qed.

(** The loop of the filter over candidates inside the channel returns, and
    appends at most one index per candidate plus one per final check. *)
Lemma significant_loop_length col wt w peaks l weight weight_change :
  Forall (λ i, (i < length col)%nat) l → as_number wt = Some w →
  ∃ weight' added,
    for_each (significant_step col wt peaks) l (weight, weight_change)
    = Ok (weight', weight_change ++ added)
    ∧ (length added ≤ length l + hits peaks l)%nat.
Proof.
  intros Hrange Hw. revert weight weight_change.
  induction Hrange as [| i l Hi Hrange IH]; intros weight weight_change.
  { exists weight, []. simpl. by rewrite app_nil_r. }
  cbn [for_each]. rewrite (significant_step_in_range _ _ w) by done. cbv zeta.
  cbn [bind].
  match goal with |- context [for_each _ _ (?w1, _ ++ ?a1)] =>
    destruct (IH w1 (weight_change ++ a1)) as (weight' & added & -> & Hlen);
    exists weight', (a1 ++ added)
  end.
  split; [by rewrite <- !app_assoc |].
  rewrite !length_app. unfold hits in *. rewrite filter_cons.
  unfold final_sample.
  destruct (Qle_bool (round64 w) _); case_bool_decide; case_decide; try done;
    try destruct (Qltb _ _); simpl in *; lia.
Qed.

(** C6, as the code has it. On a non-empty sequence of distinct candidate
    indices inside the channel, with a numeric threshold, the filter
    returns; its output starts with the first candidate and is at most one
    index longer than its input, the extra index being the one the final
    check appends. *)
Theorem filter_length_and_first_candidate hh f col w p0 rest :
  channel (df_stoves hh) f = Ok col → as_number (weight_threshold hh) = Some w →
  Forall (λ i, (i < length col)%nat) (p0 :: rest) → NoDup (p0 :: rest) →
  ∃ weight_change,
    find_significant_changes hh f (p0 :: rest) = Ok weight_change
    ∧ weight_change !! 0%nat = Some p0
    ∧ (length weight_change ≤ length (p0 :: rest) + 1)%nat.
Proof.
  intros Hcol Hw Hrange Hnodup. unfold find_significant_changes.
  rewrite Hcol. cbn [bind lookup list_lookup from_option].
  inversion Hrange as [| ? ? Hp0 Hrest]; subst.
  rewrite (at_index_reading col p0 Hp0). cbn [bind drop]. rewrite drop_0.
  destruct (significant_loop_length col (weight_threshold hh) w (p0 :: rest) rest
              (reading col p0) [p0] Hrest Hw) as (weight' & added & -> & Hlen).
  cbn [bind snd]. eexists. split; [reflexivity |]. split; [done |].
  assert (hits (p0 :: rest) rest ≤ 1)%nat.
  { apply hits_NoDup. by inversion Hnodup. }
  simpl in *. lia.
Qed.

Lemma filter_length_and_first_candidate_witness :
  ∃ weight_change,
    find_significant_changes Examples.hh "wood" [1%nat; 3%nat] = Ok weight_change
    ∧ weight_change !! 0%nat = Some 1%nat
    ∧ (length weight_change ≤ 3)%nat.
Proof.
  apply (filter_length_and_first_candidate Examples.hh "wood" [5; 6; 3; 3; 3]%Q
           (2 # 10) 1%nat [3%nat]).
  - reflexivity.
  - reflexivity.
  - repeat constructor.
  - repeat constructor; intros Hin; repeat (apply elem_of_cons in Hin as [[=] | Hin]);
      by apply elem_of_nil in Hin.
Defined.

(** C6 as stated fails: on the channel [0, 5, 0, 10, 2] both candidates 1
    and 3 are kept and the final check appends the last index 4, so three
    indices come out of two. *)
Lemma filter_output_longer_than_input :
  find_peaks [0; 5; 0; 10; 2]%Q 1 1 = Ok [1%nat; 3%nat]
  ∧ find_significant_changes
      {| df_stoves := {| timestamp := [0; 60; 120; 180; 240];
                         channels := [("wood"%string, [0; 5; 0; 10; 2]%Q)] |};
         stoves := []; fuels := ["wood"%string];
         temp_threshold := 15; time_between_events := 30;
         study_duration := 240; weight_threshold := PyFloat (2 # 10);
         cook_events := None; weight_changes := None |}
      "wood" [1%nat; 3%nat]
    = Ok [1%nat; 3%nat; 4%nat]
  ∧ (length [1%nat; 3%nat] < length [1%nat; 3%nat; 4%nat])%nat.
Proof. repeat split; vm_compute; reflexivity. Qed.

(** The same bound for the candidates that the detection finds on a fuel
    channel, which are distinct and inside the channel. *)
Lemma find_significant_changes_of_find_peaks hh f col w peaks :
  channel (df_stoves hh) f = Ok col → as_number (weight_threshold hh) = Some w →
  find_peaks col 1 1 = Ok peaks → peaks ≠ [] →
  ∃ weight_change,
    find_significant_changes hh f peaks = Ok weight_change
    ∧ weight_change !! 0%nat = peaks !! 0%nat
    ∧ (length weight_change ≤ length peaks + 1)%nat.
Proof.
  intros Hcol Hw Hpeaks Hne.
  apply find_peaks_candidates in Hpeaks as [Hnodup Hrange].
  destruct peaks as [| p0 rest]; [done |]. unfold find_significant_changes.
  rewrite Hcol. cbn [bind lookup list_lookup from_option].
  assert (Forall (λ i, (i < length col)%nat) (p0 :: rest)) as Hrange'.
  { eapply Forall_impl; [exact Hrange |]. simpl. lia. }
  inversion Hrange' as [| ? ? Hp0 Hrest]; subst.
  rewrite (at_index_reading col p0 Hp0). cbn [bind drop]. rewrite drop_0.
  destruct (significant_loop_length col (weight_threshold hh) w (p0 :: rest) rest
              (reading col p0) [p0] Hrest Hw) as (weight' & added & -> & Hlen).
  cbn [bind snd]. eexists. split; [reflexivity |]. split; [done |].
  assert (hits (p0 :: rest) rest ≤ 1)%nat.
  { apply hits_NoDup. by inversion Hnodup. }
  simpl in *. lia.
Qed.

Lemma significant_loop_thin col wt w peaks x l weight weight_change :
  last peaks = Some x → last l = Some x → NoDup l →
  Forall (λ i, (i < length col)%nat) l → as_number wt = Some w →
  for_each (significant_step col wt peaks) l (weight, weight_change)
  = Ok ((thin_rounded col w weight l).1,
        weight_change ++ (thin_rounded col w weight l).2
          ++ final_sample col (thin_rounded col w weight l).1).
Proof.
  intros Hx Hlast Hnodup Hrange Hw. revert weight weight_change.
  induction l as [| i l IH]; intros weight weight_change; [done |].
  inversion Hrange as [| ? ? Hi Hrange']; subst.
  inversion Hnodup as [| ? ? Hnotin Hnodup']; subst.
  cbn [for_each]. rewrite (significant_step_in_range _ _ w) by done. cbv zeta.
  cbn [bind]. rewrite Hx.
  destruct l as [| i' l].
  - simpl in Hlast. injection Hlast as ->. rewrite bool_decide_eq_true_2 by done.
    cbn [for_each thin_rounded]. destruct (Qle_bool (round64 w) _); simpl;
      by rewrite ?app_nil_r, <- ?app_assoc.
  - rewrite last_cons_cons in Hlast.
    rewrite bool_decide_eq_false_2; last first.
    { intros [= ->]. apply Hnotin. by apply last_Some_elem_of. }
    rewrite app_nil_r. rewrite (IH Hlast Hnodup' Hrange').
    cbn [thin_rounded].
    destruct (Qle_bool (round64 w) (Qabs (float_sub (reading col i) weight))); simpl;
      by rewrite ?app_nil_r, <- ?app_assoc.
Qed.

(** Where the readings subtract without rounding, the loop of the program
    takes the decisions of the filter of the specification. *)
Lemma thin_rounded_exact col w l p candidates :
  is_double w → exact_differences col l → p ∈ l → Forall (λ c, c ∈ l) candidates →
  thin_rounded col w (reading col p) candidates = thin col w (reading col p) candidates.
Proof.
  intros Hw Hexact. revert p.
  induction candidates as [| c candidates IH]; intros p Hp Hin; [done |].
  inversion Hin as [| ? ? Hc Hin']; subst. cbn [thin_rounded thin].
  assert (Qle_bool (round64 w) (Qabs (float_sub (reading col c) (reading col p)))
          = Qle_bool w (Qabs (reading col c - reading col p))) as ->.
  { apply Qleb_comp; [exact Hw |]. apply Qabs_wd. by apply Hexact. }
  destruct (Qle_bool w _); by rewrite IH.
Qed.

(** With two or more distinct candidates inside the channel, whose
    readings subtract without rounding, and a threshold that is a double,
    the code is the filter of the specification. *)
Lemma find_significant_changes_spec hh f col w p0 p1 rest :
  channel (df_stoves hh) f = Ok col → as_number (weight_threshold hh) = Some w →
  Forall (λ i, (i < length col)%nat) (p0 :: p1 :: rest) → NoDup (p0 :: p1 :: rest) →
  is_double w → exact_differences col (p0 :: p1 :: rest) →
  find_significant_changes hh f (p0 :: p1 :: rest)
  = from_option IndexError (significant_changes_spec col w (p0 :: p1 :: rest)).
Proof.
  intros Hcol Hw Hrange Hnodup Hdouble Hexact. unfold find_significant_changes.
  rewrite Hcol. cbn [bind lookup list_lookup from_option].
  inversion Hrange as [| ? ? Hp0 Hrest]; subst.
  inversion Hnodup as [| ? ? _ Hnodup']; subst.
  rewrite (at_index_reading col p0 Hp0). cbn [bind drop].
  destruct (last_is_Some (p1 :: rest)) as [_ [x Hx]]; [done |].
  rewrite (significant_loop_thin col _ w _ x) by done.
  unfold significant_changes_spec.
  rewrite (thin_rounded_exact col w (p0 :: p1 :: rest)); [done | done | done | |].
  - apply list_elem_of_here.
  - apply Forall_forall. intros c Hc. by apply list_elem_of_further.
Qed.

(** With a single candidate the loop body never runs: the candidate is
    returned alone, whatever the final sample reads. *)
Lemma find_significant_changes_single hh f col p0 :
  channel (df_stoves hh) f = Ok col → (p0 < length col)%nat →
  find_significant_changes hh f [p0] = Ok [p0].
Proof.
  intros Hcol Hp0. unfold find_significant_changes.
  rewrite Hcol. cbn [bind lookup list_lookup from_option].
  by rewrite (at_index_reading col p0 Hp0).
Qed.

(** C3 at a failing input: the fuel channel [5, 6, 3, 3, 3] has the single
    candidate 1 (reading 6), and its final sample, index 4, reads 3, which
    is lower. The filter of the claim returns [1, 4]; the code returns [1],
    because its final check sits in the loop over the candidates after the
    first and there is none. *)
Theorem single_candidate_skips_final_check :
  channel (df_stoves Examples.hh) "wood" = Ok [5; 6; 3; 3; 3]%Q
  ∧ find_peaks [5; 6; 3; 3; 3]%Q 1 1 = Ok [1%nat]
  ∧ (reading [5; 6; 3; 3; 3]%Q 4 < reading [5; 6; 3; 3; 3]%Q 1)%Q
  ∧ significant_changes_spec [5; 6; 3; 3; 3]%Q (2 # 10) [1%nat] = Some [1%nat; 4%nat]
  ∧ find_significant_changes Examples.hh "wood" [1%nat] = Ok [1%nat]
  ∧ ∃ hh' table, fuel_usage Examples.hh (SStr "All") = Ok (hh', table)
                 ∧ weight_changes hh' = Some [("wood"%string, [1%nat])].
Proof.
  repeat split; try (vm_compute; reflexivity).
  eexists _, _. split; vm_compute; reflexivity.
Qed.

(** ** Day buckets *)

Lemma bucket_total_empty : bucket_total ∅ = 0%Q.
Proof. apply map_fold_empty. Qed.

Lemma bucket_total_insert (daily : gmap Z Q) day v :
  daily !! day = None →
  (bucket_total (<[day := v]> daily) == v + bucket_total daily)%Q.
Proof.
  intros Hfresh. unfold bucket_total.
  apply (map_fold_insert Qeq (fun _ v acc => (v + acc)%Q)); [| | done].
  - intros _ z a b Hab. by rewrite Hab.
  - intros. ring.
Qed.

Lemma non_negative_insert (daily : gmap Z Q) day v :
  (0 <= v)%Q → non_negative daily → non_negative (<[day := v]> daily).
Proof. intros. by apply map_Forall_insert_2. Qed.

Lemma elem_of_day_range first n d :
  d ∈ day_range first n ↔ first ≤ d < first + n.
Proof.
  unfold day_range. rewrite list_elem_of_fmap. split.
  - intros (i & -> & Hi%elem_of_seq). lia.
  - intros Hd. exists (Z.to_nat (d - first)). split; [lia |].
    apply elem_of_seq. lia.
Qed.

Lemma back_fill_dom days_ (daily : gmap Z Q) d :
  d ∈ dom (back_fill days_ daily) ↔ d ∈ dom daily ∨ d ∈ days_.
Proof.
  unfold back_fill. revert daily.
  induction days_ as [| day days_ IH]; intros daily; simpl.
  - rewrite elem_of_nil. tauto.
  - rewrite IH, elem_of_cons. case_bool_decide as Hday.
    + split; [tauto |]. intros [? | [-> | ?]]; tauto.
    + rewrite dom_insert_L, elem_of_union, elem_of_singleton. tauto.
Qed.

Lemma back_fill_non_negative days_ (daily : gmap Z Q) :
  non_negative daily → non_negative (back_fill days_ daily).
Proof.
  unfold back_fill. revert daily.
  induction days_ as [| day days_ IH]; intros daily Hnn; simpl; [done |].
  apply IH. case_bool_decide; [done |]. by apply non_negative_insert.
Qed.

Lemma back_fill_total days_ (daily : gmap Z Q) :
  (bucket_total (back_fill days_ daily) == bucket_total daily)%Q.
Proof.
  unfold back_fill. revert daily.
  induction days_ as [| day days_ IH]; intros daily; simpl; [reflexivity |].
  rewrite IH. case_bool_decide as Hday; [reflexivity |].
  rewrite bucket_total_insert by by apply not_elem_of_dom.
  ring.
Qed.

Lemma seconds_range td : 0 ≤ seconds td < seconds_per_day.
Proof. unfold seconds, seconds_per_day. apply Z.mod_pos_bound. lia. Qed.

Lemma event_minutes_non_negative start_time end_time :
  (0 <= event_minutes start_time end_time)%Q.
Proof.
  unfold event_minutes. apply Qle_shift_div_l; [reflexivity |].
  rewrite Qmult_0_l. change 0%Q with (inject_Z 0). rewrite <- Zle_Qle.
  apply seconds_range.
Qed.

(** *** Cooking minutes per day *)

Lemma cooking_inv_init : cooking_inv (0, ∅, 0%Q).
Proof.
  unfold cooking_inv. simpl. split; [lia |]. split.
  { intros d. rewrite dom_empty_L, elem_of_empty. lia. }
  split; [by rewrite map_size_empty |]. split; [apply Qle_refl |].
  apply map_Forall_empty.
Qed.

Lemma cooking_inv_fresh day daily mins :
  cooking_inv (day, daily, mins) → daily !! (day + 1) = None.
Proof.
  intros (_ & Hdom & _). apply not_elem_of_dom. rewrite (Hdom (day + 1)).
  simpl. lia.
Qed.

(** Closing out a day keeps the invariant. *)
Lemma cooking_inv_close_out day daily mins v mins' :
  cooking_inv (day, daily, mins) → (0 <= v)%Q → (0 <= mins')%Q →
  cooking_inv (day + 1, <[day + 1 := v]> daily, mins').
Proof.
  intros Hinv Hv Hmins'. pose proof (cooking_inv_fresh _ _ _ Hinv) as Hfresh.
  destruct Hinv as (Hday & Hdom & Hsize & Hmins & Hnn). simpl in *.
  unfold cooking_inv. simpl. split; [lia |]. split.
  { intros d. rewrite dom_insert_L, elem_of_union, elem_of_singleton, Hdom. lia. }
  split; [rewrite map_size_insert_None by done; lia |].
  split; [done |]. by apply non_negative_insert.
Qed.

Lemma cooking_inv_pending day daily mins mins' :
  cooking_inv (day, daily, mins) → (0 <= mins')%Q → cooking_inv (day, daily, mins').
Proof.
  unfold cooking_inv. simpl. intros (? & ? & ? & ? & ?) ?.
  split; [done |]. split; [done |]. split; [done |]. split; done.
Qed.

(** One event: the invariant is kept, and the minutes recorded or pending
    grow by this event's [event_minutes] and nothing else. *)
Lemma cooking_step_spec ts study_began n day daily mins i idx st' :
  cooking_inv (day, daily, mins) →
  cooking_step ts study_began n (day, daily, mins) (i, idx) = Ok st' →
  cooking_inv st'
  ∧ ∃ start_time end_time,
      ts !! idx.1 = Some start_time ∧ ts !! idx.2 = Some end_time
      ∧ (bucket_total st'.1.2 + (if (i =? n - 1)%nat then 0 else st'.2)
         == bucket_total daily + mins + event_minutes start_time end_time)%Q.
Proof.
  intros Hinv. unfold cooking_step, at_index.
  destruct (ts !! idx.2) as [end_time |]; [| done].
  destruct (ts !! idx.1) as [start_time |]; [| done]. cbn [from_option bind].
  pose proof (event_minutes_non_negative start_time end_time) as Hev.
  assert (0 <= mins)%Q as Hmins by apply Hinv.
  assert (0 <= mins + event_minutes start_time end_time)%Q as Hsum.
  { apply Qle_trans with (0 + 0)%Q; [apply Qle_refl | by apply Qplus_le_compat]. }
  assert (0 <= 0 + event_minutes start_time end_time)%Q as Hsum0.
  { by rewrite Qplus_0_l. }
  destruct (days (end_time - study_began) =? day); destruct (i =? n - 1)%nat;
    intros [= <-]; (split; [| exists start_time, end_time; do 2 (split; [done |])]);
    cbn [fst snd].
  - by eapply cooking_inv_close_out.
  - rewrite bucket_total_insert by by eapply cooking_inv_fresh. ring.
  - by eapply cooking_inv_pending.
  - ring.
  - eapply cooking_inv_close_out; [| done | done].
    by eapply (cooking_inv_close_out _ _ _ mins 0%Q).
  - pose proof (cooking_inv_close_out _ _ _ mins 0%Q Hinv Hmins (Qle_refl 0)) as Hinv'.
    rewrite bucket_total_insert by by eapply cooking_inv_fresh.
    rewrite bucket_total_insert by by eapply cooking_inv_fresh. ring.
  - by eapply cooking_inv_close_out.
  - rewrite bucket_total_insert by by eapply cooking_inv_fresh. ring.
Qed.

Lemma cooking_loop_spec ts study_began n events k st st' :
  (k + length events = n)%nat → cooking_inv st →
  for_each (cooking_step ts study_began n) (zip (seq k (length events)) events) st = Ok st' →
  cooking_inv st'
  ∧ match events with
    | [] => st' = st
    | _ => (bucket_total st'.1.2 == bucket_total st.1.2 + st.2 + events_minutes ts events)%Q
    end.
Proof.
  revert k st. induction events as [| idx events IH]; intros k st Hn Hinv.
  { simpl. by intros [= <-]. }
  cbn [length seq zip zip_with for_each]. rewrite bind_Ok.
  intros (st1 & Hstep & Hloop). destruct st as [[day daily] mins].
  destruct (cooking_step_spec _ _ _ _ _ _ _ _ _ Hinv Hstep)
    as (Hinv1 & start_time & end_time & Hs & He & Htotal).
  simpl in Hn. destruct (IH (S k) st1 ltac:(lia) Hinv1 Hloop) as (Hinv' & Hrest).
  split; [done |]. cbn [events_minutes foldr fst snd].
  rewrite (nth_lookup_Some _ _ _ _ Hs), (nth_lookup_Some _ _ _ _ He).
  destruct events as [| idx' events].
  - subst st'. simpl in Hn. replace (k =? n - 1)%nat with true in Htotal
      by (symmetry; apply Nat.eqb_eq; lia).
    rewrite Qplus_0_r in Htotal. rewrite Htotal. simpl. ring.
  - replace (k =? n - 1)%nat with false in Htotal
      by (symmetry; apply Nat.eqb_neq; simpl in Hn; lia).
    rewrite Hrest, Htotal. fold (events_minutes ts (idx' :: events)). ring.
Qed.

Lemma cooking_loop_returns ts study_began n events k st :
  Forall (λ idx, (idx.1 < length ts)%nat ∧ (idx.2 < length ts)%nat) events →
  ∃ st', for_each (cooking_step ts study_began n) (zip (seq k (length events)) events) st
         = Ok st'.
Proof.
  intros Hrange. revert k st.
  induction Hrange as [| idx events [Hs He] _ IH]; intros k st; [by eexists |].
  cbn [length seq zip zip_with for_each].
  destruct st as [[day daily] mins]. unfold cooking_step at 1.
  destruct (lookup_lt_is_Some_2 ts idx.1 Hs) as [start_time Hstart].
  destruct (lookup_lt_is_Some_2 ts idx.2 He) as [end_time Hend].
  unfold at_index. rewrite Hstart, Hend. cbn [from_option bind].
  destruct (_ =? _); destruct (_ =? _)%nat; cbn [bind]; apply IH.
Qed.

(** The series of one stove: it returns for events inside the data set;
    its keys contain every day of the study, its values are not negative,
    and they add up to the minutes of the events. *)
Lemma daily_cooking_time_spec hh events daily :
  daily_cooking_time hh events = Ok daily →
  (∀ d, 1 ≤ d ≤ days (study_duration hh) → d ∈ dom daily)
  ∧ non_negative daily
  ∧ (bucket_total daily == events_minutes (timestamp (df_stoves hh)) events)%Q.
Proof.
  unfold daily_cooking_time. rewrite bind_Ok. intros (study_began & _ & H).
  apply bind_Ok in H as (st & Hloop & H).
  destruct (cooking_loop_spec _ _ _ events 0%nat _ _ eq_refl cooking_inv_init Hloop)
    as (Hinv & Htotal).
  assert (bucket_total st.1.2 == events_minutes (timestamp (df_stoves hh)) events)%Q
    as Htotal'.
  { destruct events; [by subst st |].
    rewrite Htotal. cbn [fst snd]. rewrite bucket_total_empty. ring. }
  destruct st as [[day daily'] mins].
  destruct Hinv as (Hday & Hdom & Hsize & Hmins & Hnn). cbn [fst snd] in *.
  destruct (Z.eqb_spec (Z.of_nat (size daily')) (days (study_duration hh))) as [Heq | Hne];
    injection H as <-.
  - split; [| done]. intros d Hd. apply Hdom. lia.
  - split; [| split].
    + intros d Hd. apply back_fill_dom. right. apply elem_of_day_range. lia.
    + by apply back_fill_non_negative.
    + by rewrite back_fill_total.
Qed.

Lemma daily_cooking_time_returns hh events :
  timestamp (df_stoves hh) ≠ [] →
  Forall (λ idx, (idx.1 < length (timestamp (df_stoves hh)))%nat
                 ∧ (idx.2 < length (timestamp (df_stoves hh)))%nat) events →
  ∃ daily, daily_cooking_time hh events = Ok daily.
Proof.
  intros Hts Hrange. unfold daily_cooking_time, enumerate.
  destruct (timestamp (df_stoves hh)) as [| t0 ts] eqn:Ets; [done |].
  cbn [at_index lookup list_lookup from_option bind].
  destruct (cooking_loop_returns (t0 :: ts) t0 (length events) events 0%nat (0, ∅, 0%Q) Hrange)
    as [st ->].
  cbn [bind]. destruct (_ =? _); by eexists.
Qed.

Lemma event_minutes_modulo start_time end_time :
  event_minutes start_time end_time
  = (inject_Z ((end_time - start_time) - 86400 * ((end_time - start_time) / 86400)) / 60)%Q.
Proof.
  unfold event_minutes, seconds, seconds_per_day.
  by rewrite Z.mod_eq by lia.
Qed.

(** An event of a day or more loses its whole days. *)
Lemma event_minutes_drops_days start_time end_time :
  86400 ≤ end_time - start_time →
  1 ≤ days (end_time - start_time)
  ∧ (event_minutes start_time end_time
     == inject_Z (end_time - start_time) / 60
        - 1440 * inject_Z (days (end_time - start_time)))%Q
  ∧ (event_minutes start_time end_time < inject_Z (end_time - start_time) / 60)%Q.
Proof.
  intros Hlong. unfold days, seconds_per_day.
  assert (1 ≤ (end_time - start_time) / 86400) as Hdays.
  { apply Z.div_le_lower_bound; lia. }
  split; [done |].
  assert (event_minutes start_time end_time
          == inject_Z (end_time - start_time) / 60
             - 1440 * inject_Z ((end_time - start_time) / 86400))%Q as Heq.
  { rewrite event_minutes_modulo. unfold Z.sub at 1.
    rewrite inject_Z_plus, inject_Z_opp, inject_Z_mult. field. }
  split; [done |]. rewrite Heq.
  apply Qlt_minus_iff.
  ring_simplify.
  apply Qmult_lt_0_compat; [reflexivity |].
  change 0%Q with (inject_Z 0). rewrite <- Zlt_Qlt. lia.
Qed.

(** *** Fuel used per day *)

Lemma fuel_inv_init : fuel_inv (1, 0%Q, ∅).
Proof.
  unfold fuel_inv. simpl. split; [lia |]. split; [intros; lia |].
  split; [intros d; by rewrite dom_empty_L, elem_of_empty |].
  rewrite map_size_empty. lia.
Qed.

Lemma fuel_inv_same_day day new_weight new_weight' v (daily : gmap Z Q) :
  fuel_inv (day, new_weight, daily) →
  fuel_inv (day, new_weight', <[day := v]> daily).
Proof.
  unfold fuel_inv. simpl. intros (Hday & Hin & Hout & Hsize & Hsize').
  split; [done |]. split.
  { intros d Hd. rewrite dom_insert_L, elem_of_union. right. by apply Hin. }
  split.
  { intros d. rewrite dom_insert_L, elem_of_union, elem_of_singleton.
    intros [-> | Hd]; [lia | by apply Hout]. }
  rewrite map_size_insert. split.
  - destruct (daily !! day) eqn:E; simpl; [done |].
    apply not_elem_of_dom in E. specialize (Hsize' E). lia.
  - intros Hnot. exfalso. apply Hnot.
    rewrite dom_insert_L, elem_of_union, elem_of_singleton. by left.
Qed.

Lemma fuel_inv_next_day day new_weight new_weight' v (daily : gmap Z Q) :
  fuel_inv (day, new_weight, daily) →
  fuel_inv (day + 1, new_weight', <[day + 1 := v]> daily).
Proof.
  unfold fuel_inv. simpl. intros (Hday & Hin & Hout & Hsize & Hsize').
  split; [lia |]. split.
  { intros d Hd. rewrite dom_insert_L, elem_of_union, elem_of_singleton.
    destruct (decide (d = day + 1)); [by left | right; apply Hin; lia]. }
  split.
  { intros d. rewrite dom_insert_L, elem_of_union, elem_of_singleton.
    intros [-> | Hd]; [lia |]. specialize (Hout d Hd). lia. }
  assert (daily !! (day + 1) = None) as Hfresh.
  { apply not_elem_of_dom. intros Hd. specialize (Hout _ Hd). lia. }
  rewrite map_size_insert_None by done. split; [lia |].
  intros Hnot. exfalso. apply Hnot.
  rewrite dom_insert_L, elem_of_union, elem_of_singleton. by left.
Qed.

Lemma fuel_step_inv ts col study_began initial_weight st i st' :
  fuel_inv st → fuel_step ts col study_began initial_weight st i = Ok st' →
  fuel_inv st'.
Proof.
  destruct st as [[day new_weight] daily]. intros Hinv. unfold fuel_step.
  destruct (at_index ts i) as [t |]; [| done]. cbn [bind].
  destruct (at_index col i) as [w |]; [| by destruct (_ =? _)].
  destruct (_ =? _); cbn [bind]; intros [= <-].
  - by eapply fuel_inv_same_day.
  - by eapply fuel_inv_next_day.
Qed.

Lemma for_each_invariant {A S} (f : S → A → result S) (P : S → Prop) l st st' :
  (∀ s x s', P s → f s x = Ok s' → P s') →
  P st → for_each f l st = Ok st' → P st'.
Proof.
  intros Hstep. revert st. induction l as [| x l IH]; intros st Hst; simpl.
  - by intros [= <-].
  - rewrite bind_Ok. intros (st1 & Hf & Hrest). eapply IH; [| done]. by eapply Hstep.
Qed.

(** The series of one fuel holds every day from 2 to the last day of the
    study. *)
Lemma daily_fuel_use_spec hh fuel weight_changes_ daily :
  daily_fuel_use hh fuel weight_changes_ = Ok daily →
  ∀ d, 2 ≤ d ≤ days (study_duration hh) → d ∈ dom daily.
Proof.
  unfold daily_fuel_use. rewrite bind_Ok. intros (study_began & _ & H).
  apply bind_Ok in H as (col & _ & H). apply bind_Ok in H as (wc0 & _ & H).
  apply bind_Ok in H as (initial_weight & _ & H).
  apply bind_Ok in H as (st & Hloop & H).
  pose proof (for_each_invariant _ fuel_inv _ _ _
                (fuel_step_inv _ _ _ _) fuel_inv_init Hloop) as Hinv.
  destruct st as [[day new_weight] daily'].
  destruct Hinv as (Hday & Hin & Hout & Hsize & _). cbn [fst snd] in *.
  destruct (Z.eqb_spec (Z.of_nat (size daily')) (days (study_duration hh))) as [Heq | Hne];
    injection H as <-; intros d Hd.
  - apply Hin. lia.
  - apply back_fill_dom. right. apply elem_of_day_range. lia.
Qed.

(** *** The tables *)

Lemma Forall2_zip {A B} (P : A → B → Prop) (l : list A) (k : list B) :
  Forall2 P l k → Forall (λ row, P row.1 row.2) (zip l k).
Proof. induction 1; simpl; by constructor. Qed.

Lemma cooking_duration_rows_loop hh l acc res :
  for_each (fun acc s =>
              let* cooking_durations_list := cooking_durations hh s in
              let* daily_cooking := daily_cooking_time hh cooking_durations_list in
              Ok (acc ++ [daily_cooking]))
           l acc = Ok res →
  ∃ rows, res = acc ++ rows
          ∧ Forall2 (λ s daily, ∃ events, cooking_durations hh s = Ok events
                                          ∧ daily_cooking_time hh events = Ok daily)
                    l rows.
Proof.
  revert acc. induction l as [| s l IH]; intros acc; simpl.
  - intros [= <-]. exists []. by rewrite app_nil_r.
  - rewrite bind_Ok. intros (acc1 & Hstep & Hrest).
    apply bind_Ok in Hstep as (events & Hevents & Hstep).
    apply bind_Ok in Hstep as (daily & Hdaily & [= <-]).
    destruct (IH _ Hrest) as (rows & -> & Hrows).
    exists (daily :: rows). split; [by rewrite <- app_assoc |].
    constructor; [by exists events | done].
Qed.

(** Every row of the table of [cooking_duration] is the series that
    [daily_cooking_time] computes from the events of the row's stove. *)
Lemma cooking_duration_rows hh stove hh' table :
  cooking_duration hh stove = Ok (hh', table) →
  df_stoves hh' = df_stoves hh ∧ study_duration hh' = study_duration hh
  ∧ Forall (λ row, ∃ events, cooking_durations hh' row.1 = Ok events
                             ∧ daily_cooking_time hh' events = Ok row.2) table.
Proof.
  unfold cooking_duration. rewrite bind_Ok. intros ([hh1 counts] & Hevents & H).
  apply bind_Ok in H as (res & Hloop & [= <- <-]). cbn [fst snd] in *.
  assert (df_stoves hh1 = df_stoves hh ∧ study_duration hh1 = study_duration hh)
    as [Hdf Hsd].
  { unfold cooking_events in Hevents. destruct stove; try done.
    apply bind_Ok in Hevents as (? & _ & Hevents).
    apply bind_Ok in Hevents as (? & _ & [= <- _]). done. }
  split; [done |]. split; [done |].
  apply cooking_duration_rows_loop in Hloop as (rows & -> & Hrows).
  by apply (Forall2_zip _ _ _ Hrows).
Qed.

Lemma fuel_usage_rows_loop hh l acc res :
  for_each (fun '(fuel_change, fuel_weight_changes) f =>
              let* r := fuel_usage_one hh f in
              Ok (fuel_change ++ [r.2], dict_update f r.1 fuel_weight_changes))
           l acc = Ok res →
  ∃ rows, res.1 = acc.1 ++ rows
          ∧ Forall2 (λ f daily, ∃ weight_changes_,
                       daily_fuel_use hh f weight_changes_ = Ok daily)
                    l rows.
Proof.
  revert acc. induction l as [| f l IH]; intros [fuel_change fuel_weight_changes]; simpl.
  - intros [= <-]. exists []. by rewrite app_nil_r.
  - rewrite bind_Ok. intros (acc1 & Hstep & Hrest).
    apply bind_Ok in Hstep as ([wc daily] & Hone & [= <-]).
    destruct (IH _ Hrest) as (rows & -> & Hrows). cbn [fst snd].
    exists (daily :: rows). split; [by rewrite <- app_assoc |].
    constructor; [| done]. exists wc.
    unfold fuel_usage_one in Hone.
    apply bind_Ok in Hone as (? & _ & Hone). apply bind_Ok in Hone as (? & _ & Hone).
    apply bind_Ok in Hone as (wc' & _ & Hone).
    by apply bind_Ok in Hone as (daily' & Hdaily & [= <- <-]).
Qed.

(** Every row of the table of [fuel_usage] is a series that
    [daily_fuel_use] computes for the row's fuel. *)
Lemma fuel_usage_rows hh fuel hh' table :
  fuel_usage hh fuel = Ok (hh', table) →
  Forall (λ row, ∃ weight_changes_,
            daily_fuel_use hh row.1 weight_changes_ = Ok row.2) table.
Proof.
  unfold fuel_usage. rewrite bind_Ok. intros (_ & _ & H).
  apply bind_Ok in H as (fuel_type & _ & H).
  apply bind_Ok in H as (res & Hloop & [= _ <-]).
  apply fuel_usage_rows_loop in Hloop as (rows & -> & Hrows).
  by apply (Forall2_zip _ _ _ Hrows).
Qed.

(** The minutes in each row of the table of [cooking_duration] add up to
    the minutes of the events of its stove, each modulo a day. *)
Lemma cooking_duration_totals hh stove hh' table :
  cooking_duration hh stove = Ok (hh', table) →
  Forall (λ row, ∃ events,
            cooking_durations hh' row.1 = Ok events
            ∧ (bucket_total row.2
               == events_minutes (timestamp (df_stoves hh)) events)%Q) table.
Proof.
  intros Htable. apply cooking_duration_rows in Htable as (Hdf & _ & Hrows).
  eapply Forall_impl; [exact Hrows |]. intros row (events & Hevents & Hdaily).
  exists events. split; [done |].
  apply daily_cooking_time_spec in Hdaily as (_ & _ & Htotal).
  by rewrite Hdf in Htotal.
Qed.

(** C2, as the code has it. In every table that [cooking_duration]
    returns, each row has a key for every day from 1 to the number of days
    of the study and no negative value; in every table that [fuel_usage]
    returns, each row has a key for every day from 2 to that number. *)
Theorem day_series_hold_the_study_days hh stove fuel :
  (∀ hh' table,
     cooking_duration hh stove = Ok (hh', table) →
     Forall (λ row, (∀ d, 1 ≤ d ≤ days (study_duration hh) → d ∈ dom row.2)
                    ∧ non_negative row.2) table)
  ∧ (∀ hh' table,
       fuel_usage hh fuel = Ok (hh', table) →
       Forall (λ row, ∀ d, 2 ≤ d ≤ days (study_duration hh) → d ∈ dom row.2) table).
Proof.
  split; intros hh' table Htable.
  - apply cooking_duration_rows in Htable as (_ & Hsd & Hrows).
    eapply Forall_impl; [exact Hrows |]. intros row (events & _ & Hdaily).
    apply daily_cooking_time_spec in Hdaily as (Hdom & Hnn & _).
    rewrite Hsd in Hdom. done.
  - apply fuel_usage_rows in Htable.
    eapply Forall_impl; [exact Htable |]. intros row (wc & Hdaily).
    by eapply daily_fuel_use_spec.
Qed.

Lemma day_series_hold_the_study_days_witness :
  ∃ hh1 cooking hh2 fuel,
    cooking_duration Examples.hh_days (SStr "All") = Ok (hh1, cooking)
    ∧ Forall (λ row, (∀ d, 1 ≤ d ≤ 2 → d ∈ dom row.2) ∧ non_negative row.2) cooking
    ∧ fuel_usage Examples.hh_days (SStr "All") = Ok (hh2, fuel)
    ∧ Forall (λ row, ∀ d, 2 ≤ d ≤ 2 → d ∈ dom row.2) fuel.
Proof.
  destruct (day_series_hold_the_study_days Examples.hh_days (SStr "All") (SStr "All"))
    as [Hcooking Hfuel].
  eexists _, _, _, _.
  split; [vm_compute; reflexivity |].
  split; [eapply Hcooking; vm_compute; reflexivity |].
  split; [vm_compute; reflexivity |].
  eapply Hfuel; vm_compute; reflexivity.
Defined.

(** C2 as stated fails. The study of [hh_days] lasts 2 days. The rows of
    its cooking table have the keys 1, 2 and 3; the wood row of its fuel
    table has the keys 1, 2 and 3 and the value -2 on day 2, where the
    store was topped up; the gas row has the single key 2, with the value
    -7. *)
Lemma day_keys_differ_from_study_days :
  days (study_duration Examples.hh_days) = 2
  ∧ (∃ hh' table,
       cooking_duration Examples.hh_days (SStr "All") = Ok (hh', table)
       ∧ Examples.rows table
         = [("stove"%string, [(3, 3600 # 60); (2, 3600 # 60); (1, 3600 # 60)]);
            ("oven"%string, [(3, 10800 # 60); (2, 10800 # 60); (1, 0%Q)])])
  ∧ (∃ hh' wood gas,
       fuel_usage Examples.hh_days (SStr "All")
       = Ok (hh', [("wood"%string, wood); ("gas"%string, gas)])
       ∧ map_to_list wood = [(3, 5%Q); (2, (-2)%Q); (1, 0%Q)]
       ∧ map_to_list gas = [(2, (-7)%Q)]
       ∧ wood !! 3 = Some 5%Q ∧ wood !! 2 = Some (-2)%Q
       ∧ gas !! 1 = None ∧ gas !! 2 = Some (-7)%Q).
Proof.
  split; [reflexivity |]. split.
  - eexists _, _. split; vm_compute; reflexivity.
  - eexists _, _, _. split; [vm_compute; reflexivity |].
    repeat split; vm_compute; reflexivity.
Qed.

(** The oven of [hh_days] is hot from 01:00 of the first day to 04:00 of
    the third: an event of 51 hours, 3060 minutes, entered as 180. *)
Example oven_event_minutes :
  events_minutes (timestamp (df_stoves Examples.hh_days)) [(1%nat, 8%nat)] = (10800 # 60)%Q
  ∧ (inject_Z (187200 - 3600) / 60 == 3060)%Q
  ∧ ∃ daily, daily_cooking_time Examples.hh_days [(1%nat, 8%nat)] = Ok daily
             ∧ map_to_list daily = [(2, 10800 # 60); (1, 0%Q)].
Proof.
  split; [vm_compute; reflexivity |]. split; [reflexivity |].
  eexists. split; vm_compute; reflexivity.
Qed.

(** * Further properties *)

(** ** Subject validation *)

Lemma check_list_of_str_Ok a msg_list msg_other :
  check_list_of_str a msg_list msg_other = Ok tt ↔ all_strings a.
Proof.
  destruct a as [s | l |]; simpl; [done | | done].
  destruct (forallb elem_is_str l) eqn:E.
  - split; [| done]. intros _. apply Forall_forall. intros e He.
    rewrite forallb_forall in E. apply E. by apply list_elem_of_In.
  - split; [done |]. intros Hall. exfalso.
    assert (forallb elem_is_str l = true); [| congruence].
    apply forallb_forall. intros e He. rewrite Forall_forall in Hall.
    apply Hall. by apply list_elem_of_In.
Qed.

Lemma collect_known_Ok known (l acc res : list string) :
  for_each (fun acc s => if in_list s known then Ok (acc ++ [s])
                         else Raise (ValueError (s ++ " not found in data set.")))
           l acc = Ok res
  ↔ res = acc ++ l ∧ Forall (λ s, s ∈ known) l.
Proof.
  revert acc. induction l as [| s l IH]; intros acc; simpl.
  - rewrite app_nil_r. split; [by intros [= <-] | by intros [-> _]].
  - unfold in_list at 1. case_bool_decide as Hs; simpl.
    + rewrite IH, <- app_assoc. simpl. rewrite Forall_cons. tauto.
    + split; [done |]. intros [_ Hall]. by inversion Hall.
Qed.

(** X1. A request to [check_stove_type] other than ["All"] is answered
    with the very items it iterates (the names of a list, the letters of a
    string), in order, and only when there is at least one and each of
    them is a configured stove. *)
Theorem check_stove_type_returns_request hh stove stove_type :
  is_All stove = false →
  (check_stove_type hh stove = Ok stove_type
   ↔ all_strings stove ∧ stove_type = iterate stove ∧ stove_type ≠ []
     ∧ Forall (λ s, s ∈ stoves hh) stove_type).
Proof.
  intros HAll. unfold check_stove_type. rewrite HAll. split.
  - rewrite bind_Ok. intros ([] & Htypes%check_list_of_str_Ok & H).
    apply bind_Ok in H as (l & Hl & H). apply collect_known_Ok in Hl as [-> Hknown].
    simpl in *. destruct (iterate stove) eqn:E; [done |].
    injection H as <-. done.
  - intros (Htypes & -> & Hne & Hknown).
    rewrite (proj2 (check_list_of_str_Ok _ _ _) Htypes). cbn [bind].
    rewrite (proj2 (collect_known_Ok (stoves hh) (iterate stove) [] (iterate stove)))
      by done.
    cbn [bind]. by destruct (iterate stove).
Qed.

Lemma check_stove_type_returns_request_witness :
  check_stove_type Examples.hh_days (SList [EStr "oven"; EStr "stove"])
  = Ok ["oven"%string; "stove"%string].
Proof.
  apply (check_stove_type_returns_request Examples.hh_days
           (SList [EStr "oven"; EStr "stove"])); [reflexivity |].
  split; [repeat constructor |]. split; [reflexivity |]. split; [discriminate |].
  repeat constructor.
Defined.

(** X2. A request to [check_fuel_type] other than ["All"] is answered with
    the configured fuels among the items it iterates, in order and as
    often as they occur; the other items are dropped, and the call
    succeeds exactly when the request is well typed and at least one item
    is a configured fuel. *)
Theorem check_fuel_type_keeps_known hh fuel :
  is_All fuel = false →
  (∀ fuel_type,
     check_fuel_type hh fuel = Ok fuel_type →
     fuel_type `sublist_of` iterate fuel
     ∧ ∀ f, f ∈ fuel_type ↔ f ∈ iterate fuel ∧ f ∈ fuels hh)
  ∧ ((∃ fuel_type, check_fuel_type hh fuel = Ok fuel_type)
     ↔ all_strings fuel ∧ ∃ f, f ∈ iterate fuel ∧ f ∈ fuels hh).
Proof.
  intros HAll. unfold check_fuel_type. rewrite HAll.
  set (known := filter (λ f, in_list f (fuels hh) = true) (iterate fuel)).
  assert (∀ f, f ∈ known ↔ f ∈ iterate fuel ∧ f ∈ fuels hh) as Hknown.
  { intros f. unfold known. rewrite list_elem_of_filter. unfold in_list.
    rewrite bool_decide_eq_true. tauto. }
  split.
  - intros fuel_type. rewrite bind_Ok. intros ([] & _ & H).
    assert (fuel_type = known) as ->.
    { destruct known; [by destruct (last _) | by injection H]. }
    split; [apply sublist_filter | done].
  - split.
    + intros (fuel_type & H). apply bind_Ok in H as ([] & Htypes & H).
      apply check_list_of_str_Ok in Htypes. split; [done |].
      destruct known as [| f known'] eqn:E; [by destruct (last _) |].
      exists f. apply Hknown. apply list_elem_of_here.
    + intros (Htypes & f & Hf).
      rewrite (proj2 (check_list_of_str_Ok _ _ _) Htypes). cbn [bind].
      apply Hknown in Hf. destruct known; [by apply elem_of_nil in Hf | by eexists].
Qed.

Lemma check_fuel_type_keeps_known_witness :
  ∃ fuel_type,
    check_fuel_type Examples.hh_days (SList [EStr "coal"; EStr "gas"]) = Ok fuel_type.
Proof.
  apply (check_fuel_type_keeps_known Examples.hh_days (SList [EStr "coal"; EStr "gas"]));
    [reflexivity |].
  split; [repeat constructor |]. exists "gas"%string.
  split; simpl; repeat constructor.
Defined.

(** ** Cooking events *)

Lemma dict_update_keys {V} k (v : V) d s :
  s ∈ dict_keys (dict_update k v d) ↔ s = k ∨ s ∈ dict_keys d.
Proof.
  unfold dict_keys. induction d as [| [k' v'] d IH]; simpl.
  - rewrite list_elem_of_singleton, elem_of_nil. tauto.
  - destruct (String.eqb_spec k k') as [-> | Hne]; simpl.
    + rewrite elem_of_cons. tauto.
    + rewrite !elem_of_cons, IH. tauto.
Qed.

Lemma dict_update_fresh {V} k (v : V) d :
  k ∉ dict_keys d → dict_update k v d = d ++ [(k, v)].
Proof.
  unfold dict_keys. induction d as [| [k' v'] d IH]; simpl; [done |].
  rewrite not_elem_of_cons. intros [Hne Hnotin].
  destruct (String.eqb_spec k k'); [done |]. by rewrite IH.
Qed.

Lemma dict_update_NoDup {V} k (v : V) d :
  NoDup (dict_keys d) → NoDup (dict_keys (dict_update k v d)).
Proof.
  unfold dict_keys. induction d as [| [k' v'] d IH]; simpl.
  - intros _. apply NoDup_singleton.
  - rewrite NoDup_cons. intros [Hnotin Hnodup].
    destruct (String.eqb_spec k k') as [-> | Hne]; simpl.
    + by apply NoDup_cons.
    + apply NoDup_cons. split; [| by apply IH].
      intros Hin. apply (dict_update_keys k v d k') in Hin as [-> | Hin]; done.
Qed.

Lemma dict_update_Forall {V} (P : string * V → Prop) k v d :
  P (k, v) → Forall P d → Forall P (dict_update k v d).
Proof.
  intros Hkv. induction 1 as [| [k' v'] d Hhd Htl IH]; simpl.
  - by constructor.
  - destruct (String.eqb_spec k k') as [-> | Hne]; by constructor.
Qed.

Lemma dict_get_Some {V} s (v : V) d : dict_get s d = Some v → (s, v) ∈ d.
Proof.
  induction d as [| [k' v'] d IH]; simpl; [done |].
  destruct (String.eqb_spec s k') as [-> | Hne].
  - intros [= ->]. apply list_elem_of_here.
  - intros H. apply list_elem_of_further. by apply IH.
Qed.

Lemma dict_get_keys {V} s (d : list (string * V)) :
  is_Some (dict_get s d) ↔ s ∈ dict_keys d.
Proof.
  unfold dict_keys. induction d as [| [k' v'] d IH]; simpl.
  - rewrite elem_of_nil. split; [by intros [? ?] | done].
  - rewrite elem_of_cons. destruct (String.eqb_spec s k') as [-> | Hne].
    + split; [by left | by eexists].
    + rewrite IH. split; [by right | by intros [? | ?]].
Qed.

Lemma counts_of_update k peaks cache :
  counts_of (dict_update k peaks cache) = dict_update k (length peaks) (counts_of cache).
Proof.
  induction cache as [| [k' v'] cache IH]; [done |].
  unfold counts_of in *. rewrite fmap_cons. simpl.
  destruct (String.eqb k k'); [done |]. rewrite fmap_cons. simpl. f_equal. exact IH.
Qed.

Lemma counts_of_get s cache :
  dict_get s (counts_of cache) = length <$> dict_get s cache.
Proof.
  induction cache as [| [k' v'] cache IH]; [done |].
  unfold counts_of in *. rewrite fmap_cons. simpl.
  by destruct (String.eqb s k').
Qed.

Lemma cooking_events_loop hh l cache res :
  for_each (fun '(number_of_cooking_events, cook_events_list) s =>
              let* col := channel (df_stoves hh) s in
              let* peaks := find_peaks col (temp_threshold hh) (time_between_events hh) in
              Ok (dict_update s (length peaks) number_of_cooking_events,
                  dict_update s peaks cook_events_list))
           l (counts_of cache, cache) = Ok res →
  ∃ cache',
    res = (counts_of cache', cache')
    ∧ (∀ s, s ∈ dict_keys cache' ↔ s ∈ l ∨ s ∈ dict_keys cache)
    ∧ (NoDup (dict_keys cache) → NoDup (dict_keys cache'))
    ∧ (Forall (detected hh) cache → Forall (detected hh) cache')
    ∧ (NoDup l → (∀ s, s ∈ l → s ∉ dict_keys cache) →
       dict_keys cache' = dict_keys cache ++ l).
Proof.
  revert cache. induction l as [| s l IH]; intros cache; simpl.
  - intros [= <-]. exists cache. split; [done |].
    split; [intros s; rewrite elem_of_nil; tauto |].
    split; [done |]. split; [done |]. intros _ _. by rewrite app_nil_r.
  - rewrite bind_Ok. intros (st & Hstep & Hrest).
    apply bind_Ok in Hstep as (col & Hcol & Hstep).
    apply bind_Ok in Hstep as (peaks & Hpeaks & [= <-]).
    rewrite <- counts_of_update in Hrest.
    destruct (IH _ Hrest) as (cache' & -> & Hkeys & Hnodup & Hdet & Horder).
    exists cache'. split; [done |]. split; [| split; [| split]].
    + intros s'. rewrite Hkeys, dict_update_keys, elem_of_cons. tauto.
    + intros H. by apply Hnodup, dict_update_NoDup.
    + intros H. apply Hdet, dict_update_Forall; [| done]. by exists col.
    + intros Hl Hfresh. apply NoDup_cons in Hl as [Hs Hl].
      rewrite Horder; [| done |].
      * rewrite dict_update_fresh by (apply Hfresh, list_elem_of_here).
        unfold dict_keys. rewrite fmap_app, <- app_assoc. done.
      * intros s' Hs' [-> | Hin]%dict_update_keys; [done |].
        by apply (Hfresh s'); [apply list_elem_of_further |].
Qed.

Lemma cooking_events_Ok hh stove hh' counts :
  cooking_events hh stove = Ok (hh', counts) →
  ∃ stove_type cache,
    check_stove_type hh stove = Ok stove_type
    ∧ hh' = set_cook_events hh cache ∧ counts = counts_of cache
    ∧ NoDup (dict_keys cache)
    ∧ (∀ s, s ∈ dict_keys cache ↔ s ∈ stove_type)
    ∧ Forall (detected hh) cache
    ∧ (NoDup stove_type → dict_keys cache = stove_type).
Proof.
  unfold cooking_events. destruct stove as [name | |]; [| done | done].
  rewrite bind_Ok. intros (stove_type & Hcheck & H).
  apply bind_Ok in H as (res & Hloop & [= <- <-]).
  apply (cooking_events_loop hh stove_type []) in Hloop
    as (cache & -> & Hkeys & Hnodup & Hdet & Horder).
  exists stove_type, cache. split; [done |]. split; [done |]. split; [done |].
  split; [apply Hnodup; constructor |].
  split; [intros s; rewrite Hkeys; simpl; rewrite elem_of_nil; tauto |].
  split; [by apply Hdet |].
  intros Hnd. apply Horder; [done |]. intros s _. simpl. apply not_elem_of_nil.
Qed.

(** X3. When [cooking_events] returns, it has replaced the cache of peaks
    and changed nothing else of the household; the cache has one entry
    per requested stove (in the order of the request when the request
    names no stove twice), and the count reported for a stove is the
    number of its cached peaks. *)
Theorem cooking_events_counts_the_cache hh stove hh' counts :
  cooking_events hh stove = Ok (hh', counts) →
  ∃ stove_type cache,
    check_stove_type hh stove = Ok stove_type
    ∧ cook_events hh' = Some cache
    ∧ hh' = set_cook_events hh cache
    ∧ NoDup (dict_keys cache)
    ∧ (∀ s, s ∈ dict_keys cache ↔ s ∈ stove_type)
    ∧ (NoDup stove_type → dict_keys cache = stove_type)
    ∧ dict_keys counts = dict_keys cache
    ∧ ∀ s, dict_get s counts = length <$> dict_get s cache.
Proof.
  intros H. apply cooking_events_Ok in H
    as (stove_type & cache & Hcheck & -> & -> & Hnodup & Hkeys & _ & Horder).
  exists stove_type, cache. repeat (split; [done |]). split.
  - unfold dict_keys, counts_of. rewrite <- list_fmap_compose. done.
  - intros s. apply counts_of_get.
Qed.

Lemma cooking_events_counts_the_cache_witness :
  ∃ stove_type cache,
    check_stove_type Examples.hh_days (SStr "All") = Ok stove_type
    ∧ cook_events (set_cook_events Examples.hh_days
                     [("stove"%string, [1; 4; 7]%nat); ("oven"%string, [2; 5]%nat)])
      = Some cache
    ∧ set_cook_events Examples.hh_days
        [("stove"%string, [1; 4; 7]%nat); ("oven"%string, [2; 5]%nat)]
      = set_cook_events Examples.hh_days cache
    ∧ NoDup (dict_keys cache)
    ∧ (∀ s, s ∈ dict_keys cache ↔ s ∈ stove_type)
    ∧ (NoDup stove_type → dict_keys cache = stove_type)
    ∧ dict_keys [("stove"%string, 3%nat); ("oven"%string, 2%nat)] = dict_keys cache
    ∧ ∀ s, dict_get s [("stove"%string, 3%nat); ("oven"%string, 2%nat)]
           = length <$> dict_get s cache.
Proof.
  apply (cooking_events_counts_the_cache Examples.hh_days (SStr "All")).
  vm_compute. reflexivity.
Defined.

Lemma find_peaks_height x height distance peaks :
  find_peaks x height distance = Ok peaks →
  Forall (λ p, (inject_Z height <= reading x p)%Q) peaks.
Proof.
  unfold find_peaks. destruct (distance <? 1); [done |]. intros [= <-].
  apply Forall_forall. intros p Hp.
  eapply elem_of_sublist in Hp; [| apply select_sublist].
  apply list_elem_of_filter in Hp as [Hp _]. by apply Qle_bool_iff.
Qed.

(** X4. Every peak that [cooking_events] caches for a stove is an interior
    sample of the stove's channel (never the first or the last one), its
    reading is at least the temperature threshold, and no index is cached
    twice. *)
Theorem cached_peaks_reach_the_threshold hh stove hh' counts cache s peaks :
  cooking_events hh stove = Ok (hh', counts) →
  cook_events hh' = Some cache → dict_get s cache = Some peaks →
  ∃ col,
    channel (df_stoves hh) s = Ok col
    ∧ NoDup peaks
    ∧ Forall (λ p, (1 ≤ p < length col - 1)%nat
                   ∧ (inject_Z (temp_threshold hh) <= reading col p)%Q) peaks.
Proof.
  intros H Hcache Hget. apply cooking_events_Ok in H
    as (stove_type & cache' & _ & -> & _ & _ & _ & Hdet & _).
  injection Hcache as <-. apply dict_get_Some in Hget.
  rewrite Forall_forall in Hdet. destruct (Hdet _ Hget) as (col & Hcol & Hpeaks).
  exists col. split; [done |]. cbn [fst snd] in *.
  destruct (find_peaks_candidates _ _ _ _ Hpeaks) as [Hnodup Hrange].
  split; [done |]. apply Forall_and. split; [done |].
  by eapply find_peaks_height.
Qed.

Lemma cached_peaks_reach_the_threshold_witness :
  ∃ col,
    channel (df_stoves Examples.hh_days) "oven" = Ok col
    ∧ NoDup [2; 5]%nat
    ∧ Forall (λ p, (1 ≤ p < length col - 1)%nat
                   ∧ (inject_Z (temp_threshold Examples.hh_days) <= reading col p)%Q)
             [2; 5]%nat.
Proof.
  eapply (cached_peaks_reach_the_threshold Examples.hh_days (SStr "All")
            _ _ _ "oven"%string [2; 5]%nat).
  - vm_compute. reflexivity.
  - reflexivity.
  - reflexivity.
Defined.

(** ** Repeating and combining the analyses *)

Lemma cooking_events_ignores_cache hh cache stove :
  cooking_events (set_cook_events hh cache) stove = cooking_events hh stove.
Proof. reflexivity. Qed.

Lemma cooking_duration_ignores_cache hh cache stove :
  cooking_duration (set_cook_events hh cache) stove = cooking_duration hh stove.
Proof. reflexivity. Qed.

Lemma cooking_duration_Ok hh stove hh' table :
  cooking_duration hh stove = Ok (hh', table) →
  ∃ cache counts, hh' = set_cook_events hh cache
                  ∧ cooking_events hh stove = Ok (hh', counts).
Proof.
  unfold cooking_duration. rewrite bind_Ok. intros ([hh1 counts] & Hevents & H).
  apply bind_Ok in H as (rows & _ & [= <- _]). cbn [fst].
  pose proof Hevents as Hev.
  apply cooking_events_Ok in Hev as (_ & cache & _ & -> & _).
  by exists cache, counts.
Qed.

Lemma fuel_usage_Ok hh fuel hh' table :
  fuel_usage hh fuel = Ok (hh', table) →
  ∃ changes, hh' = set_weight_changes hh changes.
Proof.
  unfold fuel_usage. rewrite bind_Ok. intros (_ & _ & H).
  apply bind_Ok in H as (fuel_type & _ & H).
  apply bind_Ok in H as (res & _ & [= <- _]). by eexists.
Qed.

Lemma fuel_usage_with_cook_events hh cache fuel changes table :
  fuel_usage hh fuel = Ok (set_weight_changes hh changes, table) →
  fuel_usage (set_cook_events hh cache) fuel
  = Ok (set_weight_changes (set_cook_events hh cache) changes, table).
Proof.
  unfold fuel_usage. rewrite bind_Ok. intros ([] & Htypes & H).
  apply bind_Ok in H as (fuel_type & Hcheck & H).
  apply bind_Ok in H as (res & Hloop & [= Hchanges <-]).
  rewrite Htypes. cbn [bind].
  change (check_fuel_type (set_cook_events hh cache) fuel)
    with (check_fuel_type hh fuel).
  rewrite Hcheck. cbn [bind].
  match goal with |- context [for_each ?g fuel_type ([], [])] =>
    change (for_each g fuel_type ([], [])) with
      (for_each (fun '(fuel_change, fuel_weight_changes) f =>
                   let* r := fuel_usage_one hh f in
                   Ok (fuel_change ++ [r.2], dict_update f r.1 fuel_weight_changes))
                fuel_type ([], []))
  end.
  rewrite Hloop. cbn [bind]. by rewrite Hchanges.
Qed.

(** X5. The cooking analyses do not read the cache of peaks, they rebuild
    it: when [cooking_duration] returns a table, it returns the same table
    and the same household again when repeated on the household it left,
    and it would have returned them from any earlier cache; the
    [cooking_events] inside it does likewise, and the cache of weight
    changes is not touched. *)
Theorem cooking_duration_is_repeatable hh stove hh' table :
  cooking_duration hh stove = Ok (hh', table) →
  cooking_duration hh' stove = Ok (hh', table)
  ∧ (∀ cache, cooking_duration (set_cook_events hh cache) stove = Ok (hh', table))
  ∧ weight_changes hh' = weight_changes hh
  ∧ ∃ counts, cooking_events hh stove = Ok (hh', counts)
              ∧ cooking_events hh' stove = Ok (hh', counts).
Proof.
  intros H. destruct (cooking_duration_Ok _ _ _ _ H) as (cache & counts & -> & Hev).
  split; [by rewrite cooking_duration_ignores_cache |].
  split; [intros cache'; by rewrite cooking_duration_ignores_cache |].
  split; [done |]. exists counts. by rewrite cooking_events_ignores_cache.
Qed.

Lemma cooking_duration_is_repeatable_witness :
  ∃ hh' table,
    cooking_duration Examples.hh_days (SStr "All") = Ok (hh', table)
    ∧ cooking_duration hh' (SStr "All") = Ok (hh', table).
Proof.
  eexists _, _. split; [vm_compute; reflexivity |].
  eapply (cooking_duration_is_repeatable Examples.hh_days (SStr "All")).
  vm_compute. reflexivity.
Defined.

(** X6. The two analyses do not disturb each other: when
    [cooking_duration] and [fuel_usage] both return on a household, each
    returns the same table on the household the other one left, and both
    orders end in the same household. *)
Theorem analyses_commute hh stove fuel hh1 cooking hh2 usage :
  cooking_duration hh stove = Ok (hh1, cooking) →
  fuel_usage hh fuel = Ok (hh2, usage) →
  ∃ hh12,
    fuel_usage hh1 fuel = Ok (hh12, usage)
    ∧ cooking_duration hh2 stove = Ok (hh12, cooking)
    ∧ cook_events hh12 = cook_events hh1
    ∧ weight_changes hh12 = weight_changes hh2.
Proof.
  intros Hcooking Husage.
  destruct (cooking_duration_Ok _ _ _ _ Hcooking) as (cache & counts & -> & _).
  destruct (fuel_usage_Ok _ _ _ _ Husage) as (changes & ->).
  exists (set_weight_changes (set_cook_events hh cache) changes).
  split; [by apply fuel_usage_with_cook_events |]. split; [| done].
  revert Hcooking. unfold cooking_duration. rewrite !bind_Ok.
  intros ([hh1 counts1] & Hev & H). apply bind_Ok in H as (rows & Hrows & [= Hhh <-]).
  cbn [fst snd] in *. subst hh1.
  exists (set_weight_changes (set_cook_events hh cache) changes, counts1). split.
  - revert Hev. unfold cooking_events. destruct stove; try done.
    rewrite !bind_Ok. intros (stove_type & Hcheck & H).
    apply bind_Ok in H as (res & Hloop & [= Hhh Hcounts]).
    exists stove_type. split; [exact Hcheck |]. apply bind_Ok. exists res.
    split; [exact Hloop |]. rewrite Hcounts, Hhh. reflexivity.
  - cbn [fst snd]. apply bind_Ok. exists rows. split; [exact Hrows | done].
Qed.

Lemma analyses_commute_witness :
  ∃ hh1 cooking hh2 usage hh12,
    cooking_duration Examples.hh_days (SStr "All") = Ok (hh1, cooking)
    ∧ fuel_usage Examples.hh_days (SStr "All") = Ok (hh2, usage)
    ∧ fuel_usage hh1 (SStr "All") = Ok (hh12, usage)
    ∧ cooking_duration hh2 (SStr "All") = Ok (hh12, cooking).
Proof.
  destruct (cooking_duration Examples.hh_days (SStr "All")) as [[hh1 cooking] |] eqn:E1;
    [| by vm_compute in E1].
  destruct (fuel_usage Examples.hh_days (SStr "All")) as [[hh2 usage] |] eqn:E2;
    [| by vm_compute in E2].
  destruct (analyses_commute _ _ _ _ _ _ _ E1 E2) as (hh12 & H1 & H2 & _).
  exists hh1, cooking, hh2, usage, hh12.
  split; [reflexivity |]. split; [reflexivity |]. split; [exact H1 | exact H2].
Defined.

(** ** The significant-change filter, continued *)

Lemma div_half_even_non_negative num den : 0 ≤ num → 0 < den → 0 ≤ div_half_even num den.
Proof.
  intros Hnum Hden. unfold div_half_even.
  pose proof (Z.div_pos num den Hnum Hden).
  destruct (2 * (num `mod` den) ?= den); [destruct (Z.even _) | |]; lia.
Qed.

(** Rounding keeps the sign: a threshold of zero or below stays there. *)
Lemma round64_non_positive q : (q <= 0)%Q → (round64 q <= 0)%Q.
Proof.
  intros Hq. unfold round64.
  assert (Qnum (Qred q) ≤ 0) as Hn.
  { apply Qred_le in Hq. change (Qred 0) with 0%Q in Hq.
    unfold Qle in Hq. cbn [Qnum Qden] in Hq. lia. }
  set (n := Qnum (Qred q)) in *. set (d := Z.pos (Qden (Qred q))).
  destruct (Z.eqb_spec n 0) as [_ | Hne]; [apply Qle_refl |].
  assert (Z.sgn n = -1) as -> by lia.
  set (p := Z.max (binade (Z.abs n) d - 52) (-1074)).
  rewrite Qred_correct.
  destruct (Z.leb_spec 0 p) as [Hp | Hp]; unfold Qle; cbn [Qnum Qden inject_Z].
  - assert (0 ≤ div_half_even (Z.abs n) (d * 2 ^ p) * 2 ^ p).
    { apply Z.mul_nonneg_nonneg; [| by apply Z.pow_nonneg].
      apply div_half_even_non_negative; [lia |].
      apply Z.mul_pos_pos; [done | by apply Z.pow_pos_nonneg]. }
    lia.
  - assert (0 ≤ div_half_even (Z.abs n * 2 ^ (- p)) d).
    { apply div_half_even_non_negative; [| done].
      apply Z.mul_nonneg_nonneg; [lia | by apply Z.pow_nonneg]. }
    lia.
Qed.

(** Rounding depends on the value of a fraction only. *)
Lemma round64_wd q q' : (q == q')%Q → round64 q = round64 q'.
Proof. intros H. unfold round64. by rewrite (Qred_complete _ _ H). Qed.

Lemma Qred_inject_Z z : Qred (inject_Z z) = inject_Z z.
Proof.
  pose proof (Qred_correct (inject_Z z)) as H.
  pose proof (gcd_Qred (inject_Z z)) as G.
  destruct (Qred (inject_Z z)) as [n d]. unfold Qeq in H. cbn [Qnum Qden inject_Z] in *.
  assert (n = Z.pos d * z) as -> by lia.
  rewrite Z.gcd_comm, Z.gcd_mul_diag_l in G by done.
  injection G as ->. unfold inject_Z. f_equal. lia.
Qed.

Lemma div_half_even_1 a : div_half_even a 1 = a.
Proof. unfold div_half_even. by rewrite Z.div_1_r, Z.mod_1_r. Qed.

(** Whole numbers below [2 ^ 53] in magnitude are doubles. *)
Lemma round64_inject_Z z : Z.abs z < 2 ^ 53 → is_double (inject_Z z).
Proof.
  intros Hz. unfold is_double, round64. rewrite Qred_inject_Z. cbn [Qnum Qden inject_Z].
  destruct (Z.eqb_spec z 0) as [-> | Hne]; [reflexivity |].
  assert (0 < Z.abs z) as Hpos by lia.
  pose proof (Z.log2_spec _ Hpos) as [Hlo Hhi].
  pose proof (Z.log2_nonneg (Z.abs z)) as Hnn.
  assert (Z.log2 (Z.abs z) < 53) as Hlt by (apply Z.log2_lt_pow2; lia).
  assert (binade (Z.abs z) 1 = Z.log2 (Z.abs z)) as ->.
  { unfold binade. change (Z.log2 1) with 0. rewrite Z.sub_0_r.
    destruct (Z.leb_spec 0 (Z.log2 (Z.abs z))); [| lia].
    rewrite Z.mul_1_l. destruct (Z.leb_spec (2 ^ Z.log2 (Z.abs z)) (Z.abs z)); [done | lia]. }
  rewrite Z.max_l by lia. rewrite Qred_correct.
  destruct (Z.leb_spec 0 (Z.log2 (Z.abs z) - 52)) as [Hp | Hp].
  - assert (Z.log2 (Z.abs z) - 52 = 0) as -> by lia.
    change (2 ^ 0) with 1. change (1 * 1) with 1.
    rewrite div_half_even_1, Z.mul_1_r.
    rewrite Z.min_l by lia. rewrite Z.mul_comm, Z.abs_sgn. reflexivity.
  - rewrite div_half_even_1. unfold Qeq. cbn [Qnum Qden].
    assert (0 < 2 ^ (- (Z.log2 (Z.abs z) - 52))) as Hpow by (apply Z.pow_pos_nonneg; lia).
    rewrite Z2Pos.id by done.
    rewrite Z.mul_assoc, (Z.mul_comm (Z.sgn z)), Z.abs_sgn.
    cbn [inject_Z Qnum Qden]. ring.
Qed.

(** Readings that are whole numbers, in grams say, subtract without
    rounding as long as the magnitudes stay below [2 ^ 52]. *)
Lemma whole_readings_exact_differences col l :
  (∀ i, i ∈ l → ∃ z, reading col i = inject_Z z ∧ Z.abs z < 2 ^ 52) →
  exact_differences col l.
Proof.
  intros Hwhole i j Hi Hj.
  destruct (Hwhole i Hi) as (a & -> & Ha). destruct (Hwhole j Hj) as (b & -> & Hb).
  unfold float_sub.
  assert (Z.abs a < 2 ^ 53 ∧ Z.abs b < 2 ^ 53 ∧ Z.abs (a - b) < 2 ^ 53) as (Ha' & Hb' & Hab).
  { change (2 ^ 53) with (2 * 2 ^ 52). lia. }
  pose proof (round64_inject_Z _ Ha') as Ea. pose proof (round64_inject_Z _ Hb') as Eb.
  pose proof (round64_inject_Z _ Hab) as Eab. unfold is_double in Ea, Eb, Eab.
  rewrite (round64_wd _ (inject_Z (a - b))).
  - rewrite Eab. unfold Qeq. cbn [Qnum Qden inject_Z Qminus Qplus Qopp]. lia.
  - rewrite Ea, Eb. unfold Qeq. cbn [Qnum Qden inject_Z Qminus Qplus Qopp]. lia.
Qed.

Lemma thin_rounded_sublist col w last_kept candidates :
  (thin_rounded col w last_kept candidates).2 `sublist_of` candidates.
Proof.
  revert last_kept. induction candidates as [| c candidates IH]; intros last_kept; simpl.
  - constructor.
  - destruct (Qle_bool (round64 w) _); simpl.
    + apply sublist_skip, IH.
    + apply sublist_cons, IH.
Qed.



Lemma thin_rounded_keeps_all col w last_kept candidates :
  (w <= 0)%Q → (thin_rounded col w last_kept candidates).2 = candidates.
Proof.
  intros Hw. revert last_kept.
  induction candidates as [| c candidates IH]; intros last_kept; cbn [thin_rounded];
    [done |].
  assert (Qle_bool (round64 w) (Qabs (float_sub (reading col c) last_kept)) = true) as ->.
  { apply Qle_bool_iff.
    eapply Qle_trans; [by apply round64_non_positive | apply Qabs_nonneg]. }
  cbn [snd]. by rewrite IH.
Qed.

Lemma find_significant_changes_thin hh f col w p0 rest :
  channel (df_stoves hh) f = Ok col → as_number (weight_threshold hh) = Some w →
  Forall (λ i, (i < length col)%nat) (p0 :: rest) → NoDup (p0 :: rest) →
  find_significant_changes hh f (p0 :: rest)
  = Ok (p0 :: (thin_rounded col w (reading col p0) rest).2
           ++ match rest with
              | [] => []
              | _ => final_sample col (thin_rounded col w (reading col p0) rest).1
              end).
Proof.
  intros Hcol Hw Hrange Hnodup. destruct rest as [| p1 rest].
  - by rewrite (find_significant_changes_single hh f col p0 Hcol)
      by by inversion Hrange.
  - unfold find_significant_changes.
    rewrite Hcol. cbn [bind lookup list_lookup from_option].
    inversion Hrange as [| ? ? Hp0 Hrest]; subst.
    inversion Hnodup as [| ? ? _ Hnodup']; subst.
    rewrite (at_index_reading col p0 Hp0). cbn [bind drop].
    destruct (last_is_Some (p1 :: rest)) as [_ [x Hx]]; [done |].
    rewrite (significant_loop_thin col _ w _ x); done.
Qed.



(** X9. With a threshold of zero or below the filter thins nothing: every
    candidate is returned, in order, followed at most by the index of the
    final sample. *)
Theorem filter_keeps_all_below_zero hh f col w p0 rest :
  channel (df_stoves hh) f = Ok col → as_number (weight_threshold hh) = Some w →
  (w <= 0)%Q →
  Forall (λ i, (i < length col)%nat) (p0 :: rest) → NoDup (p0 :: rest) →
  ∃ fin,
    find_significant_changes hh f (p0 :: rest) = Ok ((p0 :: rest) ++ fin)
    ∧ (fin = [] ∨ fin = [(length col - 1)%nat]).
Proof.
  intros Hcol Hw Hneg Hrange Hnodup.
  rewrite (find_significant_changes_thin hh f col w) by done.
  rewrite thin_rounded_keeps_all by done. eexists. split; [reflexivity |].
  destruct rest; [by left |]. unfold final_sample. destruct (Qltb _ _); auto.
Qed.

Lemma filter_keeps_all_below_zero_witness :
  ∃ fin,
    find_significant_changes (Examples.household 15 30 (PyInt (-1))) "wood" [1; 3]%nat
    = Ok ([1; 3]%nat ++ fin)
    ∧ (fin = [] ∨ fin = [(length [5; 6; 3; 3; 3]%Q - 1)%nat]).
Proof.
  apply (filter_keeps_all_below_zero (Examples.household 15 30 (PyInt (-1))) "wood"
           [5; 6; 3; 3; 3]%Q (inject_Z (-1)) 1%nat [3%nat]).
  - reflexivity.
  - reflexivity.
  - discriminate.
  - repeat constructor.
  - repeat constructor; intros Hin; repeat (apply elem_of_cons in Hin as [[=] | Hin]);
      by apply elem_of_nil in Hin.
Defined.



(** The threshold test follows the doubles. Readings 5.1 and 4.9 with a
    threshold of 0.2: the doubles differ by less than the double 0.2, and
    the candidate is dropped, though the decimals are 0.2 apart. Readings
    4.0 and 1.8 with a threshold of 2.2: the rounded difference is the
    double 2.2 and the candidate is kept, though the exact difference of
    the two doubles is below it. *)
Example threshold_test_follows_the_doubles :
  below_threshold (49 # 10) (51 # 10) (PyFloat (2 # 10)) = Ok true
  ∧ below_threshold (18 # 10) 4 (PyFloat (22 # 10)) = Ok false
  ∧ Qltb (Qabs (round64 (18 # 10) - 4)) (round64 (22 # 10)) = true.
Proof. repeat split; vm_compute; reflexivity. Qed.

(** On the store weighed in tenths both candidates are peaks; the program
    drops the second one, the filter of the specification read on the
    decimals keeps it. *)
Example filter_follows_the_doubles :
  find_peaks [5; 51 # 10; 4; 49 # 10; 4; 4]%Q 1 1 = Ok [1; 3]%nat
  ∧ find_significant_changes Examples.hh_tenths "wood" [1; 3]%nat = Ok [1; 5]%nat
  ∧ significant_changes_spec [5; 51 # 10; 4; 49 # 10; 4; 4]%Q (2 # 10) [1; 3]%nat
    = Some [1; 3; 5]%nat.
Proof. repeat split; vm_compute; reflexivity. Qed.

(** X10. A weight threshold that is not a number passes construction and
    fails later: on a fuel channel with two or more candidates the filter
    raises [TypeError] at its first comparison, and so does the loop body
    of [fuel_usage]; with a single candidate nothing is compared and the
    filter returns it. *)
Theorem non_numeric_threshold_fails_late hh f col peaks :
  channel (df_stoves hh) f = Ok col → find_peaks col 1 1 = Ok peaks →
  as_number (weight_threshold hh) = None →
  ((2 ≤ length peaks)%nat →
     find_significant_changes hh f peaks = Raise TypeError
     ∧ fuel_usage_one hh f = Raise TypeError)
  ∧ ((length peaks = 1)%nat → find_significant_changes hh f peaks = Ok peaks).
Proof.
  intros Hcol Hpeaks Hwt.
  pose proof (find_peaks_candidates _ _ _ _ Hpeaks) as [_ Hrange].
  assert (Forall (λ i, (i < length col)%nat) peaks) as Hrange'.
  { eapply Forall_impl; [exact Hrange |]. simpl. lia. }
  split.
  - intros Hlen. destruct peaks as [| p0 [| p1 rest]]; [simpl in Hlen; lia.. |].
    assert (find_significant_changes hh f (p0 :: p1 :: rest) = Raise TypeError) as Hfsc.
    { unfold find_significant_changes.
      rewrite Hcol. cbn [bind lookup list_lookup from_option].
      inversion Hrange' as [| ? ? Hp0 Hrest]; subst.
      inversion Hrest as [| ? ? Hp1 _]; subst.
      rewrite (at_index_reading col p0 Hp0). cbn [bind drop for_each].
      unfold significant_step at 1. rewrite (at_index_reading col p1 Hp1). cbn [bind].
      unfold below_threshold. by rewrite Hwt. }
    split; [done |]. unfold fuel_usage_one. rewrite Hcol. cbn [bind].
    rewrite Hpeaks. cbn [bind]. by rewrite Hfsc.
  - intros Hlen. destruct peaks as [| p0 [| p1 rest]]; [done | | done].
    apply (find_significant_changes_single hh f col p0 Hcol). by inversion Hrange'.
Qed.

Lemma non_numeric_threshold_fails_late_witness :
  fuel_usage_one (Examples.household 15 30 PyNone) "wood" = Ok ([1%nat], {[1 := 0%Q]})
  ∧ find_significant_changes
      {| df_stoves := Examples.df_days; stoves := []; fuels := ["wood"%string];
         temp_threshold := 15; time_between_events := 2; study_duration := 187200;
         weight_threshold := PyStr "heavy"; cook_events := None; weight_changes := None |}
      "wood" [1; 4]%nat
    = Raise TypeError.
Proof.
  split; [vm_compute; reflexivity |].
  eapply (non_numeric_threshold_fails_late _ "wood" [5; 7; 3; 3; 9; 2; 2; 2; 2]%Q
            [1; 4]%nat).
  - reflexivity.
  - vm_compute. reflexivity.
  - reflexivity.
  - simpl. lia.
Defined.

(** ** When [fuel_usage] returns *)

Lemma find_significant_changes_in_range hh f col w p0 rest :
  channel (df_stoves hh) f = Ok col → as_number (weight_threshold hh) = Some w →
  Forall (λ i, (i < length col)%nat) (p0 :: rest) → NoDup (p0 :: rest) →
  ∃ weight_change,
    find_significant_changes hh f (p0 :: rest) = Ok (p0 :: weight_change)
    ∧ Forall (λ i, (i < length col)%nat) (p0 :: weight_change).
Proof.
  intros Hcol Hw Hrange Hnodup.
  rewrite (find_significant_changes_thin hh f col w) by done.
  eexists. split; [reflexivity |].
  assert (0 < length col)%nat as Hlen by (inversion Hrange; lia).
  constructor; [by inversion Hrange |]. apply Forall_app. split.
  - apply Forall_forall. intros i Hi. rewrite Forall_forall in Hrange.
    apply Hrange, list_elem_of_further.
    eapply elem_of_sublist; [exact Hi | apply thin_rounded_sublist].
  - destruct rest; [constructor |]. unfold final_sample.
    destruct (Qltb _ _); repeat constructor. lia.
Qed.

Lemma fuel_loop_returns ts col study_began initial_weight l st :
  Forall (λ i, (i < length ts)%nat ∧ (i < length col)%nat) l →
  ∃ st', for_each (fuel_step ts col study_began initial_weight) l st = Ok st'.
Proof.
  intros Hrange. revert st.
  induction Hrange as [| i l [Hts Hcol] _ IH]; intros [[day new_weight] daily];
    [by eexists |].
  cbn [for_each]. unfold fuel_step at 1.
  rewrite (at_index_reading col i Hcol).
  destruct (lookup_lt_is_Some_2 ts i Hts) as [t Ht].
  unfold at_index at 1. rewrite Ht. cbn [from_option bind].
  destruct (_ =? _); cbn [bind]; apply IH.
Qed.

Lemma daily_fuel_use_returns hh fuel col wc0 weight_changes_ :
  channel (df_stoves hh) fuel = Ok col →
  length col = length (timestamp (df_stoves hh)) →
  Forall (λ i, (i < length col)%nat) (wc0 :: weight_changes_) →
  ∃ daily, daily_fuel_use hh fuel (wc0 :: weight_changes_) = Ok daily.
Proof.
  intros Hcol Hlen Hrange. unfold daily_fuel_use.
  assert (0 < length (timestamp (df_stoves hh)))%nat as Hpos
    by (inversion Hrange; lia).
  destruct (timestamp (df_stoves hh)) as [| t0 ts] eqn:Ets; [simpl in Hpos; lia |].
  cbn [at_index lookup list_lookup from_option bind]. rewrite Hcol. cbn [bind].
  rewrite (at_index_reading col wc0) by by inversion Hrange. cbn [bind].
  destruct (fuel_loop_returns (t0 :: ts) col t0 (reading col wc0)
              (wc0 :: weight_changes_) (1, 0%Q, ∅)) as [st ->].
  { eapply Forall_impl; [exact Hrange |]. intros i Hi. cbv beta in *.
    split; [by rewrite <- Hlen | done]. }
  cbn [bind]. destruct (_ =? _); by eexists.
Qed.

Lemma fuel_usage_one_returns_iff hh f w :
  aligned hh f → as_number (weight_threshold hh) = Some w →
  (∃ r, fuel_usage_one hh f = Ok r) ↔ has_candidate hh f.
Proof.
  intros (col & Hcol & Hlen) Hw. unfold has_candidate, fuel_usage_one.
  rewrite Hcol. cbn [bind].
  destruct (find_peaks_fuel_returns col) as [peaks Hpeaks].
  rewrite Hpeaks. cbn [bind]. destruct peaks as [| p0 rest].
  - rewrite (find_significant_changes_no_candidate hh f col Hcol). cbn [bind].
    split; [by intros [? ?] |]. intros (col' & p0 & rest & [= <-] & Hp).
    rewrite Hpeaks in Hp. done.
  - split; [intros _; by exists col, p0, rest |]. intros _.
    pose proof (find_peaks_candidates _ _ _ _ Hpeaks) as [Hnodup Hrange].
    assert (Forall (λ i, (i < length col)%nat) (p0 :: rest)) as Hrange'.
    { eapply Forall_impl; [exact Hrange |]. simpl. lia. }
    destruct (find_significant_changes_in_range hh f col w p0 rest Hcol Hw Hrange' Hnodup)
      as (wc & -> & Hwc).
    cbn [bind].
    destruct (daily_fuel_use_returns hh f col p0 wc Hcol Hlen Hwc) as [daily ->].
    by eexists.
Qed.

Lemma fuel_usage_loop_returns_iff hh l acc :
  (∃ res, for_each (fun '(fuel_change, fuel_weight_changes) f =>
                      let* r := fuel_usage_one hh f in
                      Ok (fuel_change ++ [r.2], dict_update f r.1 fuel_weight_changes))
                   l acc = Ok res)
  ↔ Forall (λ f, ∃ r, fuel_usage_one hh f = Ok r) l.
Proof.
  revert acc. induction l as [| f l IH]; intros [fuel_change fuel_weight_changes]; simpl.
  - split; [constructor | by eexists].
  - rewrite Forall_cons. split.
    + intros (res & H). apply bind_Ok in H as (st & Hstep & Hrest).
      apply bind_Ok in Hstep as (r & Hr & _).
      split; [by exists r |]. apply (IH st). by exists res.
    + intros [[r Hr] Hl]. rewrite Hr. cbn [bind]. by apply IH.
Qed.

Lemma fuel_usage_All hh :
  fuel_usage hh (SStr "All")
  = let* st :=
      for_each (fun '(fuel_change, fuel_weight_changes) f =>
                  let* r := fuel_usage_one hh f in
                  Ok (fuel_change ++ [r.2], dict_update f r.1 fuel_weight_changes))
               (fuels hh) ([], []) in
    Ok (set_weight_changes hh st.2, zip (fuels hh) st.1).
Proof. reflexivity. Qed.

(** X11. On a household whose fuel columns are as long as the timestamps
    and whose weight threshold is a number, [fuel_usage("All")] returns a
    table exactly when the detection finds at least one candidate on every
    fuel channel; the table then has one row per configured fuel, in the
    configured order. *)
Theorem fuel_usage_returns_iff_candidates hh w :
  Forall (aligned hh) (fuels hh) → as_number (weight_threshold hh) = Some w →
  ((∃ hh' table, fuel_usage hh (SStr "All") = Ok (hh', table))
   ↔ Forall (has_candidate hh) (fuels hh))
  ∧ ∀ hh' table, fuel_usage hh (SStr "All") = Ok (hh', table) →
                 table.*1 = fuels hh.
Proof.
  intros Haligned Hw. rewrite fuel_usage_All. split.
  - transitivity (Forall (λ f, ∃ r, fuel_usage_one hh f = Ok r) (fuels hh)).
    + rewrite <- (fuel_usage_loop_returns_iff hh (fuels hh) ([], [])). split.
      * intros (hh' & table & H). apply bind_Ok in H as (res & Hres & _). by exists res.
      * intros (res & ->). cbn [bind]. by eexists _, _.
    + rewrite !Forall_forall. split; intros H f Hf.
      * eapply fuel_usage_one_returns_iff; [| done | by apply H].
        rewrite Forall_forall in Haligned. by apply Haligned.
      * eapply fuel_usage_one_returns_iff; [| done | by apply H].
        rewrite Forall_forall in Haligned. by apply Haligned.
  - intros hh' table. rewrite bind_Ok. intros (res & Hloop & [= _ <-]).
    apply fuel_usage_rows_loop in Hloop as (rows & Hres & Hrows).
    simpl in Hres. rewrite Hres. apply Forall2_length in Hrows.
    by apply fst_zip; lia.
Qed.

Lemma fuel_usage_returns_iff_candidates_witness :
  (∃ hh' table, fuel_usage Examples.hh_days (SStr "All") = Ok (hh', table))
  ↔ Forall (has_candidate Examples.hh_days) (fuels Examples.hh_days).
Proof.
  apply (fuel_usage_returns_iff_candidates Examples.hh_days (2 # 10)).
  - repeat constructor; eexists; (split; [reflexivity | reflexivity]).
  - reflexivity.
Defined.

(** ** Event boundaries, continued *)

Lemma first_zero_no_zero l :
  Forall (λ t, ¬ (t == 0)%Q) l → first_zero l = None.
Proof.
  induction 1 as [| t l Ht _ IH]; simpl; [done |].
  destruct (Qeq_bool t 0) eqn:E; [by apply Qeq_bool_0 in E |]. by rewrite IH.
Qed.

Lemma first_zero_intro l j t :
  l !! j = Some t → (t == 0)%Q →
  (∀ j' t', (j' < j)%nat → l !! j' = Some t' → ¬ (t' == 0)%Q) →
  first_zero l = Some j.
Proof.
  revert j. induction l as [| t0 l IH]; intros j Hj Ht Hbefore; [done |].
  simpl. destruct j as [| j].
  - injection Hj as ->. by rewrite (proj2 (Qeq_bool_0 t) Ht).
  - destruct (Qeq_bool t0 0) eqn:E.
    + apply Qeq_bool_0 in E. by destruct (Hbefore 0%nat t0 ltac:(lia) eq_refl).
    + rewrite (IH j); [done | done | done |].
      intros j' t' Hlt Hj'. apply (Hbefore (S j') t'); [lia | done].
Qed.

(** The two scans resolve the same pair for two peaks with no zero from
    the first up to the second. *)
Lemma boundary_same_excursion cooking_temps i1 i2 ev :
  boundary cooking_temps i1 = Some ev → (i1 ≤ i2)%nat →
  (∀ m t, (i1 ≤ m < i2)%nat → cooking_temps !! m = Some t → ¬ (t == 0)%Q) →
  boundary cooking_temps i2 = Some ev.
Proof.
  intros Hev Hle Hhot.
  apply boundary_Some in Hev as (j & k & Hj & Hk & ->).
  assert (i1 < length cooking_temps)%nat as Hi1.
  { destruct (first_zero_Some _ _ Hk) as [(t & Ht & _) _].
    rewrite lookup_drop in Ht. apply lookup_lt_Some in Ht. lia. }
  destruct (boundary_of_peak _ _ _ _ Hi1 Hj Hk)
    as (Hs & He & (te & Hte & Hte0) & (ts & Hts & Hts0) & Hbefore & Hafter).
  assert (i2 ≤ i1 + k)%nat as Hi2.
  { destruct (decide (i2 ≤ i1 + k)%nat); [done |].
    destruct (Hhot (i1 + k)%nat te); [lia | done | done]. }
  pose proof (lookup_lt_Some _ _ _ Hte) as Hlen.
  apply boundary_Some. exists (i2 - (i1 - j))%nat, (i1 + k - i2)%nat.
  split; [| split].
  - apply (first_zero_intro _ _ ts); [| done |].
    + rewrite reverse_lookup by (rewrite length_take; lia).
      rewrite length_take, Nat.min_l by lia.
      rewrite lookup_take_lt by lia.
      replace (i2 - S (i2 - (i1 - j)))%nat with (i1 - j - 1)%nat by lia. done.
    + intros j' t' Hlt. rewrite reverse_lookup by (rewrite length_take; lia).
      rewrite length_take, Nat.min_l by lia.
      rewrite lookup_take_lt by lia. intros Ht'.
      destruct (decide (i2 - S j' < i1)%nat).
      * apply (Hbefore (i2 - S j')%nat t'); [lia | done].
      * apply (Hhot (i2 - S j')%nat t'); [lia | done].
  - apply (first_zero_intro _ _ te); [| done |].
    + rewrite lookup_drop. by replace (i2 + (i1 + k - i2))%nat with (i1 + k)%nat by lia.
    + intros j' t' Hlt. rewrite lookup_drop. intros Ht'.
      apply (Hafter (i2 + j')%nat t'); [lia | done].
  - f_equal; lia.
Qed.

(** The loop of [cooking_durations] appends one event per peak; the event
    of a peak with a zero on both sides is the pair the two scans resolve,
    whatever the earlier peaks left behind. *)
Lemma boundary_loop_lookup cooking_temps peaks st st' :
  for_each (boundary_step cooking_temps) peaks st = Ok st' →
  ∃ events,
    st'.2 = st.2 ++ events ∧ length events = length peaks
    ∧ ∀ a i ev, peaks !! a = Some i → boundary cooking_temps i = Some ev →
                events !! a = Some ev.
Proof.
  revert st. induction peaks as [| i peaks IH]; intros st; simpl.
  - intros [= <-]. exists []. by rewrite app_nil_r.
  - rewrite bind_Ok. intros (st1 & Hstep & Hrest).
    destruct (IH _ Hrest) as (events & Hst' & Hlen & Hlookup).
    destruct st as [[s e] evs]. unfold boundary_step in Hstep.
    destruct (match first_zero (reverse (take i cooking_temps)) with
              | Some j => Some (i - j)%nat | None => s end) as [s1 |] eqn:Es; [| done].
    destruct (match first_zero (drop i cooking_temps) with
              | Some k => Some (i + k)%nat | None => e end) as [e1 |] eqn:Ee; [| done].
    injection Hstep as <-. cbn [snd] in *.
    exists ((s1, e1) :: events). split; [by rewrite Hst', <- app_assoc |].
    split; [simpl; lia |].
    intros [| a] i' ev; simpl; [| apply Hlookup].
    intros [= <-] Hev. apply boundary_Some in Hev as (j & k & Hj & Hk & ->).
    rewrite Hj in Es. rewrite Hk in Ee. congruence.
Qed.

(** X12. Two peaks of one excursion, that is with no zero reading from the
    first up to the second, are resolved to the same event when the first
    has a zero before and after it: the event is listed once for each of
    the two peaks. *)
Theorem peaks_of_one_excursion_share_the_event
    hh stove cache peaks cooking_temps events a b i1 i2 j k :
  cook_events hh = Some cache → dict_get stove cache = Some peaks →
  channel (df_stoves hh) stove = Ok cooking_temps →
  cooking_durations hh stove = Ok events →
  peaks !! a = Some i1 → peaks !! b = Some i2 → (i1 ≤ i2)%nat →
  first_zero (reverse (take i1 cooking_temps)) = Some j →
  first_zero (drop i1 cooking_temps) = Some k →
  (∀ m t, (i1 ≤ m < i2)%nat → cooking_temps !! m = Some t → ¬ (t == 0)%Q) →
  events !! a = Some ((i1 - j)%nat, (i1 + k)%nat)
  ∧ events !! b = Some ((i1 - j)%nat, (i1 + k)%nat).
Proof.
  intros Hcache Hpeaks Htemps Hevents Ha Hb Hle Hj Hk Hhot.
  unfold cooking_durations in Hevents.
  rewrite Hcache in Hevents. cbn [from_option bind] in Hevents.
  rewrite Hpeaks in Hevents. cbn [from_option bind] in Hevents.
  rewrite Htemps in Hevents. cbn [bind] in Hevents.
  apply bind_Ok in Hevents as (st' & Hloop & [= <-]).
  apply boundary_loop_lookup in Hloop as (events & -> & _ & Hlookup). simpl.
  assert (boundary cooking_temps i1 = Some ((i1 - j)%nat, (i1 + k)%nat)) as Hev.
  { apply boundary_Some. by exists j, k. }
  split; [by eapply Hlookup |].
  eapply Hlookup; [exact Hb |]. by eapply boundary_same_excursion.
Qed.

Lemma peaks_of_one_excursion_share_the_event_witness :
  [(1%nat, 8%nat); (1%nat, 8%nat)] !! 0%nat = Some ((2 - 1)%nat, (2 + 6)%nat)
  ∧ [(1%nat, 8%nat); (1%nat, 8%nat)] !! 1%nat = Some ((2 - 1)%nat, (2 + 6)%nat).
Proof.
  apply (peaks_of_one_excursion_share_the_event
           (set_cook_events Examples.hh_days
              [("stove"%string, [1; 4; 7]%nat); ("oven"%string, [2; 5]%nat)])
           "oven" [("stove"%string, [1; 4; 7]%nat); ("oven"%string, [2; 5]%nat)]
           [2; 5]%nat [0; 20; 25; 20; 20; 26; 20; 20; 0]%Q
           [(1%nat, 8%nat); (1%nat, 8%nat)] 0%nat 1%nat 2%nat 5%nat 1%nat 6%nat);
    try reflexivity.
  - lia.
  - intros m t Hm Ht.
    assert (m = 2 ∨ m = 3 ∨ m = 4)%nat as [-> | [-> | ->]] by lia;
      injection Ht as <-; discriminate.
Defined.

(** X13. When the first peak of a stove has no zero reading before it, or
    none at or after it (the stove is hot when the study begins or ends),
    [cooking_durations] raises [UnboundLocalError]: no bound was ever
    assigned. *)
Theorem first_peak_without_zero_is_unbound hh stove cache i rest cooking_temps :
  cook_events hh = Some cache → dict_get stove cache = Some (i :: rest) →
  channel (df_stoves hh) stove = Ok cooking_temps →
  Forall (λ t, ¬ (t == 0)%Q) (take i cooking_temps)
  ∨ Forall (λ t, ¬ (t == 0)%Q) (drop i cooking_temps) →
  cooking_durations hh stove = Raise UnboundLocalError.
Proof.
  intros Hcache Hpeaks Htemps Hhot. unfold cooking_durations.
  rewrite Hcache. cbn [from_option bind]. rewrite Hpeaks. cbn [from_option bind].
  rewrite Htemps. cbn [bind for_each]. unfold boundary_step at 1.
  destruct Hhot as [Hhot | Hhot].
  - rewrite (first_zero_no_zero (reverse (take i cooking_temps)))
      by by apply Forall_reverse.
    by destruct (first_zero (drop i cooking_temps)).
  - rewrite (first_zero_no_zero (drop i cooking_temps)) by done.
    by destruct (first_zero (reverse (take i cooking_temps))).
Qed.

Lemma first_peak_without_zero_is_unbound_witness :
  cooking_durations
    {| df_stoves := {| timestamp := [0; 60; 120; 180];
                       channels := [("stove"%string, [18; 20; 5; 0]%Q)] |};
       stoves := ["stove"%string]; fuels := [];
       temp_threshold := 15; time_between_events := 30; study_duration := 180;
       weight_threshold := PyFloat (2 # 10);
       cook_events := Some [("stove"%string, [1%nat])]; weight_changes := None |}
    "stove"
  = Raise UnboundLocalError.
Proof.
  eapply (first_peak_without_zero_is_unbound _ "stove" _ 1%nat [] [18; 20; 5; 0]%Q).
  - reflexivity.
  - reflexivity.
  - reflexivity.
  - left. repeat constructor. discriminate.
Defined.

Lemma boundary_loop_state cooking_temps peaks st :
  Forall (λ i, is_Some (boundary cooking_temps i)) peaks →
  ∃ events,
    for_each (boundary_step cooking_temps) peaks st
    = Ok (match last events with Some ev => Some ev.1 | None => st.1.1 end,
          match last events with Some ev => Some ev.2 | None => st.1.2 end,
          st.2 ++ events)
    ∧ Forall2 (λ i ev, boundary cooking_temps i = Some ev) peaks events.
Proof.
  intros Hzeros. revert st.
  induction Hzeros as [| i peaks [ev Hev] _ IH]; intros [[s e] evs].
  { exists []. simpl. rewrite app_nil_r. by split. }
  pose proof Hev as Hev'. apply boundary_Some in Hev' as (j & k & Hj & Hk & ->).
  cbn [for_each]. rewrite (boundary_step_found _ _ _ _ _ Hj Hk). cbn [bind snd].
  destruct (IH (Some (i - j)%nat, Some (i + k)%nat, evs ++ [((i - j)%nat, (i + k)%nat)]))
    as (events & -> & Hevents).
  exists (((i - j)%nat, (i + k)%nat) :: events). cbn [fst snd].
  split; [| by constructor].
  rewrite <- app_assoc. destruct events as [| ev' events]; [done |].
  rewrite last_cons_cons.
  destruct (last_is_Some (ev' :: events)) as [_ [x ->]]; done.
Qed.

(** X14. A later peak with a zero before it but none at or after it (the
    stove is still hot when the study ends) does not fail: its event takes
    the end index of the event before it, which lies before the peak. *)
Theorem later_peak_reuses_previous_end hh stove cache pre i j cooking_temps :
  cook_events hh = Some cache → dict_get stove cache = Some (pre ++ [i]) →
  channel (df_stoves hh) stove = Ok cooking_temps →
  pre ≠ [] → Forall (λ p, is_Some (boundary cooking_temps p)) pre →
  first_zero (reverse (take i cooking_temps)) = Some j →
  Forall (λ t, ¬ (t == 0)%Q) (drop i cooking_temps) →
  ∃ events start_time end_time,
    cooking_durations hh stove
    = Ok (events ++ [(start_time, end_time); ((i - j)%nat, end_time)])
    ∧ (end_time < i)%nat.
Proof.
  intros Hcache Hpeaks Htemps Hne Hzeros Hj Hhot. unfold cooking_durations.
  rewrite Hcache. cbn [from_option bind]. rewrite Hpeaks. cbn [from_option bind].
  rewrite Htemps. cbn [bind].
  destruct (boundary_loop_state cooking_temps pre (None, None, []) Hzeros)
    as (events & Hloop & Hevents).
  assert (∃ events' s e, events = events' ++ [(s, e)]
                         ∧ boundary cooking_temps (default 0%nat (last pre)) = Some (s, e))
    as (events' & s & e & -> & Hlast).
  { destruct (last_is_Some pre) as [_ [p Hlast]]; [done |].
    destruct (proj1 (last_Some pre p) Hlast) as [pre' ->].
    apply Forall2_app_inv_l in Hevents as (events' & last_ev & _ & Hp & ->).
    inversion Hp as [| ? [s e] ? ? Hev Hnil]; subst. inversion Hnil; subst.
    exists events', s, e. by rewrite last_snoc. }
  rewrite last_snoc in Hloop. cbn [fst snd app] in Hloop.
  assert (∀ {A S} (f : S → A → result S) l x st st1,
            for_each f l st = Ok st1 → for_each f (l ++ [x]) st = f st1 x) as Hsnoc.
  { intros A S f l x. induction l as [| y l IH]; intros st st1; simpl.
    - intros [= <-]. by destruct (f st x).
    - rewrite bind_Ok. intros (st2 & -> & Hrest). cbn [bind]. by apply IH. }
  rewrite (Hsnoc _ _ _ _ _ _ _ Hloop). cbn [bind].
  unfold boundary_step. rewrite Hj, (first_zero_no_zero _ Hhot).
  exists events', s, e. split; [by rewrite <- app_assoc |].
  apply boundary_Some in Hlast as (j' & k' & _ & Hk' & [= -> ->]).
  destruct (first_zero_Some _ _ Hk') as [(t & Ht & Ht0) _]. rewrite lookup_drop in Ht.
  destruct (decide (default 0%nat (last pre) + k' < i)%nat) as [| Hge]; [done |].
  exfalso. rewrite Forall_forall in Hhot. apply (Hhot t); [| done].
  apply list_elem_of_lookup. exists (default 0%nat (last pre) + k' - i)%nat.
  rewrite lookup_drop. rewrite <- Ht. f_equal. lia.
Qed.

Lemma later_peak_reuses_previous_end_witness :
  ∃ events start_time end_time,
    cooking_durations
      {| df_stoves := {| timestamp := [0; 60; 120; 180; 240; 300; 360];
                         channels := [("stove"%string, [0; 20; 0; 0; 5; 20; 5]%Q)] |};
         stoves := ["stove"%string]; fuels := [];
         temp_threshold := 15; time_between_events := 2; study_duration := 360;
         weight_threshold := PyFloat (2 # 10);
         cook_events := Some [("stove"%string, [1; 5]%nat)]; weight_changes := None |}
      "stove"
    = Ok (events ++ [(start_time, end_time); ((5 - 1)%nat, end_time)])
    ∧ (end_time < 5)%nat.
Proof.
  eapply (later_peak_reuses_previous_end _ "stove" _ [1%nat] 5%nat 1%nat
            [0; 20; 0; 0; 5; 20; 5]%Q).
  - reflexivity.
  - reflexivity.
  - reflexivity.
  - discriminate.
  - repeat constructor. by eexists.
  - reflexivity.
  - repeat constructor; discriminate.
Defined.

(** ** Day buckets, continued *)

Lemma back_fill_lookup_Some days_ (daily : gmap Z Q) d v :
  daily !! d = Some v → back_fill days_ daily !! d = Some v.
Proof.
  unfold back_fill. revert daily.
  induction days_ as [| day days_ IH]; intros daily Hd; simpl; [done |].
  apply IH. case_bool_decide as Hday; [done |].
  rewrite lookup_insert_ne; [done |]. intros ->.
  apply Hday, elem_of_dom. by eexists.
Qed.

(** The day counter of [daily_cooking_time] advances at most once per
    event and once more at the last one. *)
Lemma cooking_loop_days ts study_began n events k st st' :
  (k + length events = n)%nat →
  for_each (cooking_step ts study_began n) (zip (seq k (length events)) events) st = Ok st' →
  st.1.1 ≤ st'.1.1 ≤ st.1.1 + Z.of_nat (length events) + 1
  ∧ (events ≠ [] → st.1.1 + 1 ≤ st'.1.1).
Proof.
  revert k st. induction events as [| idx events IH]; intros k st Hn.
  { simpl. intros [= <-]. split; [lia | done]. }
  cbn [length seq zip zip_with for_each]. rewrite bind_Ok.
  intros (st1 & Hstep & Hloop). simpl in Hn.
  destruct (IH (S k) st1 ltac:(lia) Hloop) as [Hday Hlast].
  destruct st as [[day daily] mins]. unfold cooking_step in Hstep.
  destruct (at_index ts idx.2); [| done]. destruct (at_index ts idx.1); [| done].
  cbn [bind] in Hstep. cbn [fst snd] in *.
  destruct events as [| idx' events].
  - simpl in Hloop. injection Hloop as <-. simpl in Hn.
    destruct (_ =? _); destruct (Nat.eqb_spec k (n - 1)); try lia;
      injection Hstep as <-; cbn [fst snd length]; split; intros; lia.
  - specialize (Hlast ltac:(done)). simpl length in *.
    destruct (_ =? _); destruct (Nat.eqb_spec k (n - 1)); try lia;
      injection Hstep as <-; cbn [fst snd] in *; split; intros; lia.
Qed.

(** X15. The keys of a series of [daily_cooking_time] are the days 1 to
    [K] without a gap, for a [K] that is at least the number of days of
    the study and at most the larger of that number and the number of
    events plus one; with at least one event, day 1 is a key. *)
Theorem cooking_day_keys_are_an_interval hh events daily :
  daily_cooking_time hh events = Ok daily →
  ∃ K, (∀ d, d ∈ dom daily ↔ 1 ≤ d ≤ K)
       ∧ days (study_duration hh) ≤ K
       ∧ K ≤ Z.max (days (study_duration hh)) (Z.of_nat (length events) + 1)
       ∧ (events ≠ [] → 1 ≤ K).
Proof.
  unfold daily_cooking_time. rewrite bind_Ok. intros (study_began & _ & H).
  apply bind_Ok in H as (st & Hloop & H).
  destruct (cooking_loop_spec _ _ _ events 0%nat _ _ eq_refl cooking_inv_init Hloop)
    as (Hinv & _).
  destruct (cooking_loop_days _ _ _ events 0%nat _ _ eq_refl Hloop) as [Hdays Hfirst].
  destruct st as [[day daily'] mins].
  destruct Hinv as (Hday & Hdom & Hsize & _). cbn [fst snd] in *.
  destruct (Z.eqb_spec (Z.of_nat (size daily')) (days (study_duration hh))) as [Heq | Hne];
    injection H as <-.
  - exists day. split; [done |]. split; [lia |]. split; [lia |].
    intros Hev. specialize (Hfirst Hev). lia.
  - exists (Z.max day (days (study_duration hh))). split; [| split; [lia |]].
    + intros d. rewrite back_fill_dom, elem_of_day_range, Hdom. lia.
    + split; [lia |]. intros Hev. specialize (Hfirst Hev). lia.
Qed.

Lemma cooking_day_keys_are_an_interval_witness :
  ∃ daily K,
    daily_cooking_time Examples.hh_days [(1, 2); (4, 5); (7, 8)]%nat = Ok daily
    ∧ (∀ d, d ∈ dom daily ↔ 1 ≤ d ≤ K)
    ∧ days (study_duration Examples.hh_days) ≤ K.
Proof.
  destruct (daily_cooking_time Examples.hh_days [(1, 2); (4, 5); (7, 8)]%nat)
    as [daily |] eqn:E; [| by vm_compute in E].
  destruct (cooking_day_keys_are_an_interval _ _ _ E) as (K & Hdom & HK & _).
  by exists daily, K.
Defined.

(** X16. A single cooking event is filed by where it ends relative to the
    first 24 hours of the study, not by its calendar day: under day 1 when
    it ends within them, and otherwise under day 2, with 0 minutes entered
    for day 1. *)
Theorem lone_event_bucket hh start_idx end_idx study_began start_time end_time :
  timestamp (df_stoves hh) !! 0%nat = Some study_began →
  timestamp (df_stoves hh) !! start_idx = Some start_time →
  timestamp (df_stoves hh) !! end_idx = Some end_time →
  ∃ daily v,
    daily_cooking_time hh [(start_idx, end_idx)] = Ok daily
    ∧ daily !! (if days (end_time - study_began) =? 0 then 1 else 2) = Some v
    ∧ (v == event_minutes start_time end_time)%Q
    ∧ (days (end_time - study_began) ≠ 0 → daily !! 1 = Some 0%Q).
Proof.
  intros Hbegan Hstart Hend. unfold daily_cooking_time, enumerate, at_index.
  rewrite Hbegan. cbn [from_option bind length seq zip zip_with for_each].
  unfold cooking_step, at_index. cbn [fst snd]. rewrite Hstart, Hend.
  cbn [from_option bind Nat.sub Nat.eqb].
  destruct (Z.eqb_spec (days (end_time - study_began)) 0) as [Hday | Hday];
    cbn [bind fst snd];
    match goal with |- context [if ?c then _ else _] => destruct c end;
    eexists _, _; (split; [reflexivity |]).
  - rewrite lookup_insert_eq. split; [done |]. split; [ring | done].
  - split; [apply back_fill_lookup_Some, lookup_insert_eq |]. split; [ring | done].
  - rewrite lookup_insert_eq. split; [done |]. split; [ring |]. intros _.
    rewrite lookup_insert_ne by done. apply lookup_insert_eq.
  - split; [apply back_fill_lookup_Some, lookup_insert_eq |]. split; [ring |].
    intros _. apply back_fill_lookup_Some.
    rewrite lookup_insert_ne by done. apply lookup_insert_eq.
Qed.

Lemma lone_event_bucket_witness :
  ∃ daily v,
    daily_cooking_time Examples.hh_days [(7%nat, 8%nat)] = Ok daily
    ∧ daily !! (if days (187200 - 0) =? 0 then 1 else 2) = Some v
    ∧ (v == event_minutes 183600 187200)%Q
    ∧ (days (187200 - 0) ≠ 0 → daily !! 1 = Some 0%Q).
Proof.
  apply (lone_event_bucket Examples.hh_days 7%nat 8%nat 0 183600 187200); reflexivity.
Defined.

Lemma fuel_step_day_one ts col study_began initial_weight st i st' (C : Prop) :
  fuel_step ts col study_began initial_weight st i = Ok st' →
  (1 ≤ st.1.1 ∧ (1 ∈ dom st.2 ↔ C) ∧ (st.1.1 = 1 → 1 ∈ dom st.2)) →
  1 ≤ st'.1.1 ∧ (1 ∈ dom st'.2 ↔ C) ∧ (st'.1.1 = 1 → 1 ∈ dom st'.2).
Proof.
  destruct st as [[day new_weight] daily]. unfold fuel_step.
  destruct (at_index ts i) as [t |]; [| done]. cbn [bind].
  destruct (at_index col i) as [w |]; [| by destruct (_ =? _)].
  cbn [fst snd]. intros Hstep (Hday & Hone & Hfirst).
  destruct (_ =? _); cbn [bind] in Hstep; injection Hstep as <-; cbn [fst snd].
  - split; [done |]. rewrite dom_insert_L, elem_of_union, elem_of_singleton.
    split; [| tauto]. split.
    + intros [<- | H1]; [by apply Hone, Hfirst | by apply Hone].
    + intros HC. right. by apply Hone.
  - split; [lia |]. rewrite dom_insert_L, elem_of_union, elem_of_singleton.
    split; [| lia]. split.
    + intros [? | H1]; [lia | by apply Hone].
    + intros HC. right. by apply Hone.
Qed.

(** X17. The keys of a series of [daily_fuel_use] are the days 2 to [K]
    without a gap, for a [K] that is at least the number of days of the
    study, and day 1 exactly when the first significant change falls
    within the first 24 hours of the study. *)
Theorem fuel_day_keys hh fuel wc0 rest daily study_began t0 :
  daily_fuel_use hh fuel (wc0 :: rest) = Ok daily →
  timestamp (df_stoves hh) !! 0%nat = Some study_began →
  timestamp (df_stoves hh) !! wc0 = Some t0 →
  ∃ K, days (study_duration hh) ≤ K
       ∧ ∀ d, d ∈ dom daily ↔ (d = 1 ∧ days (t0 - study_began) = 0) ∨ 2 ≤ d ≤ K.
Proof.
  intros H Hbegan Ht0. unfold daily_fuel_use, at_index in H.
  rewrite Hbegan in H. cbn [from_option bind] in H.
  apply bind_Ok in H as (col & _ & H). cbn [lookup list_lookup from_option bind] in H.
  apply bind_Ok in H as (initial_weight & _ & H).
  apply bind_Ok in H as (st & Hloop & H).
  pose proof (for_each_invariant _ fuel_inv _ _ _
                (fuel_step_inv _ _ _ _) fuel_inv_init Hloop) as Hinv.
  cbn [for_each] in Hloop. apply bind_Ok in Hloop as (st1 & Hfirst & Hloop).
  assert (1 ≤ st1.1.1 ∧ (1 ∈ dom st1.2 ↔ days (t0 - study_began) = 0)
          ∧ (st1.1.1 = 1 → 1 ∈ dom st1.2)) as Hone.
  { unfold fuel_step, at_index in Hfirst. rewrite Ht0 in Hfirst.
    cbn [from_option bind] in Hfirst.
    destruct (col !! wc0) as [w |]; [| by destruct (_ =? _)].
    cbn [from_option bind] in Hfirst.
    destruct (Z.eqb_spec (days (t0 - study_began)) (1 - 1)) as [Hd | Hd];
      cbn [bind] in Hfirst; injection Hfirst as <-; cbn [fst snd];
      rewrite dom_insert_L, dom_empty_L, elem_of_union, elem_of_singleton, elem_of_empty.
    - split; [lia |]. split; [split; [intros _; lia | by left] | by left].
    - split; [lia |]. split; [split; [lia | intros ?; lia] | lia]. }
  pose proof (for_each_invariant _
                (λ st, 1 ≤ st.1.1 ∧ (1 ∈ dom st.2 ↔ days (t0 - study_began) = 0)
                       ∧ (st.1.1 = 1 → 1 ∈ dom st.2)) _ _ _
                (λ s x s' Hs Hstep, fuel_step_day_one _ _ _ _ s x s' _ Hstep Hs)
                Hone Hloop) as (_ & Hday1 & _).
  destruct st as [[day new_weight] daily'].
  destruct Hinv as (Hday & Hin & Hout & Hsize & _). cbn [fst snd] in *.
  destruct (Z.eqb_spec (Z.of_nat (size daily')) (days (study_duration hh))) as [Heq | Hne];
    injection H as <-.
  - exists day. split; [lia |]. intros d. split.
    + intros Hd. destruct (decide (d = 1)) as [-> | Hne]; [left; tauto |].
      right. specialize (Hout d Hd). lia.
    + intros [[-> HC] | Hd]; [by apply Hday1 | by apply Hin].
  - exists (Z.max day (days (study_duration hh))). split; [lia |].
    intros d. rewrite back_fill_dom, elem_of_day_range. split.
    + intros [Hd | Hd]; [| right; lia].
      destruct (decide (d = 1)) as [-> | Hne']; [left; tauto |].
      right. specialize (Hout d Hd). lia.
    + intros [[-> HC] | Hd]; [left; by apply Hday1 |].
      destruct (decide (d ≤ day)); [left; apply Hin; lia | right; lia].
Qed.

Lemma fuel_day_keys_witness :
  ∃ daily K,
    daily_fuel_use Examples.hh_days "gas" [4%nat] = Ok daily
    ∧ days (study_duration Examples.hh_days) ≤ K
    ∧ ∀ d, d ∈ dom daily ↔ (d = 1 ∧ days (93600 - 0) = 0) ∨ 2 ≤ d ≤ K.
Proof.
  destruct (daily_fuel_use Examples.hh_days "gas" [4%nat]) as [daily |] eqn:E;
    [| by vm_compute in E].
  destruct (fuel_day_keys Examples.hh_days "gas" 4%nat [] daily 0 93600 E eq_refl eq_refl)
    as (K & HK & Hdom).
  by exists daily, K.
Defined.

(** ** Plots *)

Lemma at_indices_Ok {A} (l : list A) indices xs :
  at_indices l indices = Ok xs → Forall2 (λ i x, l !! i = Some x) indices xs.
Proof.
  revert xs. induction indices as [| i indices IH]; intros xs; simpl.
  - intros [= <-]. constructor.
  - rewrite bind_Ok. intros (a & Ha & H). apply bind_Ok in H as (rest & Hrest & [= <-]).
    constructor; [| by apply IH]. unfold at_index in Ha.
    by destruct (l !! i); [injection Ha as -> |].
Qed.

Lemma line_traces_loop hh subjects acc res :
  for_each (fun acc s =>
              let* y := channel (df_stoves hh) s in
              Ok (acc ++ [{| trace_x := timestamp (df_stoves hh); trace_y := y;
                             mode := Lines; name := first_word s |}]))
           subjects acc = Ok res →
  ∃ lines, res = acc ++ lines ∧ Forall2 (draws hh) subjects lines.
Proof.
  revert acc. induction subjects as [| s subjects IH]; intros acc; simpl.
  - intros [= <-]. exists []. by rewrite app_nil_r.
  - rewrite bind_Ok. intros (acc1 & Hstep & Hrest).
    apply bind_Ok in Hstep as (y & Hy & [= <-]).
    destruct (IH _ Hrest) as (lines & -> & Hlines).
    eexists (_ :: lines). split; [by rewrite <- app_assoc |].
    constructor; [| done]. by repeat split.
Qed.

Lemma marker_traces_loop hh cache suffix subjects acc res :
  for_each (fun acc s =>
              let* indices := from_option KeyError (dict_get s cache) in
              let* x := at_indices (timestamp (df_stoves hh)) indices in
              let* col := channel (df_stoves hh) s in
              let* y := at_indices col indices in
              Ok (acc ++ [{| trace_x := x; trace_y := y;
                             mode := Markers; name := (s ++ suffix)%string |}]))
           subjects acc = Ok res →
  ∃ markers, res = acc ++ markers ∧ Forall2 (marks hh cache suffix) subjects markers.
Proof.
  revert acc. induction subjects as [| s subjects IH]; intros acc; simpl.
  - intros [= <-]. exists []. by rewrite app_nil_r.
  - rewrite bind_Ok. intros (acc1 & Hstep & Hrest).
    apply bind_Ok in Hstep as (indices & Hindices & Hstep).
    apply bind_Ok in Hstep as (x & Hx & Hstep).
    apply bind_Ok in Hstep as (col & Hcol & Hstep).
    apply bind_Ok in Hstep as (y & Hy & [= <-]).
    destruct (IH _ Hrest) as (markers & -> & Hmarkers).
    eexists (_ :: markers). split; [by rewrite <- app_assoc |].
    constructor; [| done]. split; [done |]. split; [done |].
    exists indices, col. cbn [trace_x trace_y].
    split; [by destruct (dict_get s cache); [injection Hindices as -> |] |].
    split; [done |]. split; by apply at_indices_Ok.
Qed.

(** X18. Neither plot accepts a list of subjects: once the names of the
    list pass the check, building the title from a list and a string
    raises [TypeError]; otherwise the check has raised already. No figure
    is returned for a list. *)
Theorem plots_refuse_lists hh l flag :
  raises (plot_stove hh (SList l) flag) ∧ raises (plot_fuel hh (SList l) flag)
  ∧ (∀ stove_type, check_stove_type hh (SList l) = Ok stove_type →
                   plot_stove hh (SList l) flag = Raise TypeError)
  ∧ (∀ fuel_type, check_fuel_type hh (SList l) = Ok fuel_type →
                  plot_fuel hh (SList l) flag = Raise TypeError).
Proof.
  unfold plot_stove, plot_fuel. repeat split.
  - destruct (check_stove_type hh (SList l)); by eexists.
  - destruct (check_fuel_type hh (SList l)); by eexists.
  - by intros stove_type ->.
  - by intros fuel_type ->.
Qed.

Lemma check_fuel_type_known hh fuel fuel_type :
  check_fuel_type hh fuel = Ok fuel_type → fuels hh ≠ [] →
  fuel_type ≠ [] ∧ Forall (λ f, f ∈ fuels hh) fuel_type.
Proof.
  unfold check_fuel_type. rewrite bind_Ok. intros ([] & _ & H) Hne.
  destruct (is_All fuel).
  - injection H as <-. split; [done |]. by apply Forall_forall.
  - destruct (filter _ _) as [| f known] eqn:E; [by destruct (last _) |].
    injection H as <-. split; [done |]. rewrite <- E.
    apply Forall_forall. intros f' [Hf' _]%list_elem_of_filter.
    unfold in_list in Hf'. by apply bool_decide_eq_true in Hf'.
Qed.

(** Asking [fuel_usage] for the list of fuels that the check returned is
    asking it for the original request. *)
Lemma fuel_usage_of_checked hh fuel fuel_type :
  check_fuel_type hh fuel = Ok fuel_type → fuel_type ≠ [] →
  Forall (λ f, f ∈ fuels hh) fuel_type →
  fuel_usage hh (SList (EStr <$> fuel_type)) = fuel_usage hh fuel.
Proof.
  intros Hcheck Hne Hknown. unfold fuel_usage.
  rewrite (check_fuel_type_Ok_types _ _ _ Hcheck), Hcheck, check_fuel_type_list.
  assert (filter (λ f, in_list f (fuels hh) = true) fuel_type = fuel_type) as ->.
  { clear Hcheck Hne. induction Hknown as [| f l Hf _ IH]; [done |].
    rewrite filter_cons, decide_True by (by apply bool_decide_eq_true_2).
    by rewrite IH. }
  assert (check_list_of_str (SList (EStr <$> fuel_type))
            "Must input all fuels as strings!" "Must input fuel type as string!" = Ok tt)
    as ->.
  { apply check_list_of_str_Ok. simpl. clear. induction fuel_type; by constructor. }
  by destruct fuel_type.
Qed.

(** X19. When [plot_fuel] is asked to mark the fuel usage and returns, it
    has run the analysis that [fuel_usage] runs on the same request and
    left the household that [fuel_usage] leaves; the figure holds one line
    per fuel, then one set of markers per fuel, and every marker sits on
    its line: at the timestamp and the reading of a cached weight
    change. *)
Theorem plot_fuel_marks_the_changes hh fuel hh' fig :
  plot_fuel hh fuel true = Ok (hh', fig) →
  ∃ fuel_type table changes lines markers,
    check_fuel_type hh fuel = Ok fuel_type
    ∧ fuel_usage hh fuel = Ok (hh', table)
    ∧ weight_changes hh' = Some changes
    ∧ traces fig = lines ++ markers
    ∧ Forall2 (draws hh) fuel_type lines
    ∧ Forall2 (marks hh changes " Weight Change") fuel_type markers.
Proof.
  unfold plot_fuel. rewrite bind_Ok. intros (fuel_type & Hcheck & H).
  apply bind_Ok in H as (title & _ & H). apply bind_Ok in H as (lines & Hlines & H).
  apply bind_Ok in H as ([hh1 table] & Husage & H).
  apply bind_Ok in H as (changes & Hchanges & H).
  apply bind_Ok in H as (markers & Hmarkers & [= <- <-]). cbn [fst snd] in *.
  apply line_traces_loop in Hlines as (lines' & -> & Hlines).
  apply marker_traces_loop in Hmarkers as (markers' & -> & Hmarkers).
  assert (fuel_type ≠ [] ∧ Forall (λ f, f ∈ fuels hh) fuel_type) as [Hne Hknown].
  { destruct fuel_type as [| f fuel_type]; [by vm_compute in Husage |].
    destruct (fuels hh) eqn:E.
    - exfalso. revert Hcheck. unfold check_fuel_type. rewrite E.
      destruct (check_list_of_str fuel _ _); [| done]. cbn [bind].
      destruct (is_All fuel); [done |].
      assert (filter (λ f, in_list f [] = true) (iterate fuel) = []) as ->.
      { apply elem_of_nil_inv. intros x [Hx _]%list_elem_of_filter.
        unfold in_list in Hx. apply bool_decide_eq_true in Hx.
        by apply elem_of_nil in Hx. }
      by destruct (last _).
    - rewrite <- E. apply (check_fuel_type_known hh fuel); [done |]. by rewrite E. }
  rewrite (fuel_usage_of_checked hh fuel fuel_type) in Husage by done.
  destruct (fuel_usage_Ok _ _ _ _ Husage) as (changes' & ->).
  exists fuel_type, table, changes, lines', markers'.
  split; [done |]. split; [done |].
  split; [by destruct (weight_changes _); [injection Hchanges as -> |] |].
  split; [done |]. split; [done |]. exact Hmarkers.
Qed.

Lemma plot_fuel_marks_the_changes_witness :
  ∃ hh' fig fuel_type table changes lines markers,
    plot_fuel Examples.hh_days (SStr "All") true = Ok (hh', fig)
    ∧ check_fuel_type Examples.hh_days (SStr "All") = Ok fuel_type
    ∧ fuel_usage Examples.hh_days (SStr "All") = Ok (hh', table)
    ∧ weight_changes hh' = Some changes
    ∧ traces fig = lines ++ markers
    ∧ Forall2 (draws Examples.hh_days) fuel_type lines
    ∧ Forall2 (marks Examples.hh_days changes " Weight Change") fuel_type markers.
Proof.
  destruct (plot_fuel Examples.hh_days (SStr "All") true) as [[hh' fig] |] eqn:E;
    [| by vm_compute in E].
  destruct (plot_fuel_marks_the_changes _ _ _ _ E)
    as (fuel_type & table & changes & lines & markers & H).
  exists hh', fig, fuel_type, table, changes, lines, markers.
  split; [reflexivity | exact H].
Defined.

(** ** The tables, continued *)

Lemma Forall2_zip_elem {A B} (P : A → B → Prop) (l : list A) (k : list B) x :
  Forall2 P l k → x ∈ l → ∃ y, (x, y) ∈ zip l k ∧ P x y.
Proof.
  induction 1 as [| x' y' l k HP _ IH]; intros Hx; [by apply elem_of_nil in Hx |].
  apply elem_of_cons in Hx as [-> | Hx].
  - exists y'. split; [apply list_elem_of_here | done].
  - destruct (IH Hx) as (y & Hin & Hy). exists y.
    split; [by apply list_elem_of_further | done].
Qed.

(** The minutes that the loop adds are those of the specification. *)
Lemma events_minutes_modulo ts events :
  events_minutes ts events = minutes_modulo_a_day ts events.
Proof.
  induction events as [| idx events IH]; [done |].
  unfold events_minutes, minutes_modulo_a_day in *. cbn [foldr]. by rewrite IH.
Qed.

(** Taken modulo a day, the events lose 1440 minutes for each whole day. *)
Lemma minutes_modulo_a_day_split ts events :
  (minutes_modulo_a_day ts events
   == elapsed_minutes ts events - 1440 * inject_Z (whole_days ts events))%Q.
Proof.
  induction events as [| idx events IH]; [reflexivity |].
  unfold minutes_modulo_a_day, elapsed_minutes, whole_days in *. cbn [foldr].
  rewrite IH. rewrite Z.mod_eq by lia. unfold Z.sub at 1.
  rewrite !inject_Z_plus, inject_Z_opp, inject_Z_mult. field.
Qed.

Lemma whole_days_non_negative ts events :
  Forall (λ idx, 0 ≤ elapsed ts idx) events → 0 ≤ whole_days ts events.
Proof.
  induction 1 as [| idx events Hidx _ IH]; [done |].
  unfold whole_days in *. cbn [foldr].
  pose proof (Z.div_pos (elapsed ts idx) 86400 Hidx). lia.
Qed.

Lemma whole_days_positive ts events :
  Forall (λ idx, 0 ≤ elapsed ts idx) events →
  Exists (λ idx, 86400 ≤ elapsed ts idx) events →
  1 ≤ whole_days ts events.
Proof.
  intros Hnn Hlong. induction Hlong as [idx events Hidx | idx events _ IH].
  - inversion Hnn as [| ? ? _ Hnn']; subst.
    pose proof (whole_days_non_negative ts events Hnn') as Hrest.
    unfold whole_days in *. cbn [foldr].
    assert (1 ≤ elapsed ts idx / 86400) by (apply Z.div_le_lower_bound; lia). lia.
  - inversion Hnn as [| ? ? Hidx Hnn']; subst. specialize (IH Hnn').
    unfold whole_days in *. cbn [foldr].
    pose proof (Z.div_pos (elapsed ts idx) 86400 Hidx). lia.
Qed.

(** C10. In the table that [cooking_duration] returns, every stove that
    passed the check has a row, and the minutes in the day buckets of that
    row add up to the sum, over the events that [cooking_durations] finds
    for the stove, of the elapsed time from the start to the end timestamp
    taken modulo 24 hours, divided by 60. The row therefore holds 1440
    minutes less than the events lasted for every whole day of an event,
    and strictly less than they lasted as soon as one event lasts 24 hours
    or more and none ends before it starts. *)
Theorem cooking_minutes_modulo_a_day hh stove hh' table :
  cooking_duration hh stove = Ok (hh', table) →
  ∃ stove_type,
    check_stove_type hh stove = Ok stove_type
    ∧ ∀ s, s ∈ stove_type →
        ∃ daily events,
          (s, daily) ∈ table
          ∧ cooking_durations hh' s = Ok events
          ∧ (bucket_total daily
             == minutes_modulo_a_day (timestamp (df_stoves hh)) events)%Q
          ∧ (bucket_total daily
             == elapsed_minutes (timestamp (df_stoves hh)) events
                - 1440 * inject_Z (whole_days (timestamp (df_stoves hh)) events))%Q
          ∧ (Forall (λ idx, 0 ≤ elapsed (timestamp (df_stoves hh)) idx) events →
             Exists (λ idx, 86400 ≤ elapsed (timestamp (df_stoves hh)) idx) events →
             (bucket_total daily < elapsed_minutes (timestamp (df_stoves hh)) events)%Q).
Proof.
  unfold cooking_duration. rewrite bind_Ok. intros ([hh1 counts] & Hevents & H).
  apply bind_Ok in H as (rows & Hloop & [= <- <-]). cbn [fst snd] in *.
  apply cooking_duration_rows_loop in Hloop as (rows' & -> & Hrows).
  apply cooking_events_Ok in Hevents
    as (stove_type & cache & Hcheck & -> & -> & _ & Hkeys & _ & _).
  assert (dict_keys (counts_of cache) = dict_keys cache) as Hcounts.
  { unfold dict_keys, counts_of. by rewrite <- list_fmap_compose. }
  rewrite Hcounts in *. cbn [app] in *.
  exists stove_type. split; [done |]. intros s Hs. apply Hkeys in Hs.
  destruct (Forall2_zip_elem _ _ _ _ Hrows Hs) as (daily & Hin & events & Hev & Hdaily).
  exists daily, events. split; [done |]. split; [done |].
  apply daily_cooking_time_spec in Hdaily as (_ & _ & Htotal).
  rewrite events_minutes_modulo in Htotal.
  change (df_stoves (set_cook_events hh cache)) with (df_stoves hh) in Htotal.
  split; [done |]. split.
  - rewrite Htotal. apply minutes_modulo_a_day_split.
  - intros Hnn Hlong. rewrite Htotal, minutes_modulo_a_day_split.
    pose proof (whole_days_positive _ _ Hnn Hlong) as Hdays.
    apply Qlt_minus_iff. ring_simplify.
    apply Qmult_lt_0_compat; [reflexivity |].
    change 0%Q with (inject_Z 0). rewrite <- Zlt_Qlt. lia.
Qed.

Lemma cooking_minutes_modulo_a_day_witness :
  ∃ hh' table stove_type,
    cooking_duration Examples.hh_days (SStr "All") = Ok (hh', table)
    ∧ check_stove_type Examples.hh_days (SStr "All") = Ok stove_type
    ∧ ∀ s, s ∈ stove_type →
        ∃ daily events,
          (s, daily) ∈ table
          ∧ cooking_durations hh' s = Ok events
          ∧ (bucket_total daily
             == minutes_modulo_a_day (timestamp (df_stoves Examples.hh_days)) events)%Q
          ∧ (bucket_total daily
             == elapsed_minutes (timestamp (df_stoves Examples.hh_days)) events
                - 1440 * inject_Z
                           (whole_days (timestamp (df_stoves Examples.hh_days)) events))%Q
          ∧ (Forall (λ idx, 0 ≤ elapsed (timestamp (df_stoves Examples.hh_days)) idx)
                    events →
             Exists (λ idx, 86400 ≤ elapsed (timestamp (df_stoves Examples.hh_days)) idx)
                    events →
             (bucket_total daily
              < elapsed_minutes (timestamp (df_stoves Examples.hh_days)) events)%Q).
Proof.
  destruct (cooking_duration Examples.hh_days (SStr "All")) as [[hh' table] |] eqn:E;
    [| by vm_compute in E].
  destruct (cooking_minutes_modulo_a_day _ _ _ _ E) as (stove_type & Hcheck & H).
  exists hh', table, stove_type. split; [reflexivity |]. split; [exact Hcheck | exact H].
Defined.

(** In [hh_days] both stoves have a row. The oven is hot from 01:00 of the
    first day to 04:00 of the third, and that event is found for two
    peaks: 51 hours each, 6120 minutes together, of which the row holds
    360, two whole days being dropped from each. *)
Example oven_row_drops_whole_days :
  ∃ hh' table,
    cooking_duration Examples.hh_days (SStr "All") = Ok (hh', table)
    ∧ table.*1 = ["stove"; "oven"]%string
    ∧ cooking_durations hh' "oven" = Ok [(1, 8); (1, 8)]%nat
    ∧ (Qred <$> (bucket_total <$> table.*2)) = [180; 360]%Q
    ∧ Qred (elapsed_minutes (timestamp (df_stoves Examples.hh_days)) [(1, 8); (1, 8)]%nat)
      = 6120%Q
    ∧ whole_days (timestamp (df_stoves Examples.hh_days)) [(1, 8); (1, 8)]%nat = 4.
Proof. do 2 eexists. repeat split; vm_compute; reflexivity. Qed.

(** X20. The table of [cooking_duration] has one row per requested stove:
    no stove labels two rows, the labels are the stoves that passed the
    check, and they come in the order of the request when it names no
    stove twice. *)
Theorem cooking_table_has_a_row_per_stove hh stove hh' table :
  cooking_duration hh stove = Ok (hh', table) →
  ∃ stove_type,
    check_stove_type hh stove = Ok stove_type
    ∧ NoDup table.*1
    ∧ (∀ s, s ∈ table.*1 ↔ s ∈ stove_type)
    ∧ (NoDup stove_type → table.*1 = stove_type).
Proof.
  unfold cooking_duration. rewrite bind_Ok. intros ([hh1 counts] & Hevents & H).
  apply bind_Ok in H as (rows & Hloop & [= _ <-]). cbn [fst snd] in *.
  apply cooking_duration_rows_loop in Hloop as (rows' & -> & Hrows).
  apply Forall2_length in Hrows. rewrite fst_zip by (simpl; lia).
  apply cooking_events_Ok in Hevents
    as (stove_type & cache & Hcheck & _ & -> & Hnodup & Hkeys & _ & Horder).
  assert (dict_keys (counts_of cache) = dict_keys cache) as ->.
  { unfold dict_keys, counts_of. by rewrite <- list_fmap_compose. }
  by exists stove_type.
Qed.

Lemma cooking_table_has_a_row_per_stove_witness :
  ∃ hh' table stove_type,
    cooking_duration Examples.hh_days (SStr "All") = Ok (hh', table)
    ∧ check_stove_type Examples.hh_days (SStr "All") = Ok stove_type
    ∧ NoDup table.*1
    ∧ (∀ s, s ∈ table.*1 ↔ s ∈ stove_type)
    ∧ (NoDup stove_type → table.*1 = stove_type).
Proof.
  destruct (cooking_duration Examples.hh_days (SStr "All")) as [[hh' table] |] eqn:E;
    [| by vm_compute in E].
  destruct (cooking_table_has_a_row_per_stove _ _ _ _ E) as (stove_type & H).
  by exists hh', table, stove_type.
Defined.

Lemma back_fill_lookup_cases days_ (daily : gmap Z Q) d v :
  back_fill days_ daily !! d = Some v → daily !! d = Some v ∨ v = 0%Q.
Proof.
  unfold back_fill. revert daily.
  induction days_ as [| day days_ IH]; intros daily; simpl; [by left |].
  intros [Hd | ->]%IH; [| by right]. case_bool_decide; [by left |].
  destruct (decide (day = d)) as [-> | Hne].
  - rewrite lookup_insert_eq in Hd. right. by injection Hd.
  - rewrite lookup_insert_ne in Hd by done. by left.
Qed.

Lemma fuel_loop_first_day ts col study_began initial_weight l new_weight
    (daily : gmap Z Q) st' :
  Forall (λ i, ∃ t, ts !! i = Some t ∧ days (t - study_began) = 0) l →
  for_each (fuel_step ts col study_began initial_weight) l (1, new_weight, daily) = Ok st' →
  st' = match last l with
        | Some i => (1, reading col i, <[1 := (initial_weight - reading col i)%Q]> daily)
        | None => (1, new_weight, daily)
        end.
Proof.
  intros Hdays. revert new_weight daily.
  induction Hdays as [| i l (t & Ht & Hday) _ IH]; intros new_weight daily; simpl.
  { by intros [= <-]. }
  rewrite bind_Ok. intros (st1 & Hstep & Hrest).
  unfold fuel_step, at_index in Hstep. rewrite Ht in Hstep.
  cbn [from_option bind] in Hstep. rewrite Hday in Hstep. cbn [Z.sub Z.eqb] in Hstep.
  simpl in Hstep. destruct (col !! i) as [w |] eqn:Ew; [| done].
  cbn [from_option bind] in Hstep. injection Hstep as <-.
  apply IH in Hrest as ->.
  pose proof (nth_lookup_Some _ _ 0%Q _ Ew : reading col i = w) as Hw.
  destruct l as [| i' l]; [simpl; by rewrite Hw |].
  rewrite last_cons_cons.
  destruct (last_is_Some (i' :: l)) as [_ [x Hx]]; [done |].
  rewrite Hx. by rewrite insert_insert_eq.
Qed.

(** X21. When every significant change of a fuel falls within the first 24
    hours of the study, its series carries under day 1 the weight at the
    first change minus the weight at the last one, and 0 under every other
    day. *)
Theorem one_day_fuel_use hh fuel col wc0 rest daily study_began :
  daily_fuel_use hh fuel (wc0 :: rest) = Ok daily →
  channel (df_stoves hh) fuel = Ok col →
  timestamp (df_stoves hh) !! 0%nat = Some study_began →
  Forall (λ i, ∃ t, timestamp (df_stoves hh) !! i = Some t
                    ∧ days (t - study_began) = 0) (wc0 :: rest) →
  daily !! 1 = Some (reading col wc0 - reading col (default wc0 (last rest)))%Q
  ∧ ∀ d v, d ≠ 1 → daily !! d = Some v → v = 0%Q.
Proof.
  intros H Hcol Hbegan Hdays. unfold daily_fuel_use, at_index in H.
  rewrite Hbegan, Hcol in H. cbn [from_option bind lookup list_lookup] in H.
  apply bind_Ok in H as (initial_weight & Hinit & H).
  apply bind_Ok in H as (st & Hloop & H).
  assert (initial_weight = reading col wc0) as ->.
  { unfold reading. destruct (col !! wc0) as [w |] eqn:E; [| done].
    injection Hinit as <-. by rewrite (nth_lookup_Some _ _ _ _ E). }
  apply (fuel_loop_first_day _ _ _ _ _ _ _ _ Hdays) in Hloop.
  assert (last (wc0 :: rest) = Some (default wc0 (last rest))) as Hlast.
  { destruct rest as [| i rest]; [done |]. rewrite last_cons_cons.
    by destruct (last_is_Some (i :: rest)) as [_ [x ->]]. }
  rewrite Hlast in Hloop. subst st. cbn [fst snd] in H.
  destruct (_ =? _); injection H as <-.
  - split; [apply lookup_insert_eq |]. intros d v Hd.
    by rewrite lookup_insert_ne, lookup_empty.
  - split; [apply back_fill_lookup_Some, lookup_insert_eq |].
    intros d v Hd [Hv | Hv]%back_fill_lookup_cases; [| done].
    by rewrite lookup_insert_ne, lookup_empty in Hv.
Qed.

Lemma one_day_fuel_use_witness :
  ∃ daily,
    daily_fuel_use Examples.hh "wood" [1; 3]%nat = Ok daily
    ∧ daily !! 1 = Some (reading [5; 6; 3; 3; 3]%Q 1
                         - reading [5; 6; 3; 3; 3]%Q (default 1%nat (last [3%nat])))%Q
    ∧ ∀ d v, d ≠ 1 → daily !! d = Some v → v = 0%Q.
Proof.
  destruct (daily_fuel_use Examples.hh "wood" [1; 3]%nat) as [daily |] eqn:E;
    [| by vm_compute in E].
  exists daily. split; [done |].
  apply (one_day_fuel_use Examples.hh "wood" [5; 6; 3; 3; 3]%Q 1%nat [3%nat] daily 0 E).
  - reflexivity.
  - reflexivity.
  - repeat constructor; eexists; (split; [reflexivity | reflexivity]).
Defined.
